(** * The agent-evaluation test orchestrator (tests/test_agent_evaluation.py)

    A shallow embedding of the phased pipeline
      Prerequisites -> Setup -> Smoke Test -> Execution -> Verification
    with its exit-time cleanup handler.  The Python script talks to the
    outside world all the time (file system, child processes, clock,
    sockets); every answer of the outside world is read from a [World]
    record, so that a run is a function of its arguments and of the world.
    Every externally visible action is recorded, in program order, as an
    [Event]. *)

From Stdlib Require Import String Ascii List ZArith Lia Bool Arith.
From Stdlib Require Import DecimalString.
Import ListNotations.
Open Scope string_scope.

Set Implicit Arguments.

(* ------------------------------------------------------------------ *)
(** ** Python strings *)

Module PyStr.

(** [sub in s] *)
Fixpoint contains (sub s : string) : bool :=
  if String.prefix sub s then true
  else match s with
       | EmptyString => false
       | String _ t => contains sub t
       end.

(** [s.startswith(p)] *)
Definition startswith (s p : string) : bool := String.prefix p s.

Definition lower_ascii (c : ascii) : ascii :=
  let n := nat_of_ascii c in
  if ((65 <=? n) && (n <=? 90))%nat then ascii_of_nat (n + 32) else c.

(** [s.lower()], on ASCII text *)
Fixpoint lower (s : string) : string :=
  match s with
  | EmptyString => EmptyString
  | String c t => String (lower_ascii c) (lower t)
  end.

(** the characters [str.strip()] removes, on ASCII text *)
Definition is_space (c : ascii) : bool :=
  let n := nat_of_ascii c in
  (((9 <=? n) && (n <=? 13)) || ((28 <=? n) && (n <=? 32)))%nat.

Fixpoint lstrip (s : string) : string :=
  match s with
  | EmptyString => EmptyString
  | String c t => if is_space c then lstrip t else s
  end.

Fixpoint rstrip (s : string) : string :=
  match s with
  | EmptyString => EmptyString
  | String c t =>
      match rstrip t with
      | EmptyString => if is_space c then EmptyString else String c EmptyString
      | t' => String c t'
      end
  end.

(** [s.strip()] *)
Definition strip (s : string) : string := rstrip (lstrip s).

(** [s.replace(old, new)] for a non-empty [old]; [skip] counts the
    characters of a match that are still to be dropped. *)
Fixpoint replace_from (old new s : string) (skip : nat) : string :=
  match s with
  | EmptyString => EmptyString
  | String c t =>
      match skip with
      | S k => replace_from old new t k
      | O =>
          if String.prefix old s
          then new ++ replace_from old new t (String.length old - 1)
          else String c (replace_from old new t 0)
      end
  end.

Definition replace (s old new : string) : string := replace_from old new s 0.

(** [s.split('\n')]: never empty, [''.split('\n') = ['']] *)
Fixpoint split_lines (s : string) : list string :=
  match s with
  | EmptyString => [EmptyString]
  | String c t =>
      if Ascii.eqb c "010"%char then EmptyString :: split_lines t
      else match split_lines t with
           | l :: ls => String c l :: ls
           | [] => [String c EmptyString]
           end
  end.

(** truthiness of a string *)
Definition truthy (s : string) : bool :=
  match s with EmptyString => false | _ => true end.

(** [str(n)] for an int *)
Definition of_Z (z : Z) : string := NilZero.string_of_int (Z.to_int z).

End PyStr.

(* ------------------------------------------------------------------ *)
(** ** Paths (pathlib.Path, absolute, as the list of their components) *)

Definition Path := list string.

Definition path_div (p : Path) (c : string) : Path := (p ++ [c])%list.
Notation "p // c" := (path_div p c) (at level 40, left associativity).

(** [p.parent] *)
Definition path_parent (p : Path) : Path := removelast p.

(** [str(p)] *)
Definition path_str (p : Path) : string := "/" ++ String.concat "/" p.

Fixpoint is_prefix (p q : Path) : bool :=
  match p, q with
  | [], _ => true
  | a :: p', b :: q' => String.eqb a b && is_prefix p' q'
  | _ :: _, [] => false
  end.

(** [q] is [root] itself or lies below it. *)
Definition under (root q : Path) : bool := is_prefix root q.

(* ------------------------------------------------------------------ *)
(** ** datetime.now() and strftime *)

Record DateTime := mkDateTime {
  dt_year : Z; dt_month : Z; dt_day : Z;
  dt_hour : Z; dt_minute : Z; dt_second : Z;
  dt_microsecond : Z
}.

(** The ranges of a clock reading ([%Y] prints four digits from year 1000 on). *)
Definition valid_datetime (t : DateTime) : Prop :=
  (1000 <= dt_year t <= 9999 /\ 1 <= dt_month t <= 12 /\ 1 <= dt_day t <= 31 /\
   0 <= dt_hour t < 24 /\ 0 <= dt_minute t < 60 /\ 0 <= dt_second t < 60 /\
   0 <= dt_microsecond t < 1000000)%Z.

Definition digit (n : Z) : ascii := ascii_of_N (Z.to_N (48 + n mod 10)).

Definition two_digits (n : Z) : string :=
  String (digit (n / 10)) (String (digit n) EmptyString).

Definition four_digits (n : Z) : string :=
  String (digit (n / 1000)) (String (digit (n / 100))
    (String (digit (n / 10)) (String (digit n) EmptyString))).

(** [t.strftime("%Y%m%d-%H%M%S")] *)
Definition strftime_stamp (t : DateTime) : string :=
  four_digits (dt_year t) ++ two_digits (dt_month t) ++ two_digits (dt_day t)
  ++ "-" ++ two_digits (dt_hour t) ++ two_digits (dt_minute t)
  ++ two_digits (dt_second t).

(** What the stamp keeps of a clock reading: everything down to the second. *)
Definition to_the_second (t : DateTime) : Z * Z * Z * Z * Z * Z :=
  (dt_year t, dt_month t, dt_day t, dt_hour t, dt_minute t, dt_second t).

(* ------------------------------------------------------------------ *)
(** ** Exit codes *)

Definition EXIT_SUCCESS : Z := 0.
Definition EXIT_SETUP_FAILED : Z := 1.
Definition EXIT_EXECUTION_FAILED : Z := 2.
Definition EXIT_VERIFICATION_FAILED : Z := 3.

(** Exit status of the interpreter when an exception reaches the top level. *)
Definition EXIT_UNCAUGHT : Z := 1.

(* ------------------------------------------------------------------ *)
(** ** Config *)

Record Config := mkConfig {
  skill_dir : Path;
  timeout_seconds : Z;
  mlflow_port : Z;
  keep_workdir : bool;
  extra_prompt : string;
  tracking_uri : option string;
  openai_api_key : option string;
  (* Runtime state *)
  work_dir : option Path;
  experiment_name : option string;
  experiment_id : option string;
  log_file : option Path;
  mlflow_server_pid : option Z;
  use_external_server : bool;
  (* Constants *)
  mlflow_agent_repo : string
}.

Definition set_use_external_server (b : bool) (c : Config) : Config :=
  mkConfig (skill_dir c) (timeout_seconds c) (mlflow_port c) (keep_workdir c)
    (extra_prompt c) (tracking_uri c) (openai_api_key c) (work_dir c)
    (experiment_name c) (experiment_id c) (log_file c) (mlflow_server_pid c)
    b (mlflow_agent_repo c).

Definition set_work_dir (p : Path) (c : Config) : Config :=
  mkConfig (skill_dir c) (timeout_seconds c) (mlflow_port c) (keep_workdir c)
    (extra_prompt c) (tracking_uri c) (openai_api_key c) (Some p)
    (experiment_name c) (experiment_id c) (log_file c) (mlflow_server_pid c)
    (use_external_server c) (mlflow_agent_repo c).

Definition set_experiment_name (n : string) (c : Config) : Config :=
  mkConfig (skill_dir c) (timeout_seconds c) (mlflow_port c) (keep_workdir c)
    (extra_prompt c) (tracking_uri c) (openai_api_key c) (work_dir c)
    (Some n) (experiment_id c) (log_file c) (mlflow_server_pid c)
    (use_external_server c) (mlflow_agent_repo c).

Definition set_experiment_id (i : string) (c : Config) : Config :=
  mkConfig (skill_dir c) (timeout_seconds c) (mlflow_port c) (keep_workdir c)
    (extra_prompt c) (tracking_uri c) (openai_api_key c) (work_dir c)
    (experiment_name c) (Some i) (log_file c) (mlflow_server_pid c)
    (use_external_server c) (mlflow_agent_repo c).

Definition set_log_file (p : Path) (c : Config) : Config :=
  mkConfig (skill_dir c) (timeout_seconds c) (mlflow_port c) (keep_workdir c)
    (extra_prompt c) (tracking_uri c) (openai_api_key c) (work_dir c)
    (experiment_name c) (experiment_id c) (Some p) (mlflow_server_pid c)
    (use_external_server c) (mlflow_agent_repo c).

Definition set_mlflow_server_pid (pid : Z) (c : Config) : Config :=
  mkConfig (skill_dir c) (timeout_seconds c) (mlflow_port c) (keep_workdir c)
    (extra_prompt c) (tracking_uri c) (openai_api_key c) (work_dir c)
    (experiment_name c) (experiment_id c) (log_file c) (Some pid)
    (use_external_server c) (mlflow_agent_repo c).

(** Truthiness of the optional fields, as [if config.x] tests them. *)
Definition truthy_opt_str (o : option string) : bool :=
  match o with Some s => PyStr.truthy s | None => false end.

Definition truthy_pid (o : option Z) : bool :=
  match o with Some p => negb (p =? 0)%Z | None => false end.

(* ------------------------------------------------------------------ *)
(** ** Exceptions, events and the outside world *)

Inductive Exn :=
| CalledProcessError (cmd : list string) (returncode : Z)
| TimeoutExpired (cmd : list string)
| OSError (what : string)
| TypeError (what : string)
| AttributeError (what : string).

(** The values found in the verification report. *)
Inductive PyVal :=
| PInt (z : Z)
| PBool (b : bool).

(** One piece of an f-string. *)
Inductive Frag :=
| Lit (s : string)
| FStr (s : string)
| FPath (p : Path)
| FInt (z : Z)
| FExn (e : Exn)
| FTime (t : DateTime)
| FVal (v : PyVal).

Inductive LogLevel := INFO | ERROR | SUCCESS | SECTION.

Inductive Signal := SIGTERM | SIG0.

Inductive FsOp :=
| Mkdir | Mkdtemp | Copytree (src : Path) | Copy2 (src : Path) | Rmtree | OpenW.

(** What a run does to the outside, in program order.  A file-system event
    names the path that is created, written or removed. *)
Inductive Event :=
| EvLog (lvl : LogLevel) (msg : list Frag)
| EvPrint (to_stderr : bool) (msg : list Frag)
| EvFs (op : FsOp) (target : Path)
| EvRun (argv : list string) (cwd : option Path) (timeout : option Z)
| EvPopen (argv : list string) (cwd : option Path)
| EvKill (pid : Z) (sig : Signal)
| EvSleep (millis : Z)
| EvSetenv (key value : string)
| EvUncaught (e : Exn).

(** A child process that is waited for without a time limit. *)
Inductive Finished :=
| Exited (returncode : Z) (stdout stderr : string)
| SpawnFailed (what : string).

(** A child process that is waited for with [timeout=]. *)
Inductive Timed :=
| Done (f : Finished)
| TimedOut.

(** Result of a file-system call that may raise OSError. *)
Inductive IO (A : Type) :=
| IoOk (a : A)
| IoErr (what : string).
Arguments IoErr {A} what.

Record SessionItem := mkSessionItem {
  item_name : string;
  item_is_file : bool;
  item_copy : IO unit
}.

(** What the verification child process does.  [VerifyRan d t s]: the
    embedded script ran to its last line, the store answering [d] datasets,
    [t] traces and the scorers listing [s] ([IoErr]: that call raised). *)
Inductive VerifyChild :=
| VerifyNotStarted (what : string)
| VerifyDied (raw_stdout : string)
| VerifyRan (datasets : IO nat) (traces : IO nat) (scorers : IO string).

Inductive Site := AtPrerequisites | AtCleanupCopy | AtCleanupRemove.

Record World := mkWorld {
  w_environ : list (string * string);
  w_home : Path;
  w_now_main : DateTime;
  w_now_setup : DateTime;
  w_which : string -> bool;
  w_exists : Site -> Path -> bool;
  w_port_available : Z -> bool;
  w_mkdir : Path -> IO unit;
  w_mkdtemp : Path -> string -> IO string;
  w_copytree : Path -> Path -> IO unit;
  w_open_write : Path -> IO unit;
  w_read : Path -> IO string;
  w_rmtree : Path -> IO unit;
  w_iterdir : Path -> IO (list SessionItem);
  w_run : list string -> Finished;
  w_json_user_name : string -> option string;
  w_popen : list string -> IO Z;
  w_health : nat -> Timed;
  w_poll : nat -> option Z;
  w_smoke : Timed;
  w_agent : Timed;
  w_verify : VerifyChild;
  w_kill : Z -> IO unit;
  w_alive : nat -> bool
}.

(* ------------------------------------------------------------------ *)
(** ** The monad: state (the shared Config object and os.environ),
       exceptions, and the events emitted so far *)

(** The functions this script hands to [atexit.register]. *)
Inductive Handler := CleanupHandler.

Record St := mkSt {
  cfg : Config;
  environ : list (string * string);
  atexit : list Handler
}.

Inductive Res (A : Type) :=
| Ret (a : A)
| Raise (e : Exn).
Arguments Raise {A} e.

Record Out (A : Type) := mkOut {
  result : Res A;
  state : St;
  events : list Event
}.

Definition M (A : Type) := St -> Out A.

Definition ret {A} (a : A) : M A := fun s => mkOut (Ret a) s [].

Definition raise {A} (e : Exn) : M A := fun s => mkOut (Raise e) s [].

Definition bind {A B} (m : M A) (k : A -> M B) : M B :=
  fun s =>
    let o := m s in
    match result o with
    | Ret a => let o' := k a (state o) in
               mkOut (result o') (state o') (events o ++ events o')%list
    | Raise e => mkOut (Raise e) (state o) (events o)
    end.

Declare Scope py_scope.
Delimit Scope py_scope with py.
Notation "x <- m ;; k" := (bind m (fun x => k))
  (at level 61, m at next level, right associativity) : py_scope.
Notation "m ;; k" := (bind m (fun _ => k))
  (at level 61, right associativity) : py_scope.
Open Scope py_scope.

Definition emit (e : Event) : M unit := fun s => mkOut (Ret tt) s [e].

Definition get_config : M Config := fun s => mkOut (Ret (cfg s)) s [].

Definition update_config (f : Config -> Config) : M unit :=
  fun s => mkOut (Ret tt) (mkSt (f (cfg s)) (environ s) (atexit s)) [].

Definition get_environ : M (list (string * string)) :=
  fun s => mkOut (Ret (environ s)) s [].

(** [os.environ[k] = v] *)
Definition setenv (k v : string) : M unit :=
  fun s => mkOut (Ret tt) (mkSt (cfg s) ((k, v) :: environ s) (atexit s))
                 [EvSetenv k v].

(** [atexit.register(h, config)]: the handler gets the shared Config object,
    so it sees the state the run ends in. *)
Definition atexit_register (h : Handler) : M unit :=
  fun s => mkOut (Ret tt) (mkSt (cfg s) (environ s) (atexit s ++ [h])%list) [].

Fixpoint env_get (env : list (string * string)) (k : string) : option string :=
  match env with
  | [] => None
  | (k', v) :: rest => if String.eqb k k' then Some v else env_get rest k
  end.

(** [try: m except <classes>: h]; [h e = None] when the except clauses do
    not match [e], which then propagates. *)
Definition try_except {A} (m : M A) (h : Exn -> option (M A)) : M A :=
  fun s =>
    let o := m s in
    match result o with
    | Ret a => o
    | Raise e =>
        match h e with
        | Some handler =>
            let o' := handler (state o) in
            mkOut (result o') (state o') (events o ++ events o')%list
        | None => o
        end
    end.

(** lift a file-system answer: OSError on failure *)
Definition io {A} (r : IO A) : M A :=
  match r with
  | IoOk a => ret a
  | IoErr what => raise (OSError what)
  end.

Fixpoint for_each {A} (l : list A) (body : A -> M unit) : M unit :=
  match l with
  | [] => ret tt
  | x :: rest => body x ;; for_each rest body
  end.

Definition is_CalledProcessError (e : Exn) : bool :=
  match e with CalledProcessError _ _ => true | _ => false end.

Definition is_TimeoutExpired (e : Exn) : bool :=
  match e with TimeoutExpired _ => true | _ => false end.

Definition is_OSError (e : Exn) : bool :=
  match e with OSError _ => true | _ => false end.

(** the Logger class *)
Module log.
Definition info (msg : list Frag) : M unit := emit (EvLog INFO msg).
Definition error (msg : list Frag) : M unit := emit (EvLog ERROR msg).
Definition success (msg : list Frag) : M unit := emit (EvLog SUCCESS msg).
Definition section (msg : string) : M unit := emit (EvLog SECTION [Lit msg]).
End log.

Definition print (msg : list Frag) : M unit := emit (EvPrint false msg).
Definition print_stderr (msg : list Frag) : M unit := emit (EvPrint true msg).

Record CompletedProcess := mkCompleted {
  returncode : Z;
  stdout : string;
  stderr : string
}.

(** [subprocess.run(argv, cwd=cwd, check=check)] once the child's fate is known *)
Definition finish (argv : list string) (check : bool) (f : Finished)
  : M CompletedProcess :=
  match f with
  | Exited rc out err =>
      if check && negb (rc =? 0)%Z then raise (CalledProcessError argv rc)
      else ret (mkCompleted rc out err)
  | SpawnFailed what => raise (OSError what)
  end.

Definition subprocess_run (argv : list string) (cwd : option Path)
  (check : bool) (timeout : option Z) (fate : Timed) : M CompletedProcess :=
  emit (EvRun argv cwd timeout) ;;
  match fate with
  | Done f => finish argv check f
  | TimedOut => raise (TimeoutExpired argv)
  end.

(* ------------------------------------------------------------------ *)
(** ** The script, function by function *)

Inductive LoopExit := LoopBreak | LoopReturn | LoopElse.

Definition catch_all {A} (h : Exn -> M A) : Exn -> option (M A) :=
  fun e => Some (h e).

Definition catch_if {A} (cls : Exn -> bool) (h : Exn -> M A)
  : Exn -> option (M A) :=
  fun e => if cls e then Some (h e) else None.

Definition opt_path_or (o : option Path) (dflt : string) : Frag :=
  match o with Some p => FPath p | None => Lit dflt end.

Definition opt_str_or (o : option string) (dflt : string) : Frag :=
  match o with Some s => if PyStr.truthy s then FStr s else Lit dflt
             | None => Lit dflt end.

Definition opt_str (o : option string) : Frag :=
  match o with Some s => FStr s | None => Lit "None" end.

(** [ok = step; if not ok: return False; rest] *)
Definition and_then (step rest : M bool) : M bool :=
  ok <- step ;; if ok : bool then rest else ret false.
Notation "step 'else_return_False' ;; rest" := (and_then step rest)
  (at level 61, right associativity) : py_scope.

(** [config.tracking_uri] where the code uses it as a str *)
Definition the_tracking_uri (config : Config) : M string :=
  match tracking_uri config with
  | Some u => ret u
  | None => raise (AttributeError "'NoneType' object has no attribute 'startswith'")
  end.

(* ------------------------------------------------------------------ *)
(** ** The verification report: a dict of dicts, in key order.  The child
       prints it with json.dumps and the parent reads it back with
       json.loads; the two are taken to be inverse on these reports. *)

Definition Dict := list (string * PyVal).
Definition Results := list (string * Dict).

Fixpoint dict_get {V} (d : list (string * V)) (k : string) : option V :=
  match d with
  | [] => None
  | (k', v) :: rest => if String.eqb k k' then Some v else dict_get rest k
  end.

(** [d[k] = v] *)
Fixpoint dict_set {V} (d : list (string * V)) (k : string) (v : V)
  : list (string * V) :=
  match d with
  | [] => [(k, v)]
  | (k', v') :: rest =>
      if String.eqb k k' then (k, v) :: rest else (k', v') :: dict_set rest k v
  end.

(** [d.get(k, {})] *)
Definition get_dict (results : Results) (k : string) : Dict :=
  match dict_get results k with Some d => d | None => [] end.

(** [results[category][key] = v] *)
Definition set_entry (results : Results) (category key : string) (v : PyVal)
  : Results :=
  dict_set results category (dict_set (get_dict results category) key v).

(** truthiness of [d.get("pass")] *)
Definition truthy_val (o : option PyVal) : bool :=
  match o with
  | Some (PBool b) => b
  | Some (PInt z) => negb (z =? 0)%Z
  | None => false
  end.

(** [d.get('found', 0)] *)
Definition found (d : Dict) : PyVal :=
  match dict_get d "found" with Some v => v | None => PInt 0 end.

Module VerificationScript.

(** The text handed to [python -c]. *)
Definition verification_code (experiment_id : string) : string :=
"
import sys
import json
import subprocess
from mlflow import MlflowClient

experiment_id = '" ++ experiment_id ++ "'
client = MlflowClient()

results = {
    'datasets': {'found': 0, 'pass': False},
    'scorers': {'found': 0, 'pass': False},
    'traces': {'found': 0, 'with_assessments': 0, 'pass': False}
}

# Check datasets
try:
    datasets = client.search_datasets(experiment_ids=[experiment_id])
    results['datasets']['found'] = len(datasets)
    results['datasets']['pass'] = len(datasets) >= 1
except Exception as e:
    print(f'Warning: Error checking datasets: {e}', file=sys.stderr)

# Check traces
try:
    traces = client.search_traces(experiment_ids=[experiment_id])
    results['traces']['found'] = len(traces)
    results['traces']['pass'] = len(traces) >= 1
except Exception as e:
    print(f'Warning: Error checking traces: {e}', file=sys.stderr)

# Check scorers
try:
    scorer_result = subprocess.run(
        ['uv', 'run', 'python', '-m', 'mlflow', 'scorers', 'list', '-x', experiment_id],
        capture_output=True,
        text=True
    )
    lines = [l for l in scorer_result.stdout.strip().split('\n') if l and not l.startswith('---') and 'Name' not in l]
    results['scorers']['found'] = len(lines)
    results['scorers']['pass'] = len(lines) >= 1
except Exception as e:
    print(f'Warning: Error checking scorers: {e}', file=sys.stderr)

print(json.dumps(results))
".

(** What that text computes. *)

Definition initial_results : Results :=
  [("datasets", [("found", PInt 0); ("pass", PBool false)]);
   ("scorers", [("found", PInt 0); ("pass", PBool false)]);
   ("traces", [("found", PInt 0); ("with_assessments", PInt 0);
               ("pass", PBool false)])].

Record Report := mkReport {
  results : Results;
  warnings : list (list Frag)
}.

(** One [try: ... except Exception as e: print(warning)] block; [answer] is
    the length the store query comes back with. *)
Definition check (category : string) (answer : IO nat) (r : Report) : Report :=
  match answer with
  | IoOk n =>
      mkReport
        (set_entry (set_entry (results r) category "found" (PInt (Z.of_nat n)))
           category "pass" (PBool (1 <=? n)%nat))
        (warnings r)
  | IoErr what =>
      mkReport (results r)
        (warnings r ++ [[Lit "Warning: Error checking "; Lit category; Lit ": ";
                         FStr what]])%list
  end.

(** The list comprehension over the lines of the scorers listing. *)
Definition scorer_lines (listing : string) : list string :=
  filter (fun l => PyStr.truthy l && negb (PyStr.startswith l "---")
                   && negb (PyStr.contains "Name" l))
    (PyStr.split_lines (PyStr.strip listing)).

Definition count_scorers (listing : IO string) : IO nat :=
  match listing with
  | IoOk text => IoOk (List.length (scorer_lines text))
  | IoErr what => IoErr what
  end.

Definition run (datasets traces : IO nat) (scorers : IO string) : Report :=
  check "scorers" (count_scorers scorers)
    (check "traces" traces
       (check "datasets" datasets (mkReport initial_results []))).

End VerificationScript.

(** Standard output of the verification child: the dump of a report, or
    some other text that json.loads rejects. *)
Inductive ChildStdout :=
| Text (raw : string)
| JsonDump (r : Results).

(** Command-line arguments, as argparse hands them over. *)
Record Args := mkArgs {
  a_skill_dir : Path;
  a_timeout_seconds : Z;
  a_mlflow_port : Z;
  a_keep_workdir : bool;
  a_extra_prompt : string;
  a_tracking_uri : option string
}.

Record Exit := mkExit {
  exit_code : Z;
  trace : list Event;
  final : St
}.

Section Orchestrator.

Variable W : World.

Definition run_command (cmd : list string) (cwd : option Path) (check : bool)
  : M CompletedProcess :=
  subprocess_run cmd cwd check None (Done (w_run W cmd)).

Definition command_exists (cmd : string) : bool := w_which W cmd.

Definition is_port_available (port : Z) : bool := w_port_available W port.

(** *** File-system and process primitives *)

Definition mkdir (p : Path) : M unit :=
  emit (EvFs Mkdir p) ;; io (w_mkdir W p).

Definition mkdtemp (prefix : string) (dir : Path) : M Path :=
  suffix <- io (w_mkdtemp W dir prefix) ;;
  emit (EvFs Mkdtemp (dir // (prefix ++ suffix))) ;;
  ret (dir // (prefix ++ suffix)).

Definition copytree (src dst : Path) : M unit :=
  emit (EvFs (Copytree src) dst) ;; io (w_copytree W src dst).

Definition open_write (p : Path) : M unit :=
  emit (EvFs OpenW p) ;; io (w_open_write W p).

Definition rmtree (p : Path) : M unit :=
  emit (EvFs Rmtree p) ;; io (w_rmtree W p).

Definition sleep (millis : Z) : M unit := emit (EvSleep millis).

(** [os.kill(pid, signal.SIGTERM)] *)
Definition kill_term (pid : Z) : M unit :=
  emit (EvKill pid SIGTERM) ;; io (w_kill W pid).

(** [os.kill(pid, 0)], the [i]-th time it is asked *)
Definition kill_probe (pid : Z) (i : nat) : M unit :=
  emit (EvKill pid SIG0) ;;
  if w_alive W i then ret tt else raise (OSError "No such process").

(** [config.work_dir / name]; a TypeError while [work_dir] is None *)
Definition work_dir_div (config : Config) (name : string) : M Path :=
  match work_dir config with
  | Some wd => ret (wd // name)
  | None => raise (TypeError "unsupported operand type(s) for /: 'NoneType' and 'str'")
  end.

(** *** cleanup *)

Definition copy_item (session_dir dest_dir : Path) (item : SessionItem)
  : M unit :=
  if item_is_file item
  then emit (EvFs (Copy2 (session_dir // item_name item)) dest_dir) ;;
       io (item_copy item)
  else emit (EvFs (Copytree (session_dir // item_name item))
               (dest_dir // item_name item)) ;;
       io (item_copy item).

(** [for _ in range(n): try: os.kill(pid, 0); time.sleep(0.5)
                        except OSError: break] *)
Fixpoint wait_for_exit (pid : Z) (n i : nat) : M unit :=
  match n with
  | O => ret tt
  | S n' =>
      again <- try_except
                 (kill_probe pid i ;; sleep 500 ;; ret true)
                 (catch_if is_OSError (fun _ => ret false)) ;;
      if again : bool then wait_for_exit pid n' (S i) else ret tt
  end.

Definition copy_session_logs (wd : Path) : M unit :=
  let claude_projects_dir := w_home W // ".claude" // "projects" in
  let project_path_encoded :=
    PyStr.replace (path_str (wd // "mlflow-agent")) "/" "-" in
  let session_dir := claude_projects_dir // project_path_encoded in
  if w_exists W AtCleanupCopy session_dir then
    log.info [Lit "Copying Claude session logs..."] ;;
    let dest_dir := wd // "claude-sessions" in
    mkdir dest_dir ;;
    try_except
      (items <- io (w_iterdir W session_dir) ;;
       for_each items (copy_item session_dir dest_dir) ;;
       log.info [Lit "Claude session logs copied to: "; FPath dest_dir])
      (catch_all (fun e =>
         log.error [Lit "Failed to copy session logs: "; FExn e]))
  else ret tt.

Definition stop_server (pid : Z) : M unit :=
  log.info [Lit "Stopping MLflow server (PID: "; FInt pid; Lit ")..."] ;;
  try_except
    (kill_term pid ;;
     wait_for_exit pid 10 0 ;;
     log.info [Lit "MLflow server stopped"])
    (catch_if is_OSError (fun _ => ret tt)).

Definition remove_or_keep (config : Config) (wd : Path) : M unit :=
  if negb (keep_workdir config) then
    log.info [Lit "Removing working directory: "; FPath wd] ;;
    rmtree wd
  else
    log.info [Lit "Keeping working directory: "; FPath wd] ;;
    log.info [Lit "  Claude Code output log: ";
              opt_path_or (log_file config) "N/A"] ;;
    log.info [Lit "  Claude session logs: "; FPath wd; Lit "/claude-sessions/"] ;;
    (if use_external_server config
     then log.info [Lit "  MLflow tracking URI: "; opt_str (tracking_uri config)]
     else log.info [Lit "  MLflow data: "; FPath wd; Lit "/mlflow-data"]) ;;
    log.info [Lit "  Evaluation experiment ID: ";
              opt_str_or (experiment_id config) "N/A"].

Definition cleanup : M unit :=
  log.section "Cleanup" ;;
  config <- get_config ;;
  (* Copy Claude session logs to work directory *)
  match work_dir config with
  | Some wd =>
      if w_exists W AtCleanupCopy wd then copy_session_logs wd else ret tt
  | None => ret tt
  end ;;
  (* Stop MLflow server if we started one *)
  match mlflow_server_pid config with
  | Some pid =>
      if negb (pid =? 0)%Z && negb (use_external_server config)
      then stop_server pid else ret tt
  | None => ret tt
  end ;;
  (* Remove or keep working directory *)
  match work_dir config with
  | Some wd =>
      if w_exists W AtCleanupRemove wd then remove_or_keep config wd
      else ret tt
  | None => ret tt
  end.

(** *** check_prerequisites *)

Definition missing_commands : list string :=
  ((if command_exists "claude" then [] else ["claude (Claude Code CLI)"])
   ++ (if command_exists "git" then [] else ["git"])
   ++ (if command_exists "uv" then [] else ["uv (Python package manager)"]))%list.

Definition check_prerequisites : M bool :=
  log.section "Checking Prerequisites" ;;
  config <- get_config ;;
  match missing_commands with
  | _ :: _ =>
      log.error [Lit "Missing required commands:"] ;;
      for_each missing_commands (fun dep => log.error [Lit "  - "; FStr dep]) ;;
      ret false
  | [] =>
      log.info [Lit "All required commands available: claude, git, uv"] ;;
      if negb (w_exists W AtPrerequisites (skill_dir config)) then
        log.error [Lit "Skill directory not found: "; FPath (skill_dir config)] ;;
        ret false
      else if negb (w_exists W AtPrerequisites (skill_dir config // "SKILL.md")) then
        log.error [Lit "SKILL.md not found in: "; FPath (skill_dir config)] ;;
        ret false
      else
        log.info [Lit "Skill directory found: "; FPath (skill_dir config)] ;;
        if truthy_opt_str (tracking_uri config) then
          update_config (set_use_external_server true) ;;
          log.info [Lit "Using external MLflow server: ";
                    opt_str (tracking_uri config)] ;;
          log.success [Lit "All prerequisites satisfied"] ;;
          ret true
        else if negb (is_port_available (mlflow_port config)) then
          log.error [Lit "Port "; FInt (mlflow_port config);
                     Lit " is already in use"] ;;
          log.error [Lit "Set --mlflow-port to use a different port"] ;;
          ret false
        else
          log.info [Lit "Port "; FInt (mlflow_port config); Lit " is available"] ;;
          log.success [Lit "All prerequisites satisfied"] ;;
          ret true
  end.

(** *** start_mlflow_server *)

Definition max_attempts : nat := 30.

Definition health_url (port : Z) : string :=
  "http://127.0.0.1:" ++ PyStr.of_Z port ++ "/health".

Definition report_server_log (headline : string) (log_file : Path) : M unit :=
  log.error [Lit headline] ;;
  log.error [Lit "Check log: "; FPath log_file] ;;
  contents <- io (w_read W log_file) ;;
  print_stderr [FStr contents].

(** The [for attempt in range(max_attempts)] loop; [attempt] is the
    index of the probe about to be made, [remaining] what is left of the
    range. *)
Fixpoint wait_until_ready (log_file : Path) (port : Z) (remaining attempt : nat)
  : M LoopExit :=
  match remaining with
  | O => ret LoopElse
  | S remaining' =>
      healthy <- try_except
        (r <- subprocess_run ["curl"; "-s"; health_url port] None false
                (Some 2%Z) (w_health W attempt) ;;
         ret (returncode r =? 0)%Z)
        (catch_all (fun _ => ret false)) ;;
      if healthy : bool then ret LoopBreak
      else
        (* Check if process died *)
        match w_poll W attempt with
        | Some _ =>
            report_server_log "MLflow server process died" log_file ;;
            ret LoopReturn
        | None =>
            sleep 1000 ;;
            wait_until_ready log_file port remaining' (S attempt)
        end
  end.

Definition mlflow_server_argv (port : Z) (backend_store artifact_root : string)
  : list string :=
  ["uv"; "run"; "python"; "-m"; "mlflow"; "server"; "--host"; "127.0.0.1";
   "--port"; PyStr.of_Z port; "--backend-store-uri"; backend_store;
   "--default-artifact-root"; artifact_root].

Definition start_mlflow_server : M bool :=
  log.section "Starting Local MLflow Server" ;;
  config <- get_config ;;
  mlflow_data_dir <- work_dir_div config "mlflow-data" ;;
  mkdir mlflow_data_dir ;;
  mkdir (mlflow_data_dir // "artifacts") ;;
  let backend_store := "sqlite:///" ++ path_str mlflow_data_dir ++ "/mlflow.db" in
  let artifact_root := path_str (mlflow_data_dir // "artifacts") in
  log.info [Lit "Backend store: "; FStr backend_store] ;;
  log.info [Lit "Artifact root: "; FStr artifact_root] ;;
  log.info [Lit "Starting server on port "; FInt (mlflow_port config); Lit "..."] ;;
  (* Start MLflow server in background *)
  log_file <- work_dir_div config "mlflow-server.log" ;;
  open_write log_file ;;
  cwd <- work_dir_div config "mlflow-agent" ;;
  let argv := mlflow_server_argv (mlflow_port config) backend_store artifact_root in
  emit (EvPopen argv (Some cwd)) ;;
  pid <- io (w_popen W argv) ;;
  update_config (set_mlflow_server_pid pid) ;;
  (* Wait for server to be ready *)
  how <- wait_until_ready log_file (mlflow_port config) max_attempts 0 ;;
  match how with
  | LoopReturn => ret false
  | LoopElse =>
      report_server_log "MLflow server failed to start (timeout)" log_file ;;
      ret false
  | LoopBreak =>
      log.info [Lit "MLflow server started (PID: "; FInt pid; Lit ")"] ;;
      (* Set tracking URI *)
      let tracking_uri := "http://127.0.0.1:" ++ PyStr.of_Z (mlflow_port config) in
      setenv "MLFLOW_TRACKING_URI" tracking_uri ;;
      log.info [Lit "MLFLOW_TRACKING_URI set to: "; FStr tracking_uri] ;;
      log.success [Lit "MLflow server is ready"] ;;
      ret true
  end.


(** *** setup_phase *)

Definition clone_repository (config : Config) (wd : Path) : M bool :=
  log.info [Lit "Cloning mlflow-agent repository..."] ;;
  try_except
    (run_command ["git"; "clone"; "--depth"; "1"; mlflow_agent_repo config;
                  path_str (wd // "mlflow-agent")] None true ;;
     log.info [Lit "Repository cloned successfully"] ;;
     ret true)
    (catch_if is_CalledProcessError (fun e =>
       log.error [Lit "Failed to clone repository: "; FExn e] ;;
       ret false)).

Definition install_skill (config : Config) (wd : Path) : M unit :=
  log.info [Lit "Setting up agent-evaluation skill in .claude/skills/..."] ;;
  let skills_dir := wd // "mlflow-agent" // ".claude" // "skills" in
  mkdir skills_dir ;;
  copytree (skill_dir config) (skills_dir // "agent-evaluation") ;;
  log.info [Lit "Skill installed at: "; FPath (skills_dir // "agent-evaluation")].

Definition install_dependencies (project_dir : Path) : M bool :=
  log.info [Lit "Installing Python dependencies with uv sync..."] ;;
  try_except
    (run_command ["uv"; "sync"] (Some project_dir) true ;;
     log.info [Lit "Dependencies installed successfully"] ;;
     ret true)
    (catch_if is_CalledProcessError (fun e =>
       log.error [Lit "Failed to install dependencies: "; FExn e] ;;
       ret false)).

Definition add_mlflow_package (project_dir : Path) : M bool :=
  log.info [Lit "Adding mlflow package..."] ;;
  try_except
    (run_command ["uv"; "add"; "mlflow"] (Some project_dir) true ;;
     log.info [Lit "MLflow package added"] ;;
     ret true)
    (catch_if is_CalledProcessError (fun e =>
       log.error [Lit "Failed to add mlflow package: "; FExn e] ;;
       ret false)).

Definition configure_external_server (config : Config) (project_dir : Path)
  : M bool :=
  log.section "Using External MLflow Server" ;;
  uri <- match tracking_uri config with
         | Some u => ret u
         | None => raise (TypeError "str expected, not NoneType")
         end ;;
  setenv "MLFLOW_TRACKING_URI" uri ;;
  log.info [Lit "MLFLOW_TRACKING_URI set to: "; FStr uri] ;;
  (* Install Databricks packages if needed *)
  (if PyStr.startswith uri "databricks://" then
     log.info [Lit "Installing Databricks packages for Unity Catalog dataset support..."] ;;
     try_except
       (run_command ["uv"; "add"; "databricks-agents"; "databricks-connect"]
          (Some project_dir) true ;;
        log.info [Lit "Databricks packages installed (databricks-agents, databricks-connect)"])
       (catch_if is_CalledProcessError (fun _ =>
          log.error [Lit "Failed to install Databricks packages"] ;;
          log.error [Lit "Dataset operations may fail without databricks-agents and databricks-connect"]))
          (* Don't fail - evaluation can still work with local DataFrames *)
   else ret tt) ;;
  log.success [Lit "External MLflow server configured"] ;;
  ret true.

(** [f"agent-eval-test-{timestamp}"] *)
Definition base_experiment_name (now : DateTime) : string :=
  "agent-eval-test-" ++ strftime_stamp now.

(** [f"/Users/{db_user}/{base_experiment_name}"] *)
Definition databricks_experiment_name (db_user base : string) : string :=
  "/Users/" ++ db_user ++ "/" ++ base.

Definition databricks_user (db_profile : string) : M string :=
  try_except
    (r <- run_command ["databricks"; "current-user"; "me"; "-p"; db_profile]
            None true ;;
     match w_json_user_name W (stdout r) with
     | Some user => ret user
     | None => raise (AttributeError "json")
     end)
    (catch_all (fun _ => ret "")).

Definition choose_experiment_name (config : Config) : M bool :=
  let base := base_experiment_name (w_now_setup W) in
  databricks <- (if use_external_server config
                 then uri <- the_tracking_uri config ;;
                      ret (PyStr.startswith uri "databricks://")
                 else ret false) ;;
  if databricks : bool then
    uri <- the_tracking_uri config ;;
    let db_profile := PyStr.replace uri "databricks://" "" in
    log.info [Lit "Detecting Databricks workspace user for profile: ";
              FStr db_profile] ;;
    db_user <- databricks_user db_profile ;;
    if negb (PyStr.truthy db_user) then
      log.error [Lit "Failed to get Databricks user. Make sure 'databricks auth login -p ";
                 FStr db_profile; Lit "' has been run."] ;;
      ret false
    else
      update_config (set_experiment_name (databricks_experiment_name db_user base)) ;;
      log.info [Lit "Using Databricks workspace path for experiment"] ;;
      ret true
  else
    update_config (set_experiment_name base) ;;
    ret true.

Definition create_experiment_argv (name : string) : list string :=
  ["uv"; "run"; "python"; "-c";
   "import mlflow; print(mlflow.create_experiment('" ++ name ++ "'))"].

Definition create_experiment (project_dir : Path) : M bool :=
  config <- get_config ;;
  let name := match experiment_name config with Some n => n | None => "None" end in
  log.info [Lit "Creating test experiment: "; FStr name] ;;
  try_except
    (r <- run_command (create_experiment_argv name) (Some project_dir) true ;;
     let id := PyStr.strip (stdout r) in
     update_config (set_experiment_id id) ;;
     if negb (PyStr.truthy id) || PyStr.contains "Error" id
        || PyStr.contains "Traceback" id then
       log.error [Lit "Failed to create test experiment: "; FStr id] ;;
       ret false
     else
       log.info [Lit "Created evaluation experiment with ID: "; FStr id] ;;
       ret true)
    (catch_if is_CalledProcessError (fun e =>
       log.error [Lit "Failed to create experiment: "; FExn e] ;;
       ret false)).

Definition export_experiment : M bool :=
  config <- get_config ;;
  (* Set experiment ID *)
  match experiment_id config with
  | Some id => setenv "MLFLOW_EXPERIMENT_ID" id
  | None => raise (TypeError "str expected, not NoneType")
  end ;;
  (* Set OpenAI API key if provided *)
  match openai_api_key config with
  | Some key =>
      if PyStr.truthy key then
        setenv "OPENAI_API_KEY" key ;;
        log.info [Lit "OPENAI_API_KEY set (for MLflow scorers)"]
      else ret tt
  | None => ret tt
  end ;;
  log.success [Lit "Setup phase completed"] ;;
  ret true.

Definition setup_phase : M bool :=
  log.section "Setup Phase" ;;
  config <- get_config ;;
  (* Create working directory *)
  let repo_root := path_parent (skill_dir config) in
  let test_runs_dir := repo_root // "test-runs" in
  mkdir test_runs_dir ;;
  wd <- mkdtemp "agent-eval-test-" test_runs_dir ;;
  update_config (set_work_dir wd) ;;
  log.info [Lit "Created working directory: "; FPath wd] ;;
  (* Clone mlflow-agent repository *)
  clone_repository config wd else_return_False ;;
  (* Copy skill to .claude/skills directory *)
  install_skill config wd ;;
  let project_dir := wd // "mlflow-agent" in
  (* Install dependencies *)
  install_dependencies project_dir else_return_False ;;
  (* Add mlflow package *)
  add_mlflow_package project_dir else_return_False ;;
  (* Start local MLflow server or use external one *)
  (if use_external_server config
   then configure_external_server config project_dir
   else start_mlflow_server) else_return_False ;;
  (* Create test experiment *)
  choose_experiment_name config else_return_False ;;
  create_experiment project_dir else_return_False ;;
  export_experiment.


(** *** test_claude_headless *)

Definition smoke_argv : list string :=
  ["claude"; "-p"; "Say hello world"; "--allowedTools"; ""].

Definition test_claude_headless : M bool :=
  log.section "Testing Claude Code Headless Mode" ;;
  config <- get_config ;;
  project_dir <- work_dir_div config "mlflow-agent" ;;
  log.info [Lit "Running simple Claude Code test query..."] ;;
  answer <- try_except
    (r <- subprocess_run smoke_argv (Some project_dir) false (Some 120%Z)
            (w_smoke W) ;;
     ret (Some (stdout r ++ stderr r)))
    (fun e =>
       if is_TimeoutExpired e then
         Some (log.error [Lit "Claude Code headless mode test timed out"] ;;
               ret None)
       else
         Some (log.error [Lit "Claude Code headless mode test failed: "; FExn e] ;;
               ret None)) ;;
  match answer with
  | None => ret false
  | Some output =>
      if negb (PyStr.truthy output) then
        log.error [Lit "Claude Code headless mode test failed - no output"] ;;
        ret false
      else if PyStr.contains "error" (PyStr.lower output)
              && PyStr.contains "Error" output then
        log.error [Lit "Claude Code headless mode test failed"] ;;
        log.error [Lit "Output: "; FStr output] ;;
        ret false
      else
        log.info [Lit "Claude Code responded: "; FStr (substring 0 100 output);
                  Lit "..."] ;;
        log.success [Lit "Claude Code headless mode is working"] ;;
        ret true
  end.

(** *** run_claude_code *)

Definition base_prompt : string :=
  "Evaluate the output quality of my agent. Do not ask for input.".

Definition agent_argv (full_prompt : string) : list string :=
  ["claude"; "-p"; full_prompt; "--dangerously-skip-permissions";
   "--allowedTools"; "Bash,Read,Write,Edit,Grep,Glob,WebFetch"].

Definition env_or_not_set (env : list (string * string)) (k : string) : Frag :=
  match env_get env k with Some v => FStr v | None => Lit "not set" end.

(** How the [try] block around the invocation ends. *)
Inductive Invocation :=
| ExitCode (code : Z)
| Return (b : bool).

Definition run_claude_code : M bool :=
  log.section "Running Claude Code Evaluation" ;;
  config <- get_config ;;
  log_file <- work_dir_div config "claude_output.log" ;;
  update_config (set_log_file log_file) ;;
  project_dir <- work_dir_div config "mlflow-agent" ;;
  log.info [Lit "Changing to mlflow-agent directory..."] ;;
  (* Build the prompt *)
  let full_prompt := if PyStr.truthy (extra_prompt config)
                     then base_prompt ++ " " ++ extra_prompt config
                     else base_prompt in
  (if PyStr.truthy (extra_prompt config)
   then log.info [Lit "Extra prompt: "; FStr (extra_prompt config)]
   else ret tt) ;;
  log.info [Lit "Executing Claude Code with agent-evaluation skill..."] ;;
  log.info [Lit "Prompt: "; FStr full_prompt] ;;
  log.info [Lit "Timeout: "; FInt (timeout_seconds config); Lit " seconds"] ;;
  log.info [Lit "Log file: "; FPath log_file] ;;
  env <- get_environ ;;
  log.info [Lit "MLFLOW_TRACKING_URI: "; env_or_not_set env "MLFLOW_TRACKING_URI"] ;;
  log.info [Lit "MLFLOW_EXPERIMENT_ID: "; env_or_not_set env "MLFLOW_EXPERIMENT_ID"] ;;
  (* Run Claude Code with explicit environment *)
  how <- try_except
    (open_write log_file ;;
     r <- subprocess_run (agent_argv full_prompt) (Some project_dir) false
            (Some (timeout_seconds config)) (w_agent W) ;;
     ret (ExitCode (returncode r)))
    (fun e =>
       if is_TimeoutExpired e then
         Some (log.info [Lit "Claude Code execution timed out after ";
                         FInt (timeout_seconds config); Lit " seconds"] ;;
               log.info [Lit "Will still verify if artifacts were created before timeout"] ;;
               (* Don't return - continue to verification *)
               ret (Return true))
       else
         Some (log.error [Lit "Claude Code execution failed: "; FExn e] ;;
               ret (Return false))) ;;
  match how with
  | Return b => ret b
  | ExitCode exit_code =>
      if negb (exit_code =? 0)%Z then
        log.error [Lit "Claude Code exited with code: "; FInt exit_code] ;;
        log.error [Lit "Check log file for details: "; FPath log_file] ;;
        ret false
      else
        log.success [Lit "Claude Code execution completed"] ;;
        ret true
  end.


(** *** verify_results *)

Definition verification_argv (config : Config) : list string :=
  ["uv"; "run"; "python"; "-c";
   VerificationScript.verification_code
     (match experiment_id config with Some id => id | None => "None" end)].

(** [run_command([...], cwd=project_dir, check=False).stdout.strip()] *)
Definition run_verification_child (config : Config) (project_dir : Path)
  : M ChildStdout :=
  emit (EvRun (verification_argv config) (Some project_dir) None) ;;
  match w_verify W with
  | VerifyNotStarted what => raise (OSError what)
  | VerifyDied raw => ret (Text (PyStr.strip raw))
  | VerifyRan d t s => ret (JsonDump (VerificationScript.results
                                        (VerificationScript.run d t s)))
  end.

Definition report_category (results : Results) (key : string)
  (label unit_ : string) : M bool :=
  let d := get_dict results key in
  if truthy_val (dict_get d "pass") then
    print [Lit "  [PASS] "; Lit label; Lit ": "; FVal (found d); Lit " "; Lit unit_] ;;
    ret true
  else
    print [Lit "  [FAIL] "; Lit label; Lit ": "; FVal (found d); Lit " "; Lit unit_;
           Lit " (expected >= 1)"] ;;
    ret false.

Definition verify_results : M bool :=
  log.section "Verification Phase" ;;
  config <- get_config ;;
  project_dir <- work_dir_div config "mlflow-agent" ;;
  log.info [Lit "Running verification checks..."] ;;
  child <- try_except
    (out <- run_verification_child config project_dir ;; ret (Some out))
    (catch_all (fun e =>
       log.error [Lit "Verification script failed: "; FExn e] ;;
       ret None)) ;;
  match child with
  | None => ret false
  | Some (Text EmptyString) =>
      log.error [Lit "Verification script failed to produce output"] ;;
      ret false
  | Some (Text raw) =>
      log.error [Lit "Failed to parse verification results: "; Lit "JSONDecodeError"] ;;
      log.error [Lit "Raw output: "; FStr raw] ;;
      ret false
  | Some (JsonDump results) =>
      log.info [Lit "Verification Results:"] ;;
      print [] ;;
      (* Datasets check *)
      datasets_pass <- report_category results "datasets" "Datasets" "created" ;;
      (* Scorers check *)
      scorers_pass <- report_category results "scorers" "Scorers" "registered" ;;
      (* Traces check *)
      traces_pass <- report_category results "traces" "Evaluation runs"
                       "traces created" ;;
      let all_pass := datasets_pass && scorers_pass && traces_pass in
      print [] ;;
      if all_pass then
        log.success [Lit "All verification checks passed"] ;;
        ret true
      else
        log.error [Lit "Some verification checks failed"] ;;
        ret false
  end.

(** *** main *)

Definition initial_config (args : Args) : Config :=
  mkConfig (a_skill_dir args) (a_timeout_seconds args) (a_mlflow_port args)
    (a_keep_workdir args) (a_extra_prompt args)
    (match a_tracking_uri args with
     | Some u => Some u
     | None => env_get (w_environ W) "MLFLOW_TRACKING_URI"
     end)
    (env_get (w_environ W) "OPENAI_API_KEY")
    None None None None None false
    "https://github.com/alkispoly-db/mlflow-agent".

Definition when (b : bool) (m : M unit) : M unit := if b then m else ret tt.

Definition main_body : M Z :=
  (* Register cleanup handler *)
  atexit_register CleanupHandler ;;
  config <- get_config ;;
  log.section "Agent Evaluation Skill Test" ;;
  log.info [Lit "Starting test at "; FTime (w_now_main W)] ;;
  when (PyStr.truthy (extra_prompt config))
    (log.info [Lit "Extra prompt argument: "; FStr (extra_prompt config)]) ;;
  when (truthy_opt_str (tracking_uri config))
    (log.info [Lit "External MLflow URI: "; opt_str (tracking_uri config)]) ;;
  when (truthy_opt_str (openai_api_key config))
    (log.info [Lit "OPENAI_API_KEY: provided (for MLflow scorers)"]) ;;
  (* Phase 1: Check prerequisites *)
  ok <- check_prerequisites ;;
  if negb ok then
    log.error [Lit "Prerequisites check failed"] ;;
    ret EXIT_SETUP_FAILED
  else
  (* Phase 2: Setup *)
  ok <- setup_phase ;;
  if negb ok then
    log.error [Lit "Setup phase failed"] ;;
    ret EXIT_SETUP_FAILED
  else
  (* Phase 3: Test Claude Code headless mode *)
  ok <- test_claude_headless ;;
  if negb ok then
    log.error [Lit "Claude Code headless mode test failed"] ;;
    ret EXIT_SETUP_FAILED
  else
  (* Phase 4: Run Claude Code evaluation *)
  ok <- run_claude_code ;;
  if negb ok then
    log.error [Lit "Claude Code execution failed"] ;;
    config <- get_config ;;
    log.error [Lit "Check log file: "; opt_path_or (log_file config) "None"] ;;
    ret EXIT_EXECUTION_FAILED
  else
  (* Phase 5: Verify results *)
  ok <- verify_results ;;
  if negb ok then
    log.error [Lit "Verification failed"] ;;
    ret EXIT_VERIFICATION_FAILED
  else
    config <- get_config ;;
    log.section "Test Completed Successfully" ;;
    log.info [Lit "Experiment: "; opt_str (experiment_name config); Lit " (ID: ";
              opt_str (experiment_id config); Lit ")"] ;;
    log.info [Lit "All evaluation artifacts were created as expected"] ;;
    ret EXIT_SUCCESS.

(** [main()], from the Config it builds out of the parsed arguments *)
Definition main (args : Args) : Out Z :=
  main_body (mkSt (initial_config args) (w_environ W) []).

(** *** Interpreter exit: [sys.exit(main())] and the atexit handlers *)

Definition call_handler (h : Handler) : M unit :=
  match h with CleanupHandler => cleanup end.

(** Handlers run one after the other; an exception escaping one of them is
    printed and the next handler runs. *)
Fixpoint run_exit_handlers (hs : list Handler) : M unit :=
  match hs with
  | [] => ret tt
  | h :: rest =>
      try_except (call_handler h) (catch_all (fun e => emit (EvUncaught e))) ;;
      run_exit_handlers rest
  end.

(** [if __name__ == "__main__": sys.exit(main())].  An exception that leaves
    [main] ends the process with status 1; the handlers registered with
    atexit then run, last registered first, and do not change the status. *)
Definition script (args : Args) : Exit :=
  let o := main args in
  let code := match result o with Ret c => c | Raise _ => EXIT_UNCAUGHT end in
  let traceback := match result o with Ret _ => [] | Raise e => [EvUncaught e] end in
  let o' := run_exit_handlers (rev (atexit (state o))) (state o) in
  mkExit code (events o ++ traceback ++ events o')%list (state o').

End Orchestrator.

(* ------------------------------------------------------------------ *)
(** ** Concrete worlds and runs *)

Module Scenario.

(** A world that differs from [w] in one answer. *)
Definition with_environ v (w : World) : World :=
  mkWorld v (w_home w) (w_now_main w) (w_now_setup w) (w_which w) (w_exists
    w) (w_port_available w) (w_mkdir w) (w_mkdtemp w) (w_copytree w)
    (w_open_write w) (w_read w) (w_rmtree w) (w_iterdir w) (w_run w)
    (w_json_user_name w) (w_popen w) (w_health w) (w_poll w) (w_smoke w)
    (w_agent w) (w_verify w) (w_kill w) (w_alive w).

Definition with_now_setup v (w : World) : World :=
  mkWorld (w_environ w) (w_home w) (w_now_main w) v (w_which w) (w_exists w)
    (w_port_available w) (w_mkdir w) (w_mkdtemp w) (w_copytree w)
    (w_open_write w) (w_read w) (w_rmtree w) (w_iterdir w) (w_run w)
    (w_json_user_name w) (w_popen w) (w_health w) (w_poll w) (w_smoke w)
    (w_agent w) (w_verify w) (w_kill w) (w_alive w).

Definition with_mkdtemp v (w : World) : World :=
  mkWorld (w_environ w) (w_home w) (w_now_main w) (w_now_setup w) (w_which
    w) (w_exists w) (w_port_available w) (w_mkdir w) v (w_copytree w)
    (w_open_write w) (w_read w) (w_rmtree w) (w_iterdir w) (w_run w)
    (w_json_user_name w) (w_popen w) (w_health w) (w_poll w) (w_smoke w)
    (w_agent w) (w_verify w) (w_kill w) (w_alive w).

Definition with_mkdir v (w : World) : World :=
  mkWorld (w_environ w) (w_home w) (w_now_main w) (w_now_setup w) (w_which
    w) (w_exists w) (w_port_available w) v (w_mkdtemp w) (w_copytree w)
    (w_open_write w) (w_read w) (w_rmtree w) (w_iterdir w) (w_run w)
    (w_json_user_name w) (w_popen w) (w_health w) (w_poll w) (w_smoke w)
    (w_agent w) (w_verify w) (w_kill w) (w_alive w).

Definition with_rmtree v (w : World) : World :=
  mkWorld (w_environ w) (w_home w) (w_now_main w) (w_now_setup w) (w_which
    w) (w_exists w) (w_port_available w) (w_mkdir w) (w_mkdtemp w)
    (w_copytree w) (w_open_write w) (w_read w) v (w_iterdir w) (w_run w)
    (w_json_user_name w) (w_popen w) (w_health w) (w_poll w) (w_smoke w)
    (w_agent w) (w_verify w) (w_kill w) (w_alive w).

Definition with_health v (w : World) : World :=
  mkWorld (w_environ w) (w_home w) (w_now_main w) (w_now_setup w) (w_which
    w) (w_exists w) (w_port_available w) (w_mkdir w) (w_mkdtemp w)
    (w_copytree w) (w_open_write w) (w_read w) (w_rmtree w) (w_iterdir w)
    (w_run w) (w_json_user_name w) (w_popen w) v (w_poll w) (w_smoke w)
    (w_agent w) (w_verify w) (w_kill w) (w_alive w).

Definition with_poll v (w : World) : World :=
  mkWorld (w_environ w) (w_home w) (w_now_main w) (w_now_setup w) (w_which
    w) (w_exists w) (w_port_available w) (w_mkdir w) (w_mkdtemp w)
    (w_copytree w) (w_open_write w) (w_read w) (w_rmtree w) (w_iterdir w)
    (w_run w) (w_json_user_name w) (w_popen w) (w_health w) v (w_smoke w)
    (w_agent w) (w_verify w) (w_kill w) (w_alive w).

Definition with_smoke v (w : World) : World :=
  mkWorld (w_environ w) (w_home w) (w_now_main w) (w_now_setup w) (w_which
    w) (w_exists w) (w_port_available w) (w_mkdir w) (w_mkdtemp w)
    (w_copytree w) (w_open_write w) (w_read w) (w_rmtree w) (w_iterdir w)
    (w_run w) (w_json_user_name w) (w_popen w) (w_health w) (w_poll w) v
    (w_agent w) (w_verify w) (w_kill w) (w_alive w).

Definition with_agent v (w : World) : World :=
  mkWorld (w_environ w) (w_home w) (w_now_main w) (w_now_setup w) (w_which
    w) (w_exists w) (w_port_available w) (w_mkdir w) (w_mkdtemp w)
    (w_copytree w) (w_open_write w) (w_read w) (w_rmtree w) (w_iterdir w)
    (w_run w) (w_json_user_name w) (w_popen w) (w_health w) (w_poll w)
    (w_smoke w) v (w_verify w) (w_kill w) (w_alive w).

Definition with_verify v (w : World) : World :=
  mkWorld (w_environ w) (w_home w) (w_now_main w) (w_now_setup w) (w_which
    w) (w_exists w) (w_port_available w) (w_mkdir w) (w_mkdtemp w)
    (w_copytree w) (w_open_write w) (w_read w) (w_rmtree w) (w_iterdir w)
    (w_run w) (w_json_user_name w) (w_popen w) (w_health w) (w_poll w)
    (w_smoke w) (w_agent w) v (w_kill w) (w_alive w).

Definition with_run v (w : World) : World :=
  mkWorld (w_environ w) (w_home w) (w_now_main w) (w_now_setup w) (w_which
    w) (w_exists w) (w_port_available w) (w_mkdir w) (w_mkdtemp w)
    (w_copytree w) (w_open_write w) (w_read w) (w_rmtree w) (w_iterdir w) v
    (w_json_user_name w) (w_popen w) (w_health w) (w_poll w) (w_smoke w)
    (w_agent w) (w_verify w) (w_kill w) (w_alive w).

Definition with_exists v (w : World) : World :=
  mkWorld (w_environ w) (w_home w) (w_now_main w) (w_now_setup w) (w_which
    w) v (w_port_available w) (w_mkdir w) (w_mkdtemp w) (w_copytree w)
    (w_open_write w) (w_read w) (w_rmtree w) (w_iterdir w) (w_run w)
    (w_json_user_name w) (w_popen w) (w_health w) (w_poll w) (w_smoke w)
    (w_agent w) (w_verify w) (w_kill w) (w_alive w).

Definition clock : DateTime := mkDateTime 2025 3 14 9 26 53 589793.

Definition args : Args :=
  mkArgs ["repo"; "agent-evaluation"] 900 5000 true "" None.

(** Everything works: tools installed, port free, the server answers its
    second health probe, the agent exits 0, one artifact of each kind. *)
Definition happy : World :=
  mkWorld
    []                                        (* os.environ *)
    ["home"; "dev"]                           (* Path.home() *)
    clock clock
    (fun _ => true)                           (* shutil.which *)
    (fun _ _ => true)                         (* Path.exists *)
    (fun _ => true)                           (* port is free *)
    (fun _ => IoOk tt)                        (* mkdir *)
    (fun _ _ => IoOk "x7k2")                  (* mkdtemp *)
    (fun _ _ => IoOk tt)                      (* copytree *)
    (fun _ => IoOk tt)                        (* open(..., "w") *)
    (fun _ => IoOk "server log")              (* read *)
    (fun _ => IoOk tt)                        (* rmtree *)
    (fun _ => IoOk [mkSessionItem "session.jsonl" true (IoOk tt)])
    (fun _ => Exited 0 "17
" "")                   (* subprocess.run *)
    (fun _ => None)                           (* json userName *)
    (fun _ => IoOk 4242%Z)                    (* Popen *)
    (fun i => match i with
              | O => Done (Exited 7 "" "")
              | _ => Done (Exited 0 "OK" "")
              end)                            (* curl /health *)
    (fun _ => None)                           (* process.poll() *)
    (Done (Exited 0 "Hello world" ""))        (* smoke test *)
    (Done (Exited 0 "" ""))                   (* the evaluation run *)
    (VerifyRan (IoOk 1) (IoOk 1) (IoOk "relevance"))
    (fun _ => IoOk tt)                        (* os.kill(pid, SIGTERM) *)
    (fun i => Nat.ltb i 2).                   (* os.kill(pid, 0) *)

(** Variations of the happy world. *)

Definition args_no_keep : Args :=
  mkArgs ["repo"; "agent-evaluation"] 900 5000 false "" None.

Definition rmtree_fails : World :=
  with_rmtree (fun _ : Path => @IoErr unit "Directory not empty") happy.

Definition sessions_dir_blocked : World :=
  with_mkdir (fun p : Path =>
                if String.eqb (last p "") "claude-sessions"
                then @IoErr unit "File exists" else IoOk tt) happy.

Definition agent_times_out : World := with_agent TimedOut happy.

Definition agent_exits_1 : World :=
  with_agent (Done (Exited 1 "" "boom")) happy.

Definition smoke_times_out : World := with_smoke TimedOut happy.

(** 2 datasets, 1 trace, an empty scorers listing *)
Definition no_scorers : World :=
  with_verify (VerifyRan (IoOk 2) (IoOk 1) (IoOk "")) happy.

(** the server never answers and is found dead after the fourth probe *)
Definition server_dies : World :=
  with_poll (fun i : nat => if Nat.leb 3 i then Some 1%Z else None)
    (with_health (fun _ : nat => Done (Exited 7 "" "")) happy).

(** a second run, started 400 ms after the first, in its own directory *)
Definition a_moment_later : World :=
  with_now_setup (mkDateTime 2025 3 14 9 26 53 989793)
    (with_mkdtemp (fun (_ : Path) (_ : string) => IoOk "q9zz") happy).

Definition external_endpoint : World :=
  with_environ [("MLFLOW_TRACKING_URI", "http://tracking.example:5000")] happy.

(** A run context as Setup may leave it behind. *)
Definition context_with_server (external : bool) : St :=
  mkSt (set_mlflow_server_pid 4242
          (set_use_external_server external
             (set_work_dir ["repo"; "test-runs"; "agent-eval-test-x7k2"]
                (initial_config happy args))))
       [] [CleanupHandler].

Definition with_open_write v (w : World) : World :=
  mkWorld (w_environ w) (w_home w) (w_now_main w) (w_now_setup w) (w_which
    w) (w_exists w) (w_port_available w) (w_mkdir w) (w_mkdtemp w)
    (w_copytree w) v (w_read w) (w_rmtree w) (w_iterdir w) (w_run w)
    (w_json_user_name w) (w_popen w) (w_health w) (w_poll w) (w_smoke w)
    (w_agent w) (w_verify w) (w_kill w) (w_alive w).

(** the server never answers but stays alive *)
Definition server_never_ready : World :=
  with_health (fun _ : nat => Done (Exited 7 "" "")) happy.

(** no working directory can be created *)
Definition no_temp_dir : World :=
  with_mkdtemp (fun (_ : Path) (_ : string) => @IoErr string "No space left on device")
    happy.

(** no file can be opened for writing *)
Definition read_only_disk : World :=
  with_open_write (fun _ : Path => @IoErr unit "Read-only file system") happy.

(** the verification child ends without printing anything *)
Definition verifier_dies : World := with_verify (VerifyDied "") happy.

(** every command run through [run_command] exits with status 1 *)
Definition commands_fail : World :=
  with_run (fun _ : list string => Exited 1 "" "fatal") happy.

(** The run context after Setup when --no-keep-workdir was given. *)
Definition context_no_keep : St :=
  mkSt (set_mlflow_server_pid 4242
          (set_work_dir ["repo"; "test-runs"; "agent-eval-test-x7k2"]
             (initial_config happy args_no_keep)))
       [] [CleanupHandler].

End Scenario.

(* ------------------------------------------------------------------ *)
(** ** Reading traces *)

Definition is_kill (e : Event) : bool :=
  match e with EvKill _ _ => true | _ => false end.

Definition is_uncaught (e : Event) : bool :=
  match e with EvUncaught _ => true | _ => false end.

(** [log.section(name)] *)
Definition is_section (name : string) (e : Event) : bool :=
  match e with
  | EvLog SECTION [Lit m] => String.eqb m name
  | _ => false
  end.

Definition is_fs (e : Event) : bool :=
  match e with EvFs _ _ => true | _ => false end.

(** The paths a trace creates, writes or removes, in order. *)
Definition fs_targets (es : list Event) : list Path :=
  flat_map (fun e => match e with EvFs _ p => [p] | _ => [] end) es.

(** The signals a trace sends. *)
Definition kills (es : list Event) : list Event := filter is_kill es.

(** How often a trace enters the function that opens with [log.section(name)]. *)
Definition entries (name : string) (es : list Event) : nat :=
  List.length (filter (is_section name) es).

Definition uncaught (es : list Event) : list Event := filter is_uncaught es.

(** The health probes and the one-second waits of a trace. *)
Definition is_probe (e : Event) : bool :=
  match e with EvRun ("curl" :: _) _ _ => true | _ => false end.

Definition is_sleep (e : Event) : bool :=
  match e with EvSleep _ => true | _ => false end.

(** Events of the five phases: no signal, no traceback, and no
    [log.section("Cleanup")]. *)
Definition phase_event (e : Event) : bool :=
  negb (is_kill e) && negb (is_uncaught e) && negb (is_section "Cleanup" e).

(** A file-system event stays inside [root]; other events are unconstrained. *)
Definition fs_inside (root : Path) (e : Event) : bool :=
  match e with EvFs _ p => under root p | _ => true end.

(* ------------------------------------------------------------------ *)
(** ** Weakest preconditions for the monad *)

Definition wp {A} (m : M A) (s : St) (Q : Res A -> St -> list Event -> Prop)
  : Prop :=
  Q (result (m s)) (state (m s)) (events (m s)).

(** What the body of [cleanup] may emit: plain log lines, file-system
    events inside the working directory (none while there is none), and
    signals and waits only if [may_kill]. *)
Definition cleanup_event (wd : option Path) (may_kill : bool) (e : Event) : bool :=
  match e with
  | EvLog SECTION _ => false
  | EvLog _ _ => true
  | EvFs _ p => match wd with Some w => under w p | None => false end
  | EvKill _ _ => may_kill
  | EvSleep _ => may_kill
  | _ => false
  end.

Definition ok_or_oserror {A} (r : Res A) : Prop :=
  (exists a, r = Ret a) \/ (exists what, r = Raise (OSError what)).

(** Whether [cleanup] goes on to stop a server. *)
Definition may_kill (c : Config) : bool :=
  truthy_pid (mlflow_server_pid c) && negb (use_external_server c).

(** What the five phases may emit once the working directory is [fs]
    (before there is one, no file-system event at all): no signal, no
    traceback, no [log.section("Cleanup")]. *)
Definition allowed (fs : option Path) (e : Event) : bool :=
  match e with
  | EvKill _ _ => false
  | EvUncaught _ => false
  | EvLog SECTION [Lit m] => negb (String.eqb m "Cleanup")
  | EvFs _ p => match fs with Some wd => under wd p | None => false end
  | _ => true
  end.

(** The fields of the run context that only Prerequisites and Setup assign. *)
Definition same_run (s s' : St) : Prop :=
  atexit s' = atexit s /\
  work_dir (cfg s') = work_dir (cfg s) /\
  use_external_server (cfg s') = use_external_server (cfg s) /\
  mlflow_server_pid (cfg s') = mlflow_server_pid (cfg s) /\
  tracking_uri (cfg s') = tracking_uri (cfg s) /\
  skill_dir (cfg s') = skill_dir (cfg s).

Definition returns {A} (r : Res A) : Prop := exists a, r = Ret a.

(** [repo_root / "test-runs"], the directory the working directories of all
    runs are created in *)
Definition test_runs_dir (c : Config) : Path :=
  path_parent (skill_dir c) // "test-runs".

(* ------------------------------------------------------------------ *)
(** ** The pipeline as the specification words it: five phases in order,
       each passing or failing, and a table of exit codes *)

Inductive Phase := Prerequisites | Setup | SmokeTest | Execution | Verification.

Definition phase_fn (W : World) (p : Phase) : M bool :=
  match p with
  | Prerequisites => check_prerequisites W
  | Setup => setup_phase W
  | SmokeTest => test_claude_headless W
  | Execution => run_claude_code W
  | Verification => verify_results W
  end.

Inductive Verdict := AllPassed | FailedAt (p : Phase).

(** A phase passes when its function returns True; returning False and
    raising both count as failing. *)
Definition passes (o : Out bool) : bool :=
  match result o with Ret true => true | _ => false end.

Fixpoint first_failure (W : World) (ps : list Phase) (s : St) : Verdict :=
  match ps with
  | [] => AllPassed
  | p :: rest =>
      let o := phase_fn W p s in
      if passes o then first_failure W rest (state o) else FailedAt p
  end.

(** The state in which the phases [ps] leave the run, if they all pass. *)
Fixpoint state_after (W : World) (ps : list Phase) (s : St) : option St :=
  match ps with
  | [] => Some s
  | p :: rest =>
      let o := phase_fn W p s in
      if passes o then state_after W rest (state o) else None
  end.

Definition pipeline : list Phase :=
  [Prerequisites; Setup; SmokeTest; Execution; Verification].

Definition phases_before (p : Phase) : list Phase :=
  match p with
  | Prerequisites => []
  | Setup => [Prerequisites]
  | SmokeTest => [Prerequisites; Setup]
  | Execution => [Prerequisites; Setup; SmokeTest]
  | Verification => [Prerequisites; Setup; SmokeTest; Execution]
  end.

(** [main] registers the cleanup handler before the first phase. *)
Definition registered (s : St) : St :=
  mkSt (cfg s) (environ s) (atexit s ++ [CleanupHandler])%list.

Definition start_state (W : World) (args : Args) : St :=
  registered (mkSt (initial_config W args) (w_environ W) []).

Definition verdict (W : World) (args : Args) : Verdict :=
  first_failure W pipeline (start_state W args).

(** The state in which phase [p] starts, if the run gets that far. *)
Definition state_before (W : World) (args : Args) (p : Phase) : option St :=
  state_after W (phases_before p) (start_state W args).

Definition exit_code_of (v : Verdict) : Z :=
  match v with
  | AllPassed => 0
  | FailedAt Prerequisites => 1
  | FailedAt Setup => 1
  | FailedAt SmokeTest => 1
  | FailedAt Execution => 2
  | FailedAt Verification => 3
  end.

Definition enters_verification (v : Verdict) : bool :=
  match v with
  | AllPassed | FailedAt Verification => true
  | _ => false
  end.

(** The file-system footprint of a run whose skill directory is that of
    [c0] and which ends with working directory [wd_final]. *)
Definition fs_shape (c0 : Config) (es : list Event) (wd_final : option Path)
  : Prop :=
  (fs_targets es = [] /\ wd_final = None) \/
  (fs_targets es = [test_runs_dir c0] /\ wd_final = None) \/
  (exists suffix rest,
     let wd := test_runs_dir c0 // ("agent-eval-test-" ++ suffix) in
     fs_targets es = test_runs_dir c0 :: wd :: rest /\
     Forall (fun p => under wd p = true) rest /\
     wd_final = Some wd).

Definition not_verification (e : Event) : bool :=
  negb (is_section "Verification Phase" e).

(** Events of the first three phases: they open neither the Execution nor
    the Verification phase. *)
Definition early_event (e : Event) : bool :=
  negb (is_section "Running Claude Code Evaluation" e)
  && negb (is_section "Verification Phase" e).

(** File-system events stay inside [wd] (there are none while [wd] is None). *)
Definition fs_ok (wd : option Path) (e : Event) : bool :=
  match e with
  | EvFs _ p => match wd with Some w => under w p | None => false end
  | _ => true
  end.

Definition enters_execution (v : Verdict) : bool :=
  match v with
  | AllPassed | FailedAt Execution | FailedAt Verification => true
  | _ => false
  end.

(** What [main] guarantees about a run that starts its phases in state [s]. *)
Definition phases_post (W : World) (s : St) (r : Res Z) (s' : St)
  (es : list Event) : Prop :=
  atexit s' = atexit s /\
  Forall (fun e => phase_event e = true) es /\
  (truthy_opt_str (tracking_uri (cfg s)) = true -> may_kill (cfg s') = false) /\
  fs_shape (cfg s) es (work_dir (cfg s')) /\
  let v := first_failure W pipeline s in
  (r = Ret (exit_code_of v) \/ (v = FailedAt Setup /\ exists e, r = Raise e)) /\
  entries "Verification Phase" es = (if enters_verification v then 1 else 0) /\
  (enters_execution v = false ->
   entries "Running Claude Code Evaluation" es = 0).

(** The phases that run with the working directory in place. *)
Definition later_phase (p : Phase) : Prop :=
  p = SmokeTest \/ p = Execution \/ p = Verification.

(* ------------------------------------------------------------------ *)
(** ** Vocabulary of the verification report and of health polling *)

(** What a store query contributes to its category. *)
Definition count (answer : IO nat) : nat :=
  match answer with IoOk n => n | IoErr _ => 0 end.

(** The line [verify_results] prints for a category found [n] times. *)
Definition report_line (label unit_ : string) (n : nat) : Event :=
  if (1 <=? n)%nat then
    EvPrint false [Lit "  [PASS] "; Lit label; Lit ": "; FVal (PInt (Z.of_nat n));
                   Lit " "; Lit unit_]
  else
    EvPrint false [Lit "  [FAIL] "; Lit label; Lit ": "; FVal (PInt (Z.of_nat n));
                   Lit " "; Lit unit_; Lit " (expected >= 1)"].

Definition is_report_line (e : Event) : bool :=
  match e with EvPrint false (_ :: _) => true | _ => false end.

Definition report_lines (es : list Event) : list Event :=
  filter is_report_line es.

(** The warning the embedded script prints when a query raised. *)
Definition warning_of {A} (category : string) (answer : IO A)
  : list (list Frag) :=
  match answer with
  | IoOk _ => []
  | IoErr what =>
      [[Lit "Warning: Error checking "; Lit category; Lit ": "; FStr what]]
  end.

(** A health probe is a success when curl ran and exited 0. *)
Definition probe_succeeds (t : Timed) : bool :=
  match t with
  | Done (Exited rc _ _) => (rc =? 0)%Z
  | _ => false
  end.

Definition probes (es : list Event) : nat := List.length (filter is_probe es).

Definition sleeps (es : list Event) : nat := List.length (filter is_sleep es).

(** The experiment name Setup settles on, from the clock reading and, on
    Databricks, the workspace user. *)
Definition generated_name (now : DateTime) (db_user : option string) : string :=
  match db_user with
  | Some user => databricks_experiment_name user (base_experiment_name now)
  | None => base_experiment_name now
  end.

(* ------------------------------------------------------------------ *)
(** ** Vocabulary of the function-level properties *)

Definition is_sigterm (e : Event) : bool :=
  match e with EvKill _ SIGTERM => true | _ => false end.

Definition is_liveness_check (e : Event) : bool :=
  match e with EvKill _ SIG0 => true | _ => false end.

Definition is_log (e : Event) : bool :=
  match e with EvLog _ _ => true | _ => false end.

Definition is_run (e : Event) : bool :=
  match e with EvRun _ _ _ => true | _ => false end.

Definition is_popen (e : Event) : bool :=
  match e with EvPopen _ _ => true | _ => false end.

(** The health probe of [start_mlflow_server]. *)
Definition curl_probe (port : Z) : Event :=
  EvRun ["curl"; "-s"; health_url port] None (Some 2%Z).

(** What [check_prerequisites] asks of the machine for the run context [c]. *)
Definition prerequisites_met (W : World) (c : Config) : bool :=
  w_which W "claude" && w_which W "git" && w_which W "uv"
  && w_exists W AtPrerequisites (skill_dir c)
  && w_exists W AtPrerequisites (skill_dir c // "SKILL.md")
  && (truthy_opt_str (tracking_uri c) || w_port_available W (mlflow_port c)).

(** The verdict of the smoke test on the text Claude printed. *)
Definition smoke_output_ok (output : string) : bool :=
  PyStr.truthy output && negb (PyStr.contains "Error" output).

(** The verdict of [run_claude_code] on the fate of the agent process. *)
Definition agent_verdict (fate : Timed) : bool :=
  match fate with
  | TimedOut => true
  | Done (Exited rc _ _) => (rc =? 0)%Z
  | Done (SpawnFailed _) => false
  end.

(** Whether the verification child got as far as printing its report. *)
Definition reported (c : VerifyChild) : bool :=
  match c with VerifyRan _ _ _ => true | _ => false end.

(** The address [start_mlflow_server] exports. *)
Definition local_tracking_uri (port : Z) : string :=
  "http://127.0.0.1:" ++ PyStr.of_Z port.

(** What [setup_phase] accepts as the id of the experiment it created. *)
Definition experiment_id_ok (id : string) : bool :=
  PyStr.truthy id && negb (PyStr.contains "Error" id)
  && negb (PyStr.contains "Traceback" id).

(** [config.experiment_name] inside an f-string *)
Definition experiment_name_text (c : Config) : string :=
  match experiment_name c with Some n => n | None => "None" end.

(** The directories a trace removes ([shutil.rmtree]), in order. *)
Definition removals (es : list Event) : list Path :=
  flat_map (fun e => match e with EvFs Rmtree p => [p] | _ => [] end) es.

(** A step that removes nothing and leaves [keep_workdir] alone. *)
Definition keeps (s s' : St) (es : list Event) : Prop :=
  keep_workdir (cfg s') = keep_workdir (cfg s) /\ removals es = [].
(* ------------------------------------------------------------------ *)
(** * Properties *)

Open Scope list_scope.

Section WpRules.

Context {A B : Type}.

Lemma wp_ret (a : A) s Q : Q (Ret a) s [] -> wp (ret a) s Q.
Proof. exact (fun H => H). Qed.

Lemma wp_raise (e : Exn) s (Q : Res A -> St -> list Event -> Prop) :
  Q (Raise e) s [] -> wp (raise e) s Q.
Proof. exact (fun H => H). Qed.

Lemma wp_bind (m : M A) (k : A -> M B) s Q :
  wp m s (fun r s' es =>
            match r with
            | Ret a => wp (k a) s' (fun r' s'' es' => Q r' s'' (es ++ es')%list)
            | Raise e => Q (Raise e) s' es
            end) ->
  wp (bind m k) s Q.
Proof.
  unfold wp, bind. destruct (result (m s)); simpl; auto.
Qed.

Lemma wp_try_except (m : M A) h s Q :
  wp m s (fun r s' es =>
            match r with
            | Ret a => Q (Ret a) s' es
            | Raise e =>
                match h e with
                | Some handler =>
                    wp handler s' (fun r' s'' es' => Q r' s'' (es ++ es')%list)
                | None => Q (Raise e) s' es
                end
            end) ->
  wp (try_except m h) s Q.
Proof.
  unfold wp, try_except. destruct (result (m s)) eqn:E; simpl.
  - rewrite E. auto.
  - destruct (h e); simpl; auto. rewrite E. auto.
Qed.

Lemma wp_conseq (m : M A) s (Q Q' : Res A -> St -> list Event -> Prop) :
  wp m s Q -> (forall r s' es, Q r s' es -> Q' r s' es) -> wp m s Q'.
Proof. unfold wp. auto. Qed.

Lemma wp_io (r : IO A) s Q :
  match r with IoOk a => Q (Ret a) s [] | IoErr what => Q (Raise (OSError what)) s [] end ->
  wp (io r) s Q.
Proof. destruct r; exact (fun H => H). Qed.

End WpRules.

Lemma wp_emit e s Q : Q (Ret tt) s [e] -> wp (emit e) s Q.
Proof. exact (fun H => H). Qed.

Lemma wp_get_config s Q : Q (Ret (cfg s)) s [] -> wp get_config s Q.
Proof. exact (fun H => H). Qed.

Lemma wp_get_environ s Q : Q (Ret (environ s)) s [] -> wp get_environ s Q.
Proof. exact (fun H => H). Qed.

Lemma wp_update_config f s Q :
  Q (Ret tt) (mkSt (f (cfg s)) (environ s) (atexit s)) [] ->
  wp (update_config f) s Q.
Proof. exact (fun H => H). Qed.

Lemma wp_setenv k v s Q :
  Q (Ret tt) (mkSt (cfg s) ((k, v) :: environ s) (atexit s)) [EvSetenv k v] ->
  wp (setenv k v) s Q.
Proof. exact (fun H => H). Qed.

Lemma wp_atexit_register h s Q :
  Q (Ret tt) (mkSt (cfg s) (environ s) (atexit s ++ [h])%list) [] ->
  wp (atexit_register h) s Q.
Proof. exact (fun H => H). Qed.

(** One step of symbolic execution. *)
Ltac wp_prim :=
  lazymatch goal with
  | |- wp (bind _ _) _ _ => apply wp_bind
  | |- wp (ret _) _ _ => apply wp_ret
  | |- wp (raise _) _ _ => apply wp_raise
  | |- wp (emit _) _ _ => apply wp_emit
  | |- wp (io _) _ _ => apply wp_io
  | |- wp get_config _ _ => apply wp_get_config
  | |- wp get_environ _ _ => apply wp_get_environ
  | |- wp (update_config _) _ _ => apply wp_update_config
  | |- wp (setenv _ _) _ _ => apply wp_setenv
  | |- wp (atexit_register _) _ _ => apply wp_atexit_register
  | |- wp (try_except _ _) _ _ => apply wp_try_except
  | |- wp (log.info _) _ _ => apply wp_emit
  | |- wp (log.error _) _ _ => apply wp_emit
  | |- wp (log.success _) _ _ => apply wp_emit
  | |- wp (log.section _) _ _ => apply wp_emit
  | |- wp (print _) _ _ => apply wp_emit
  | |- wp (print_stderr _) _ _ => apply wp_emit
  | |- wp (sleep _) _ _ => apply wp_emit
  | |- wp (run_command _ _ _ _) _ _ => unfold run_command at 1
  | |- wp (subprocess_run _ _ _ _ _) _ _ => unfold subprocess_run at 1
  | |- wp (finish _ _ _) _ _ => unfold finish at 1
  | |- wp (mkdir _ _) _ _ => unfold mkdir at 1
  | |- wp (mkdtemp _ _ _) _ _ => unfold mkdtemp at 1
  | |- wp (copytree _ _ _) _ _ => unfold copytree at 1
  | |- wp (open_write _ _) _ _ => unfold open_write at 1
  | |- wp (rmtree _ _) _ _ => unfold rmtree at 1
  | |- wp (kill_term _ _) _ _ => unfold kill_term at 1
  | |- wp (kill_probe _ _ _) _ _ => unfold kill_probe at 1
  | |- wp (work_dir_div _ _) _ _ => unfold work_dir_div at 1
  | |- wp (the_tracking_uri _) _ _ => unfold the_tracking_uri at 1
  | |- wp (and_then _ _) _ _ => unfold and_then at 1
  | |- wp (when _ _) _ _ => unfold when at 1
  | |- wp (if ?b then _ else _) _ _ =>
      first [ match goal with H : b = _ |- _ => rewrite H end
            | destruct b eqn:? ]
  | |- wp (match ?x with _ => _ end) _ _ =>
      first [ match goal with H : x = _ |- _ => rewrite H end
            | destruct x eqn:? ]
  | |- match ?x with _ => _ end =>
      first [ match goal with H : x = _ |- _ => rewrite H end
            | destruct x eqn:? ]
  end.

Ltac wp_simpl :=
  cbv beta iota delta [catch_if catch_all is_OSError is_CalledProcessError
                       is_TimeoutExpired].

Ltac wp_run := repeat (wp_prim; wp_simpl).

(* ------------------------------------------------------------------ *)
(** ** Paths *)

Lemma is_prefix_app (p l : Path) : is_prefix p (p ++ l) = true.
Proof.
  induction p as [|a p IH]; simpl; [reflexivity|].
  now rewrite String.eqb_refl.
Qed.

Lemma under_self (p : Path) : under p p = true.
Proof.
  unfold under. rewrite <- (app_nil_r p) at 2. apply is_prefix_app.
Qed.

Ltac under_tac :=
  try apply under_self;
  unfold under, path_div; repeat rewrite <- app_assoc; apply is_prefix_app.

(* ------------------------------------------------------------------ *)
(** ** cleanup, step by step *)

Create HintDb wp_specs.
Create HintDb ev_weaken.

Lemma cleanup_event_weaken wd k e :
  cleanup_event (Some wd) false e = true -> cleanup_event (Some wd) k e = true.
Proof. destruct e as [[] | | | | | | | | ]; simpl; auto; discriminate. Qed.

Lemma cleanup_event_kill wd e :
  cleanup_event None true e = true -> cleanup_event wd true e = true.
Proof. destruct e as [[] | | | | | | | | ]; simpl; auto; discriminate. Qed.

Lemma allowed_weaken wd e : allowed None e = true -> allowed (Some wd) e = true.
Proof. destruct e; simpl; auto; discriminate. Qed.

Lemma allowed_phase_event fs e : allowed fs e = true -> phase_event e = true.
Proof.
  destruct e as [[] [|[] []]| | | | | | | |]; simpl; try discriminate; auto.
Qed.

#[export] Hint Resolve cleanup_event_weaken cleanup_event_kill allowed_weaken
  : ev_weaken.

Ltac split_hyps :=
  repeat match goal with
         | H : _ /\ _ |- _ => destruct H
         | H : exists _, _ |- _ => destruct H
         end.

(** Use the specification of a callee. *)
Ltac wp_call :=
  eapply wp_conseq; [ solve [auto with wp_specs] | ];
  cbv beta; intros ? ? ? ?; split_hyps; subst.

Ltac wp_go := repeat (first [wp_prim | wp_call]; wp_simpl).

Ltac forall_hyp :=
  match goal with
  | H : Forall (fun e => allowed _ e = true) ?es
    |- Forall (fun e => allowed _ e = true) ?es =>
      eapply Forall_impl; [| exact H]; cbv beta; intros ? ?;
      solve [auto with ev_weaken]
  | H : Forall (fun e => cleanup_event _ _ e = true) ?es
    |- Forall (fun e => cleanup_event _ _ e = true) ?es =>
      eapply Forall_impl; [| exact H]; cbv beta; intros ? ?;
      solve [auto with ev_weaken]
  end.

Ltac forall_tac :=
  repeat first
    [ apply Forall_nil
    | apply Forall_cons; [simpl; first [reflexivity | under_tac] |]
    | apply Forall_app; split
    | assumption
    | forall_hyp ].

Ltac trace_tac :=
  simpl;
  repeat match goal with
         | |- _ /\ _ => split
         end;
  try reflexivity; try assumption; try forall_tac.

Section CleanupSteps.

Variable W : World.

Lemma wait_for_exit_spec pid n : forall i s,
  wp (wait_for_exit W pid n i) s (fun r s' es =>
    r = Ret tt /\ s' = s /\ Forall (fun e => cleanup_event None true e = true) es).
Proof.
  induction n as [|n IH]; intros i s; simpl.
  - wp_run. trace_tac.
  - unfold kill_probe. wp_run; try discriminate.
    + eapply wp_conseq; [apply IH|].
      intros r s' es (-> & -> & H). trace_tac.
    + trace_tac.
Qed.

Lemma stop_server_spec pid s :
  wp (stop_server W pid) s (fun r s' es =>
    r = Ret tt /\ s' = s /\ Forall (fun e => cleanup_event None true e = true) es).
Proof.
  unfold stop_server, kill_term. wp_run; try discriminate.
  - eapply wp_conseq; [apply wait_for_exit_spec|].
    intros r s' es (-> & -> & H). wp_run. trace_tac.
  - trace_tac.
Qed.

Lemma for_each_copy_spec session_dir wd items s :
  wp (for_each items (copy_item session_dir (wd // "claude-sessions"))) s
    (fun r s' es =>
       s' = s /\ Forall (fun e => cleanup_event (Some wd) false e = true) es).
Proof.
  induction items as [|it items IH]; simpl.
  - wp_run. trace_tac.
  - unfold copy_item. wp_run; try (trace_tac; fail).
    all: eapply wp_conseq; [apply IH|]; intros r s' es (-> & H);
      destruct r; trace_tac.
Qed.

Lemma copy_session_logs_spec wd s :
  wp (copy_session_logs W wd) s (fun r s' es =>
    s' = s /\ ok_or_oserror r /\
    Forall (fun e => cleanup_event (Some wd) false e = true) es).
Proof.
  unfold copy_session_logs, mkdir. wp_run.
  all: try (unfold ok_or_oserror; trace_tac; eauto; fail).
  all: try discriminate.
  all: eapply wp_conseq; [apply for_each_copy_spec|];
    intros r s' es (-> & H); destruct r; wp_run;
    unfold ok_or_oserror; trace_tac; eauto.
Qed.

Lemma remove_or_keep_spec config wd s :
  wp (remove_or_keep W config wd) s (fun r s' es =>
    s' = s /\ ok_or_oserror r /\
    Forall (fun e => cleanup_event (Some wd) false e = true) es).
Proof.
  unfold remove_or_keep, rmtree. wp_run.
  all: unfold ok_or_oserror; trace_tac; eauto.
Qed.

End CleanupSteps.

#[export] Hint Resolve wait_for_exit_spec stop_server_spec
  copy_session_logs_spec remove_or_keep_spec : wp_specs.

Lemma cleanup_spec W s :
  wp (cleanup W) s (fun r s' es =>
    s' = s /\ ok_or_oserror r /\
    (work_dir (cfg s) = None -> r = Ret tt) /\
    exists body,
      es = EvLog SECTION [Lit "Cleanup"] :: body /\
      Forall (fun e => cleanup_event (work_dir (cfg s)) (may_kill (cfg s)) e = true)
        body).
Proof.
  unfold cleanup, may_kill, truthy_pid.
  wp_go.
  all: repeat split; try discriminate; try assumption.
  all: try (unfold ok_or_oserror; eauto; fail).
  all: simpl; eexists; (split; [reflexivity|]).
  all: try rewrite Heqb0; try rewrite Heqb1; try rewrite Heqb.
  all: forall_tac.
Qed.

(* ------------------------------------------------------------------ *)
(** ** The five phases, one specification each *)

Ltac done_tac :=
  unfold returns, ok_or_oserror, same_run in *; simpl in *; split_hyps;
  repeat match goal with |- _ /\ _ => split end;
  try solve [ reflexivity | assumption | discriminate | congruence | eauto
            | forall_tac | intros; discriminate | intros; congruence
            | intros; eauto ].

Lemma test_claude_headless_spec W s :
  wp (test_claude_headless W) s (fun r s' es =>
    s' = s /\
    Forall (fun e => allowed None e = true) es /\
    Forall (fun e => early_event e = true) es /\
    (work_dir (cfg s) <> None -> returns r) /\
    (w_smoke W = TimedOut -> r <> Ret true)).
Proof.
  unfold test_claude_headless. wp_go. 
  all: done_tac.
Qed.

Lemma run_claude_code_spec W s :
  wp (run_claude_code W) s (fun r s' es =>
    same_run s s' /\
    Forall (fun e => allowed (work_dir (cfg s)) e = true) es /\
    Forall (fun e => not_verification e = true) es /\
    (work_dir (cfg s) <> None -> returns r)).
Proof.
  unfold run_claude_code. wp_go.
  all: done_tac.
Qed.

Lemma report_category_spec results key label unit_ s :
  wp (report_category results key label unit_) s (fun r s' es =>
    s' = s /\ returns r /\ Forall (fun e => allowed None e = true) es /\
    Forall (fun e => not_verification e = true) es).
Proof.
  unfold report_category. wp_go. all: done_tac.
Qed.
#[export] Hint Resolve report_category_spec : wp_specs.

Lemma verify_results_spec W s :
  wp (verify_results W) s (fun r s' es =>
    s' = s /\
    (work_dir (cfg s) <> None -> returns r) /\
    exists body,
      es = EvLog SECTION [Lit "Verification Phase"] :: body /\
      Forall (fun e => allowed None e = true) body /\
      Forall (fun e => not_verification e = true) body).
Proof.
  unfold verify_results, run_verification_child. wp_go.
  all: simpl; split; [reflexivity|]; (split; [done_tac|]).
  all: eexists; (split; [reflexivity|]); done_tac.
Qed.

Lemma for_each_missing_spec (l : list string) s :
  wp (for_each l (fun dep => log.error [Lit "  - "; FStr dep])) s
    (fun r s' es =>
       r = Ret tt /\ s' = s /\
       Forall (fun e => allowed None e = true) es /\
       Forall (fun e => early_event e = true) es).
Proof.
  induction l as [|x l IH]; simpl.
  - wp_go. done_tac.
  - wp_go. eapply wp_conseq; [apply IH|].
    cbv beta; intros r s' es (-> & -> & H1 & H2). done_tac.
Qed.
#[export] Hint Resolve for_each_missing_spec : wp_specs.

Lemma check_prerequisites_spec W s :
  wp (check_prerequisites W) s (fun r s' es =>
    returns r /\
    Forall (fun e => allowed None e = true) es /\
    Forall (fun e => early_event e = true) es /\
    atexit s' = atexit s /\
    work_dir (cfg s') = work_dir (cfg s) /\
    mlflow_server_pid (cfg s') = mlflow_server_pid (cfg s) /\
    tracking_uri (cfg s') = tracking_uri (cfg s) /\
    skill_dir (cfg s') = skill_dir (cfg s) /\
    (r = Ret true -> truthy_opt_str (tracking_uri (cfg s)) = true ->
     use_external_server (cfg s') = true)).
Proof.
  unfold check_prerequisites. wp_go.
  all: done_tac.
Qed.

Section Setup.
Variable W : World.

Lemma clone_repository_spec config wd s :
  wp (clone_repository W config wd) s (fun r s' es =>
    s' = s /\ Forall (fun e => allowed None e = true) es /\
    Forall (fun e => early_event e = true) es).
Proof. unfold clone_repository. wp_go. all: done_tac. Qed.

Lemma install_skill_spec config wd s :
  wp (install_skill W config wd) s (fun r s' es =>
    s' = s /\ Forall (fun e => allowed (Some wd) e = true) es /\
    Forall (fun e => early_event e = true) es).
Proof. unfold install_skill. wp_go. all: done_tac. Qed.

Lemma install_dependencies_spec p s :
  wp (install_dependencies W p) s (fun r s' es =>
    s' = s /\ Forall (fun e => allowed None e = true) es /\
    Forall (fun e => early_event e = true) es).
Proof. unfold install_dependencies. wp_go. all: done_tac. Qed.

Lemma add_mlflow_package_spec p s :
  wp (add_mlflow_package W p) s (fun r s' es =>
    s' = s /\ Forall (fun e => allowed None e = true) es /\
    Forall (fun e => early_event e = true) es).
Proof. unfold add_mlflow_package. wp_go. all: done_tac. Qed.

Lemma configure_external_server_spec config p s :
  wp (configure_external_server W config p) s (fun r s' es =>
    same_run s s' /\ Forall (fun e => allowed None e = true) es /\
    Forall (fun e => early_event e = true) es).
Proof. unfold configure_external_server. wp_go. all: done_tac. Qed.

Lemma databricks_user_spec p s :
  wp (databricks_user W p) s (fun r s' es =>
    s' = s /\ Forall (fun e => allowed None e = true) es /\
    Forall (fun e => early_event e = true) es).
Proof. unfold databricks_user. wp_go. all: done_tac. Qed.
#[local] Hint Resolve databricks_user_spec : wp_specs.

Lemma choose_experiment_name_spec config s :
  wp (choose_experiment_name W config) s (fun r s' es =>
    same_run s s' /\ Forall (fun e => allowed None e = true) es /\
    Forall (fun e => early_event e = true) es).
Proof. unfold choose_experiment_name. wp_go. all: done_tac. Qed.

Lemma create_experiment_spec p s :
  wp (create_experiment W p) s (fun r s' es =>
    same_run s s' /\ Forall (fun e => allowed None e = true) es /\
    Forall (fun e => early_event e = true) es).
Proof. unfold create_experiment. wp_go. all: done_tac. Qed.

Lemma export_experiment_spec s :
  wp export_experiment s (fun r s' es =>
    same_run s s' /\ Forall (fun e => allowed None e = true) es /\
    Forall (fun e => early_event e = true) es).
Proof. unfold export_experiment. wp_go. all: done_tac. Qed.


Lemma report_server_log_spec headline lf s :
  wp (report_server_log W headline lf) s (fun r s' es =>
    s' = s /\ Forall (fun e => allowed None e = true) es /\
    Forall (fun e => early_event e = true) es).
Proof. unfold report_server_log. wp_go. all: done_tac. Qed.
#[local] Hint Resolve report_server_log_spec : wp_specs.

Lemma wait_until_ready_spec lf port remaining : forall attempt s,
  wp (wait_until_ready W lf port remaining attempt) s (fun r s' es =>
    s' = s /\ Forall (fun e => allowed None e = true) es /\
    Forall (fun e => early_event e = true) es).
Proof.
  induction remaining as [|n IH]; intros attempt s; simpl.
  - wp_go. done_tac.
  - wp_go. all: try (done_tac; fail).
    all: eapply wp_conseq; [apply IH|]; cbv beta;
      intros r s' es (-> & H1 & H2); done_tac.
Qed.
#[local] Hint Resolve wait_until_ready_spec : wp_specs.

Lemma start_mlflow_server_spec s :
  wp (start_mlflow_server W) s (fun r s' es =>
    atexit s' = atexit s /\
    work_dir (cfg s') = work_dir (cfg s) /\
    use_external_server (cfg s') = use_external_server (cfg s) /\
    tracking_uri (cfg s') = tracking_uri (cfg s) /\
    skill_dir (cfg s') = skill_dir (cfg s) /\
    Forall (fun e => allowed (work_dir (cfg s)) e = true) es /\
    Forall (fun e => early_event e = true) es).
Proof. unfold start_mlflow_server. wp_go. all: done_tac. Qed.

#[local] Hint Resolve clone_repository_spec install_skill_spec install_dependencies_spec
  add_mlflow_package_spec configure_external_server_spec
  choose_experiment_name_spec create_experiment_spec export_experiment_spec
  start_mlflow_server_spec : wp_specs.

Lemma setup_phase_spec s :
  wp (setup_phase W) s (fun r s' es =>
    atexit s' = atexit s /\
    use_external_server (cfg s') = use_external_server (cfg s) /\
    tracking_uri (cfg s') = tracking_uri (cfg s) /\
    skill_dir (cfg s') = skill_dir (cfg s) /\
    (use_external_server (cfg s) = true ->
     mlflow_server_pid (cfg s') = mlflow_server_pid (cfg s)) /\
    Forall (fun e => early_event e = true) es /\
    exists tail,
      es = EvLog SECTION [Lit "Setup Phase"]
           :: EvFs Mkdir (test_runs_dir (cfg s)) :: tail /\
      ((tail = [] /\ work_dir (cfg s') = work_dir (cfg s) /\ ~ returns r) \/
       (exists suffix rest,
          let wd := test_runs_dir (cfg s) // ("agent-eval-test-" ++ suffix)%string in
          tail = EvFs Mkdtemp wd :: rest /\
          work_dir (cfg s') = Some wd /\
          Forall (fun e => allowed (Some wd) e = true) rest))).
Proof.
  unfold setup_phase, test_runs_dir. wp_go.
  all: unfold same_run in *; simpl in *; split_hyps.
  all: repeat match goal with |- _ /\ _ => split end.
  all: try congruence.
  all: try (forall_tac; fail).
  all: eexists; (split; [reflexivity|]).
  all: try solve
    [ left; split; [reflexivity | split; [congruence | intros [? ?]; discriminate]]
    | right; do 2 eexists; split;
      [reflexivity | split; [congruence | forall_tac]] ].
Qed.
End Setup.

(* ------------------------------------------------------------------ *)
(** ** main: the phases in sequence *)

Lemma wp_opaque {A} (m : M A) s Q :
  Q (result (m s)) (state (m s)) (events (m s)) -> wp m s Q.
Proof. exact (fun H => H). Qed.

Lemma wp_when_info (b : bool) msg s (Q : Res unit -> St -> list Event -> Prop) :
  Q (Ret tt) s (if b then [EvLog INFO msg] else []) ->
  wp (when b (log.info msg)) s Q.
Proof. destruct b; exact (fun H => H). Qed.

Lemma fs_targets_app a b : fs_targets (a ++ b) = fs_targets a ++ fs_targets b.
Proof. apply flat_map_app. Qed.

Lemma entries_app n a b : entries n (a ++ b) = entries n a + entries n b.
Proof. unfold entries. now rewrite filter_app, length_app. Qed.

Lemma allowed_fs_ok wd e : allowed wd e = true -> fs_ok wd e = true.
Proof. destruct e; simpl; auto. Qed.

Lemma cleanup_event_fs_ok wd k e : cleanup_event wd k e = true -> fs_ok wd e = true.
Proof. destruct e; simpl; auto. Qed.

Lemma fs_ok_none es :
  Forall (fun e => fs_ok None e = true) es -> fs_targets es = [].
Proof.
  induction 1 as [|e es He _ IH]; [reflexivity|].
  destruct e; simpl in *; try discriminate; exact IH.
Qed.

Lemma fs_ok_under wd es :
  Forall (fun e => fs_ok (Some wd) e = true) es ->
  Forall (fun p => under wd p = true) (fs_targets es).
Proof.
  induction 1 as [|e es He _ IH]; [constructor|].
  destruct e; simpl in *; auto.
Qed.

Lemma fs_shape_app_r c es wd es' :
  fs_shape c es wd -> Forall (fun e => fs_ok wd e = true) es' ->
  fs_shape c (es ++ es') wd.
Proof.
  intros [[H ->]|[[H ->]|(suffix & rest & H & Hr & ->)]] H'; unfold fs_shape;
    rewrite fs_targets_app, H.
  - left. now rewrite (fs_ok_none H').
  - right; left. now rewrite (fs_ok_none H').
  - right; right. exists suffix, (rest ++ fs_targets es'). cbv zeta. repeat split.
    apply Forall_app; split; [exact Hr | now apply fs_ok_under].
Qed.

Lemma fs_shape_app_l c pre es wd :
  Forall (fun e => fs_ok None e = true) pre -> fs_shape c es wd ->
  fs_shape c (pre ++ es) wd.
Proof.
  intros Hp H. unfold fs_shape. rewrite fs_targets_app, (fs_ok_none Hp). exact H.
Qed.

Lemma fs_shape_quiet c es :
  Forall (fun e => fs_ok None e = true) es -> fs_shape c es None.
Proof. intros H. left. now rewrite (fs_ok_none H). Qed.

Lemma entries_cons_miss n e es :
  is_section n e = false -> entries n (e :: es) = entries n es.
Proof. unfold entries. simpl. now intros ->. Qed.

Lemma entries_none n es :
  Forall (fun e => is_section n e = false) es -> entries n es = 0.
Proof.
  induction 1 as [|e es He _ IH]; [reflexivity|].
  now rewrite entries_cons_miss.
Qed.

Lemma not_verification_entries es :
  Forall (fun e => not_verification e = true) es ->
  entries "Verification Phase" es = 0.
Proof.
  intros H. apply entries_none. eapply Forall_impl; [|exact H].
  intros e He. now apply negb_true_iff in He.
Qed.

Lemma early_not_verification es :
  Forall (fun e => early_event e = true) es ->
  Forall (fun e => not_verification e = true) es.
Proof.
  apply Forall_impl. intros e He. now apply andb_prop in He.
Qed.

Lemma early_entries_execution es :
  Forall (fun e => early_event e = true) es ->
  entries "Running Claude Code Evaluation" es = 0.
Proof.
  intros H. apply entries_none. eapply Forall_impl; [|exact H].
  intros e He. apply andb_prop in He. now apply negb_true_iff.
Qed.

Lemma early_entries_verification es :
  Forall (fun e => early_event e = true) es ->
  entries "Verification Phase" es = 0.
Proof. intros H. now apply not_verification_entries, early_not_verification. Qed.

Lemma Forall_allowed_phase fs es :
  Forall (fun e => allowed fs e = true) es ->
  Forall (fun e => phase_event e = true) es.
Proof. apply Forall_impl. intros e. apply allowed_phase_event. Qed.

Lemma Forall_allowed_fs_ok fs es :
  Forall (fun e => allowed fs e = true) es ->
  Forall (fun e => fs_ok fs e = true) es.
Proof. apply Forall_impl. intros e. apply allowed_fs_ok. Qed.

(** What the setup specification says about the events, repackaged. *)
Lemma setup_shape_facts c wd0 wd1 (r : Res bool) es tail :
  es = EvLog SECTION [Lit "Setup Phase"] :: EvFs Mkdir (test_runs_dir c) :: tail ->
  ((tail = [] /\ wd1 = wd0 /\ ~ returns r) \/
   (exists suffix rest,
      let wd := test_runs_dir c // ("agent-eval-test-" ++ suffix)%string in
      tail = EvFs Mkdtemp wd :: rest /\ wd1 = Some wd /\
      Forall (fun e => allowed (Some wd) e = true) rest)) ->
  wd0 = None ->
  Forall (fun e => phase_event e = true) es /\
  fs_shape c es wd1 /\
  (returns r -> wd1 <> None).
Proof.
  intros -> [(-> & -> & Hr)|(suffix & rest & -> & -> & Hrest)] ->; cbv zeta in *.
  - repeat split.
    + repeat constructor.
    + right; left. split; reflexivity.
    + intros H; contradiction.
  - repeat split.
    + repeat constructor. now apply Forall_allowed_phase in Hrest.
    + right; right. exists suffix, (fs_targets rest). cbv zeta. repeat split.
      apply fs_ok_under. now apply Forall_allowed_fs_ok.
    + discriminate.
Qed.

Lemma Forall_allowed_none_fs_ok wd es :
  Forall (fun e => allowed None e = true) es ->
  Forall (fun e => fs_ok wd e = true) es.
Proof.
  apply Forall_impl. intros e H. destruct wd.
  - apply allowed_fs_ok. now apply allowed_weaken.
  - now apply allowed_fs_ok.
Qed.

Lemma entries_verification_hit es :
  entries "Verification Phase" (EvLog SECTION [Lit "Verification Phase"] :: es)
  = S (entries "Verification Phase" es).
Proof. reflexivity. Qed.

(** Pieces of a trace: concrete events, and events of calls known through
    their specifications. *)
Ltac pieces :=
  repeat first
    [ apply Forall_nil
    | apply Forall_cons; [reflexivity |]
    | apply Forall_app; split
    | assumption
    | match goal with
      | |- Forall _ (if ?b then _ else _) => destruct b
      | H : Forall (fun e => allowed _ e = true) ?es
        |- Forall (fun e => phase_event e = true) ?es =>
          eapply Forall_allowed_phase; exact H
      | H : Forall (fun e => allowed None e = true) ?es
        |- Forall (fun e => fs_ok _ e = true) ?es =>
          eapply Forall_allowed_none_fs_ok; exact H
      | H : Forall (fun e => allowed (Some ?w) e = true) ?es
        |- Forall (fun e => fs_ok (Some ?w) e = true) ?es =>
          eapply Forall_allowed_fs_ok; exact H
      end ].

Ltac count_entries :=
  repeat first
    [ rewrite entries_app
    | rewrite entries_verification_hit
    | rewrite not_verification_entries by assumption
    | rewrite early_entries_verification by assumption
    | rewrite early_entries_execution by assumption
    | rewrite entries_cons_miss by reflexivity ];
  try reflexivity.

Lemma fs_shape_skill_dir c c' es wd :
  skill_dir c = skill_dir c' -> fs_shape c es wd -> fs_shape c' es wd.
Proof. unfold fs_shape, test_runs_dir. now intros ->. Qed.

Ltac conj7 := split; [|split; [|split; [|split; [|split; [|split]]]]].

Ltac wp_phase lem :=
  lazymatch goal with
  | |- wp ?m ?s _ =>
      let H := fresh "Hspec" in
      pose proof (lem s) as H; unfold wp in H; cbv beta in H;
      apply wp_opaque;
      let r := fresh "r" in let E := fresh "Er" in
      let s' := fresh "s" in let Es := fresh "Es" in
      let es := fresh "es" in let Ee := fresh "Ee" in
      remember (result (m s)) as r eqn:E;
      remember (state (m s)) as s' eqn:Es;
      remember (events (m s)) as es eqn:Ee;
      clear E Es Ee;
      cbn [cfg environ atexit] in H; split_hyps
  end.

Lemma phases_post_prefix W s r s' pre es :
  Forall (fun e => allowed None e = true) pre ->
  Forall (fun e => early_event e = true) pre ->
  phases_post W s r s' es -> phases_post W s r s' (pre ++ es).
Proof.
  intros Hp Hv (H1 & H2 & H3 & H4 & H5 & H6 & H7). unfold phases_post. conj7.
  - assumption.
  - apply Forall_app; split; [eapply Forall_allowed_phase; exact Hp | assumption].
  - assumption.
  - apply fs_shape_app_l; [eapply Forall_allowed_none_fs_ok; exact Hp | assumption].
  - assumption.
  - rewrite entries_app, (early_entries_verification Hv). exact H6.
  - intros Hv'. rewrite entries_app, (early_entries_execution Hv). now apply H7.
Qed.

Lemma main_body_spec W s :
  work_dir (cfg s) = None -> mlflow_server_pid (cfg s) = None ->
  wp (main_body W) s (fun r s' es => phases_post W (registered s) r s' es).
Proof.
  intros Hwd Hpid. unfold main_body.
  apply wp_bind, wp_atexit_register; cbv beta iota.
  apply wp_bind, wp_get_config; cbv beta iota.
  apply wp_bind, wp_emit; cbv beta iota.
  apply wp_bind, wp_emit; cbv beta iota.
  apply wp_bind, wp_when_info; cbv beta iota.
  apply wp_bind, wp_when_info; cbv beta iota.
  apply wp_bind, wp_when_info; cbv beta iota.
  change {| cfg := cfg s; environ := environ s;
            atexit := atexit s ++ [CleanupHandler] |} with (registered s).
  assert (Hwd1 : work_dir (cfg (registered s)) = None) by exact Hwd.
  assert (Hpid1 : mlflow_server_pid (cfg (registered s)) = None) by exact Hpid.
  clear Hwd Hpid. generalize dependent (registered s). clear s. intros s Hwd Hpid.
  match goal with
  | |- wp ?K s (fun r s' es => phases_post _ _ _ _ (_ ++ _ ++ _ ++ _ ++ ?a ++ ?b ++ ?c ++ es)) =>
      set (pa := a); set (pb := b); set (pc := c);
      assert (HK : wp K s (phases_post W s))
  end.
  2:{ eapply wp_conseq; [exact HK|]. cbv beta. intros r s' es Hpost.
      subst pa pb pc.
      repeat (apply phases_post_prefix;
              [ try (match goal with
                     | |- Forall _ (if ?b then _ else _) => destruct b
                     end); repeat constructor
              | try (match goal with
                     | |- Forall _ (if ?b then _ else _) => destruct b
                     end); repeat constructor
              | ]).
      exact Hpost. }
  clear pa pb pc.
  unfold phases_post at 1.
  cbn [first_failure pipeline phase_fn]. unfold passes.
  apply wp_bind.
  wp_phase (check_prerequisites_spec W).
  destruct r as [[|]|e1]; [| |destruct H as [? ?]; discriminate]; cbn [negb]; cbv iota.
  2:{ wp_go. cbv zeta. conj7.
      - assumption.
      - pieces.
      - intros _. unfold may_kill. now rewrite H4, Hpid.
      - rewrite H3, Hwd. apply fs_shape_quiet. pieces.
      - now left.
      - count_entries.
      - intros _. count_entries. }
  apply wp_bind. wp_phase (setup_phase_spec W).
  assert (Hwd0 : work_dir (cfg s0) = None) by congruence.
  edestruct setup_shape_facts as (Hph0 & Hsh0 & Hret0);
    [exact H14 | exact H15 | exact Hwd0 |].
  eapply fs_shape_skill_dir in Hsh0; [|exact H6].
  clear H14 H15 x.
  assert (Hkill1 : truthy_opt_str (tracking_uri (cfg s)) = true ->
                   use_external_server (cfg s1) = true).
  { intros Ht. rewrite H9. now apply H7. }
  assert (Hat1 : atexit s1 = atexit s) by congruence.
  clear H  H2 H3 H4 H5 H6 H7 H8 H9 H10 H11 H12 Hwd0 s0.
  destruct r as [[|]|e2]; cbn [negb]; cbv iota.
  2:{ wp_go. cbv zeta. conj7.
      - assumption.
      - pieces.
      - intros Ht. unfold may_kill. rewrite (Hkill1 Ht). apply andb_false_r.
      - apply fs_shape_app_l; [pieces|]. apply fs_shape_app_r; [assumption|pieces].
      - now left.
      - count_entries.
      - intros _. count_entries. }
  2:{ cbv zeta. conj7.
      - assumption.
      - pieces.
      - intros Ht. unfold may_kill. rewrite (Hkill1 Ht). apply andb_false_r.
      - apply fs_shape_app_l; [pieces|]. assumption.
      - right. split; [reflexivity|]. now exists e2.
      - count_entries.
      - intros _. count_entries. }
  destruct (work_dir (cfg s1)) as [wd|] eqn:Hwd1;
    [clear Hret0 | exfalso; apply Hret0; [now exists true | reflexivity]].
  apply wp_bind. wp_phase (test_claude_headless_spec W).
  subst s0. clear H5.
  assert (Hr : returns r) by (apply H4; congruence). clear H4.
  destruct r as [[|]|e3]; [| |destruct Hr as [? ?]; discriminate];
    clear Hr; cbn [negb]; cbv iota.
  2:{ wp_go. cbv zeta. conj7.
      - assumption.
      - pieces.
      - intros Ht. unfold may_kill. rewrite (Hkill1 Ht). apply andb_false_r.
      - rewrite Hwd1. apply fs_shape_app_l; [pieces|].
        apply fs_shape_app_r; [assumption|pieces].
      - now left.
      - count_entries.
      - intros _. count_entries. }
  apply wp_bind. wp_phase (run_claude_code_spec W).
  rewrite Hwd1 in H4.
  assert (Hr : returns r) by (apply H6; congruence). clear H6.
  destruct H as (Hat2 & Hwd2 & Hext2 & _ & _ & _).
  rewrite Hwd1 in Hwd2. rewrite Hat1 in Hat2.
  assert (Hkill2 : truthy_opt_str (tracking_uri (cfg s)) = true ->
                   use_external_server (cfg s0) = true).
  { intros Ht. rewrite Hext2. now apply Hkill1. }
  clear Hext2 Hkill1 Hat1 Hwd1 s1.
  destruct r as [[|]|e4]; [| |destruct Hr as [? ?]; discriminate];
    clear Hr; cbn [negb]; cbv iota.
  2:{ wp_go. cbv zeta. conj7.
      - assumption.
      - pieces.
      - intros Ht. unfold may_kill. rewrite (Hkill2 Ht). apply andb_false_r.
      - rewrite Hwd2. apply fs_shape_app_l; [pieces|].
        apply fs_shape_app_r; [assumption|pieces].
      - now left.
      - count_entries.
      - intros Hx; discriminate Hx. }
  apply wp_bind. wp_phase (verify_results_spec W).
  subst s1 es3.
  assert (Hr : returns r) by (apply H6; congruence). clear H6.
  destruct r as [[|]|e5]; [| |destruct Hr as [? ?]; discriminate];
    clear Hr; cbn [negb]; cbv iota.
  - wp_go. cbv zeta. conj7.
    + assumption.
    + pieces.
    + intros Ht. unfold may_kill. rewrite (Hkill2 Ht). apply andb_false_r.
    + rewrite Hwd2. apply fs_shape_app_l; [pieces|].
      apply fs_shape_app_r; [assumption|pieces].
    + now left.
    + count_entries.
    + intros Hx; discriminate Hx.
  - wp_go. cbv zeta. conj7.
    + assumption.
    + pieces.
    + intros Ht. unfold may_kill. rewrite (Hkill2 Ht). apply andb_false_r.
    + rewrite Hwd2. apply fs_shape_app_l; [pieces|].
      apply fs_shape_app_r; [assumption|pieces].
    + now left.
    + count_entries.
    + intros Hx; discriminate Hx.
Qed.

(* ------------------------------------------------------------------ *)
(** ** Interpreter exit *)

Lemma run_exit_handlers_spec W s :
  wp (run_exit_handlers W [CleanupHandler]) s (fun r s' es =>
    s' = s /\
    exists body fault,
      es = (EvLog SECTION [Lit "Cleanup"] :: body) ++ fault /\
      Forall (fun e => cleanup_event (work_dir (cfg s)) (may_kill (cfg s)) e = true)
        body /\
      (fault = [] \/ exists what, fault = [EvUncaught (OSError what)]) /\
      (work_dir (cfg s) = None -> fault = [])).
Proof.
  cbn [run_exit_handlers call_handler].
  apply wp_bind, wp_try_except.
  eapply wp_conseq; [apply cleanup_spec|]. cbv beta.
  intros r s' es (-> & Hr & Hnone & body & -> & Hbody).
  destruct r as [[]|e].
  - apply wp_ret. split; [reflexivity|]. exists body, [].
    rewrite !app_nil_r. repeat split; auto.
  - destruct Hr as [[? Hr]|[what Hr]]; [discriminate|]. injection Hr as ->.
    wp_simpl. apply wp_emit, wp_ret. split; [reflexivity|].
    exists body, [EvUncaught (OSError what)]. rewrite app_nil_r.
    repeat split; eauto.
    intros Hn. specialize (Hnone Hn). discriminate.
Qed.

(** Everything the proofs below need to know about a whole run. *)
Lemma script_spec W args :
  let x := script W args in
  let v := verdict W args in
  let wd := work_dir (cfg (final x)) in
  exists main_es tb body fault,
    trace x = main_es ++ tb ++ (EvLog SECTION [Lit "Cleanup"] :: body) ++ fault /\
    Forall (fun e => phase_event e = true) main_es /\
    fs_shape (initial_config W args) main_es wd /\
    Forall (fun e => cleanup_event wd (may_kill (cfg (final x))) e = true) body /\
    (truthy_opt_str (tracking_uri (initial_config W args)) = true ->
     may_kill (cfg (final x)) = false) /\
    (tb = [] \/ exists e, tb = [EvUncaught e]) /\
    (fault = [] \/ exists what, fault = [EvUncaught (OSError what)]) /\
    (wd = None -> fault = []) /\
    exit_code x = exit_code_of v /\
    entries "Verification Phase" main_es = (if enters_verification v then 1 else 0) /\
    (enters_execution v = false ->
     entries "Running Claude Code Evaluation" main_es = 0).
Proof.
  cbv zeta. unfold script, main, verdict, start_state.
  set (s0 := mkSt (initial_config W args) (w_environ W) []).
  pose proof (@main_body_spec W s0 eq_refl eq_refl) as Hm.
  unfold wp, phases_post in Hm. cbv zeta in Hm.
  destruct Hm as (Hat & Hph & Hkill & Hsh & Hres & Hver & Hexe).
  remember (main_body W s0) as o eqn:Eo. clear Eo.
  rewrite Hat. change (rev (atexit (registered s0))) with [CleanupHandler].
  pose proof (run_exit_handlers_spec W (state o)) as Hc.
  unfold wp in Hc. destruct Hc as (Hst & body & fault & Hev & Hbody & Hfault & Hnone).
  cbn [exit_code trace final]. rewrite Hev, Hst.
  exists (events o),
    (match result o with Ret _ => [] | Raise e => [EvUncaught e] end), body, fault.
  repeat split; try assumption.
  - destruct (result o); eauto.
  - destruct Hres as [-> | (-> & e & ->)]; reflexivity.
Qed.

(* ------------------------------------------------------------------ *)
(** ** Whole runs *)

Lemma kills_app a b : kills (a ++ b) = kills a ++ kills b.
Proof. apply filter_app. Qed.

Lemma phase_events_no_kill es :
  Forall (fun e => phase_event e = true) es -> kills es = [].
Proof.
  induction 1 as [|e es He _ IH]; [reflexivity|].
  unfold kills in *. simpl. destruct e; simpl in *; try discriminate; exact IH.
Qed.

Lemma cleanup_events_no_kill wd es :
  Forall (fun e => cleanup_event wd false e = true) es -> kills es = [].
Proof.
  induction 1 as [|e es He _ IH]; [reflexivity|].
  unfold kills in *. simpl. destruct e; simpl in *; try discriminate; exact IH.
Qed.

Lemma phase_events_entries_cleanup es :
  Forall (fun e => phase_event e = true) es -> entries "Cleanup" es = 0.
Proof.
  intros H. apply entries_none. eapply Forall_impl; [|exact H].
  intros e He. unfold phase_event in He.
  apply andb_prop in He. destruct He as [_ He]. now apply negb_true_iff.
Qed.

Lemma cleanup_events_no_section n wd k es :
  Forall (fun e => cleanup_event wd k e = true) es -> entries n es = 0.
Proof.
  intros H. apply entries_none. eapply Forall_impl; [|exact H].
  intros e He. destruct e as [[] | | | | | | | |]; simpl in *; try reflexivity;
    discriminate.
Qed.

Lemma entries_traceback n tb :
  (tb = [] \/ exists e, tb = [EvUncaught e]) -> entries n tb = 0.
Proof. intros [-> | [e ->]]; reflexivity. Qed.

Lemma entries_fault n fault :
  (fault = [] \/ exists what, fault = [EvUncaught (OSError what)]) ->
  entries n fault = 0.
Proof. intros [-> | [e ->]]; reflexivity. Qed.

(** The sections of a whole run: those of [main], then one "Cleanup". *)
Lemma entries_script n W args main_es tb body fault wd k :
  trace (script W args)
  = main_es ++ tb ++ (EvLog SECTION [Lit "Cleanup"] :: body) ++ fault ->
  (tb = [] \/ exists e, tb = [EvUncaught e]) ->
  (fault = [] \/ exists what, fault = [EvUncaught (OSError what)]) ->
  Forall (fun e => cleanup_event wd k e = true) body ->
  entries n (trace (script W args))
  = entries n main_es + (if String.eqb "Cleanup" n then 1 else 0).
Proof.
  intros -> Htb Hf Hb.
  rewrite !entries_app.
  rewrite (@entries_traceback n tb Htb), (@entries_fault n fault Hf).
  assert (Hs : entries n (EvLog SECTION [Lit "Cleanup"] :: body)
               = (if String.eqb "Cleanup" n then 1 else 0) + entries n body).
  { unfold entries. cbn [filter is_section].
    destruct (String.eqb "Cleanup" n); reflexivity. }
  rewrite Hs, (@cleanup_events_no_section n wd k body Hb). lia.
Qed.

Lemma script_exit_code (W : World) (args : Args) :
  exit_code (script W args) = exit_code_of (verdict W args).
Proof.
  destruct (script_spec W args)
    as (main_es & tb & body & fault & _ & _ & _ & _ & _ & _ & _ & _ & H & _).
  exact H.
Qed.

Lemma script_enters_cleanup_once (W : World) (args : Args) :
  entries "Cleanup" (trace (script W args)) = 1.
Proof.
  destruct (script_spec W args)
    as (main_es & tb & body & fault & Ht & Hph & _ & Hb & _ & Htb & Hf & _).
  erewrite entries_script; [|exact Ht|exact Htb|exact Hf|exact Hb].
  rewrite (@phase_events_entries_cleanup main_es Hph). reflexivity.
Qed.

(** Claim C4.  For every run the process exit code is given by the first
    phase that fails: 0 when all five phases pass, 1 when Prerequisites,
    Setup or the Smoke Test fails, 2 when Execution fails, 3 when
    Verification fails ([exit_code_of] is that table; a phase fails when its
    function returns False or raises). *)
Theorem exit_code_by_first_failing_phase (W : World) (args : Args) :
  exit_code (script W args) = exit_code_of (verdict W args).
Proof. apply script_exit_code. Qed.

(** X1.  Whatever the outcome of the phases, the trace of a run enters
    [cleanup] exactly once. *)
Theorem cleanup_runs_exactly_once (W : World) (args : Args) :
  entries "Cleanup" (trace (script W args)) = 1.
Proof. apply script_enters_cleanup_once. Qed.

(** Claim C6.  When the run context says an external tracking endpoint is
    used, [cleanup] sends no signal at all: neither SIGTERM nor the
    signal-0 liveness checks. *)
Theorem cleanup_external_endpoint_sends_no_signal (W : World) (s : St) :
  use_external_server (cfg s) = true ->
  kills (events (cleanup W s)) = [].
Proof.
  intros Hext.
  destruct (cleanup_spec W s) as (_ & _ & _ & body & -> & Hb).
  unfold may_kill in Hb. rewrite Hext, andb_false_r in Hb.
  change (kills (EvLog SECTION [Lit "Cleanup"] :: body)) with (kills body).
  eapply cleanup_events_no_kill; exact Hb.
Qed.

(** X2.  A run that is given a non-empty tracking URI (flag or
    environment) sends no signal from its first event to its last, cleanup
    included. *)
Theorem external_endpoint_run_sends_no_signal (W : World) (args : Args) :
  truthy_opt_str (tracking_uri (initial_config W args)) = true ->
  kills (trace (script W args)) = [].
Proof.
  intros Huri.
  destruct (script_spec W args)
    as (main_es & tb & body & fault & -> & Hph & _ & Hb & Hk & Htb & Hf & _).
  rewrite (Hk Huri) in Hb.
  rewrite !kills_app, (@phase_events_no_kill main_es Hph).
  change (kills (EvLog SECTION [Lit "Cleanup"] :: body)) with (kills body).
  rewrite (@cleanup_events_no_kill _ body Hb).
  destruct Htb as [-> | [e ->]], Hf as [-> | [w ->]]; reflexivity.
Qed.

(** Claim C9, as amended.  The file-system writes of a whole run, cleanup
    included, are: none; or only the shared [test-runs] directory next to
    the skill directory; or that directory first, then the working
    directory created inside it, then only paths inside the working
    directory. *)
Theorem filesystem_footprint (W : World) (args : Args) :
  fs_shape (initial_config W args) (trace (script W args))
    (work_dir (cfg (final (script W args)))).
Proof.
  destruct (script_spec W args)
    as (main_es & tb & body & fault & -> & _ & Hsh & Hb & _ & Htb & Hf & _).
  apply fs_shape_app_r; [exact Hsh|].
  apply Forall_app; split; [|apply Forall_app; split].
  - destruct Htb as [-> | [e ->]]; repeat constructor.
  - constructor; [reflexivity|].
    eapply Forall_impl; [|exact Hb]. intros e. apply cleanup_event_fs_ok.
  - destruct Hf as [-> | [e ->]]; repeat constructor.
Qed.

Lemma first_failure_app W ps qs s :
  first_failure W (ps ++ qs) s =
  match state_after W ps s with
  | Some s' => first_failure W qs s'
  | None => first_failure W ps s
  end.
Proof.
  revert s. induction ps as [|p ps IH]; intros s; simpl; [reflexivity|].
  destruct (passes (phase_fn W p s)); [apply IH | reflexivity].
Qed.

Lemma verdict_from W args p s :
  state_before W args p = Some s ->
  verdict W args = first_failure W (skipn (List.length (phases_before p)) pipeline) s.
Proof.
  unfold state_before, verdict. intros H.
  replace pipeline
    with (phases_before p ++ skipn (List.length (phases_before p)) pipeline)
    at 1 by (destruct p; reflexivity).
  now rewrite first_failure_app, H.
Qed.

Lemma run_claude_code_timeout W s wd :
  work_dir (cfg s) = Some wd ->
  w_open_write W (wd // "claude_output.log") = IoOk tt ->
  w_agent W = TimedOut ->
  result (run_claude_code W s) = Ret true.
Proof.
  intros Hwd Hopen Hagent.
  change (wp (run_claude_code W) s (fun r _ _ => r = Ret true)).
  unfold run_claude_code. wp_go; try reflexivity; discriminate.
Qed.

Lemma run_claude_code_nonzero W s wd rc out err :
  work_dir (cfg s) = Some wd ->
  w_open_write W (wd // "claude_output.log") = IoOk tt ->
  w_agent W = Done (Exited rc out err) -> rc <> 0%Z ->
  result (run_claude_code W s) = Ret false.
Proof.
  intros Hwd Hopen Hagent Hrc.
  change (wp (run_claude_code W) s (fun r _ _ => r = Ret false)).
  unfold run_claude_code. wp_go; try reflexivity; try discriminate.
  all: match goal with
       | H : negb (_ =? 0)%Z = false |- _ =>
           apply negb_false_iff, Z.eqb_eq in H; contradiction
       end.
Qed.

Lemma setup_passed_work_dir W s :
  passes (setup_phase W s) = true ->
  work_dir (cfg (state (setup_phase W s))) <> None.
Proof.
  intros Hp. pose proof (setup_phase_spec W s) as H. unfold wp in H.
  destruct H as (_ & _ & _ & _ & _ & _ & tail & _ & [(_ & _ & Hn)|H]).
  - exfalso. apply Hn. unfold passes in Hp.
    destruct (result (setup_phase W s)) as [b|]; [now exists b | discriminate].
  - destruct H as (suffix & rest & _ & -> & _). discriminate.
Qed.

Lemma smoke_passed_state W s :
  state (test_claude_headless W s) = s.
Proof.
  pose proof (test_claude_headless_spec W s) as H. unfold wp in H. tauto.
Qed.

Lemma state_after_cons W p ps s :
  state_after W (p :: ps) s =
  if passes (phase_fn W p s) then state_after W ps (state (phase_fn W p s))
  else None.
Proof. reflexivity. Qed.

Lemma later_phase_keeps_work_dir W p s :
  later_phase p ->
  work_dir (cfg (state (phase_fn W p s))) = work_dir (cfg s).
Proof.
  intros [-> | [-> | ->]]; unfold phase_fn.
  - now rewrite smoke_passed_state.
  - pose proof (run_claude_code_spec W s) as H. unfold wp in H.
    now destruct H as ((_ & Hw & _) & _).
  - pose proof (verify_results_spec W s) as H. unfold wp in H.
    destruct H as (-> & _). reflexivity.
Qed.

Lemma state_after_later W ps :
  Forall later_phase ps ->
  forall s s', state_after W ps s = Some s' ->
  work_dir (cfg s') = work_dir (cfg s).
Proof.
  induction 1 as [|p ps Hp _ IH]; intros s s'.
  - now intros [= ->].
  - rewrite state_after_cons. destruct (passes (phase_fn W p s)); [|discriminate].
    intros H. rewrite (IH _ _ H). now apply later_phase_keeps_work_dir.
Qed.

Lemma state_after_setup W ps s0 s :
  state_after W (Prerequisites :: Setup :: ps) s0 = Some s ->
  Forall later_phase ps ->
  work_dir (cfg s) <> None.
Proof.
  rewrite !state_after_cons.
  destruct (passes (phase_fn W Prerequisites s0)); [|discriminate].
  destruct (passes (phase_fn W Setup _)) eqn:Hs; [|discriminate].
  intros H Hps. rewrite (@state_after_later W ps Hps _ _ H).
  now apply setup_passed_work_dir.
Qed.

(** The run context when a phase after Setup starts: the working directory
    is set. *)
Lemma work_dir_after_setup W args p s :
  state_before W args p = Some s ->
  later_phase p ->
  work_dir (cfg s) <> None.
Proof.
  unfold state_before, later_phase. intros H [-> | [-> | ->]];
    apply (@state_after_setup W _ _ _ H);
    repeat first [apply Forall_nil | apply Forall_cons];
    unfold later_phase; auto.
Qed.

Lemma entries_of_run n W args :
  exists main_es,
    entries n (trace (script W args))
    = entries n main_es + (if String.eqb "Cleanup" n then 1 else 0) /\
    entries "Verification Phase" main_es
    = (if enters_verification (verdict W args) then 1 else 0) /\
    (enters_execution (verdict W args) = false ->
     entries "Running Claude Code Evaluation" main_es = 0).
Proof.
  destruct (script_spec W args)
    as (main_es & tb & body & fault & Ht & _ & _ & Hb & _ & Htb & Hf & _ & _
        & Hv & He).
  exists main_es. split; [|split; assumption].
  exact (@entries_script n W args main_es tb body fault _ _ Ht Htb Hf Hb).
Qed.

(** Claim C2.  When the Execution-phase invocation runs into its timeout,
    [run_claude_code] returns True and the run goes on into the
    Verification phase, so the exit code is 0 or 3, never 2. *)
Theorem execution_timeout_proceeds_to_verification
  (W : World) (args : Args) (s : St) (wd : Path) :
  state_before W args Execution = Some s ->
  work_dir (cfg s) = Some wd ->
  w_open_write W (wd // "claude_output.log") = IoOk tt ->
  w_agent W = TimedOut ->
  result (run_claude_code W s) = Ret true /\
  entries "Verification Phase" (trace (script W args)) = 1 /\
  (exit_code (script W args) = EXIT_SUCCESS \/
   exit_code (script W args) = EXIT_VERIFICATION_FAILED).
Proof.
  intros Hs Hwd Hopen Hagent.
  pose proof (run_claude_code_timeout W s Hwd Hopen Hagent) as Hr.
  assert (Hv : verdict W args = AllPassed \/ verdict W args = FailedAt Verification).
  { rewrite (verdict_from W args Execution Hs).
    cbn [phases_before List.length skipn pipeline first_failure].
    unfold passes. cbn [phase_fn]. rewrite Hr.
    destruct (result (verify_results W (state (run_claude_code W s))))
      as [[|]|]; auto. }
  split; [exact Hr|].
  destruct (entries_of_run "Verification Phase" W args) as (main_es & Ht & Hm & _).
  rewrite script_exit_code, Ht, Hm.
  destruct Hv as [-> | ->]; cbn; auto.
Qed.

(** Claim C3.  When the Execution-phase invocation completes with a
    non-zero exit code, [run_claude_code] returns False, the Verification
    phase is never entered, cleanup still runs (once), and the process
    exits with code 2. *)
Theorem execution_nonzero_exit_halts_pipeline
  (W : World) (args : Args) (s : St) (wd : Path) (rc : Z) (out err : string) :
  state_before W args Execution = Some s ->
  work_dir (cfg s) = Some wd ->
  w_open_write W (wd // "claude_output.log") = IoOk tt ->
  w_agent W = Done (Exited rc out err) ->
  rc <> 0%Z ->
  result (run_claude_code W s) = Ret false /\
  entries "Verification Phase" (trace (script W args)) = 0 /\
  entries "Cleanup" (trace (script W args)) = 1 /\
  exit_code (script W args) = 2%Z.
Proof.
  intros Hs Hwd Hopen Hagent Hrc.
  pose proof (run_claude_code_nonzero W s Hwd Hopen Hagent Hrc) as Hr.
  assert (Hv : verdict W args = FailedAt Execution).
  { rewrite (verdict_from W args Execution Hs).
    cbn [phases_before List.length skipn pipeline first_failure].
    unfold passes. cbn [phase_fn]. now rewrite Hr. }
  split; [exact Hr|].
  destruct (entries_of_run "Verification Phase" W args) as (main_es & Ht & Hm & _).
  rewrite script_exit_code, script_enters_cleanup_once, Ht, Hm, Hv.
  cbn. auto.
Qed.

(** Claim C10.  When the Smoke Test invocation runs into its 120-second
    timeout, [test_claude_headless] returns False, neither the Execution
    nor the Verification phase is entered, and the process exits with
    code 1. *)
Theorem smoke_test_timeout_fails_setup
  (W : World) (args : Args) (s : St) :
  state_before W args SmokeTest = Some s ->
  w_smoke W = TimedOut ->
  result (test_claude_headless W s) = Ret false /\
  entries "Running Claude Code Evaluation" (trace (script W args)) = 0 /\
  entries "Verification Phase" (trace (script W args)) = 0 /\
  exit_code (script W args) = 1%Z.
Proof.
  intros Hs Hsmoke.
  assert (Hwd : work_dir (cfg s) <> None).
  { apply (@work_dir_after_setup W args SmokeTest s Hs). now left. }
  pose proof (test_claude_headless_spec W s) as Hspec. unfold wp in Hspec.
  destruct Hspec as (_ & _ & _ & Hret & Hto).
  specialize (Hret Hwd). specialize (Hto Hsmoke).
  assert (Hr : result (test_claude_headless W s) = Ret false).
  { destruct Hret as [[|] Hb]; [contradiction | exact Hb]. }
  assert (Hv : verdict W args = FailedAt SmokeTest).
  { rewrite (verdict_from W args SmokeTest Hs).
    cbn [phases_before List.length skipn pipeline first_failure].
    unfold passes. cbn [phase_fn]. now rewrite Hr. }
  split; [exact Hr|].
  destruct (entries_of_run "Verification Phase" W args) as (m1 & Ht1 & Hm1 & _).
  destruct (entries_of_run "Running Claude Code Evaluation" W args)
    as (m2 & Ht2 & _ & Hm2).
  rewrite script_exit_code, Ht1, Hm1, Ht2, Hv.
  rewrite Hv in Hm2. rewrite (Hm2 eq_refl). cbn. auto.
Qed.

(* ------------------------------------------------------------------ *)
(** ** Verification *)

Import VerificationScript.

Lemma script_results d t sc :
  results (run d t sc) =
  [("datasets", [("found", PInt (Z.of_nat (count d)));
                 ("pass", PBool (1 <=? count d)%nat)]);
   ("scorers", [("found", PInt (Z.of_nat (count (count_scorers sc))));
                ("pass", PBool (1 <=? count (count_scorers sc))%nat)]);
   ("traces", [("found", PInt (Z.of_nat (count t)));
               ("with_assessments", PInt 0);
               ("pass", PBool (1 <=? count t)%nat)])].
Proof. destruct d, t, sc; reflexivity. Qed.

Lemma script_warnings d t sc :
  warnings (run d t sc)
  = warning_of "datasets" d ++ warning_of "traces" t ++ warning_of "scorers" sc.
Proof. destruct d, t, sc; reflexivity. Qed.

Lemma wp_report_category rs key label unit_ s
  (Q : Res bool -> St -> list Event -> Prop) (n : nat) mid :
  get_dict rs key
  = ("found", PInt (Z.of_nat n)) :: mid ++ [("pass", PBool (1 <=? n)%nat)] ->
  dict_get mid "pass" = None ->
  Q (Ret (1 <=? n)%nat) s [report_line label unit_ n] ->
  wp (report_category rs key label unit_) s Q.
Proof.
  intros Hd Hmid HQ. unfold report_category, report_line in *. rewrite Hd.
  assert (Hp : dict_get (("found", PInt (Z.of_nat n)) :: mid
                         ++ [("pass", PBool (1 <=? n)%nat)]) "pass"
               = Some (PBool (1 <=? n)%nat)).
  { cbn [dict_get]. change (String.eqb "pass" "found") with false. cbv iota.
    clear -Hmid. revert Hmid.
    induction mid as [|[k v] mid IH]; cbn [dict_get app].
    - reflexivity.
    - destruct (String.eqb "pass" k); [discriminate | exact IH]. }
  rewrite Hp. cbn [truthy_val found dict_get].
  change (String.eqb "found" "found") with true. cbv iota.
  destruct (1 <=? n)%nat; wp_run; exact HQ.
Qed.

(** Claim C5.  With the answers [d], [t], [sc] of the store, a category
    passes exactly when its count is at least 1 (a query that raised counts
    0 and leaves a warning, the other categories are counted all the same),
    [verify_results] returns the conjunction of the three category
    verdicts, and prints one PASS/FAIL line per category with its count. *)
Theorem verification_verdict
  (W : World) (s : St) (wd : Path) (d t : IO nat) (sc : IO string) :
  work_dir (cfg s) = Some wd ->
  w_verify W = VerifyRan d t sc ->
  let nd := count d in
  let ns := count (count_scorers sc) in
  let nt := count t in
  result (verify_results W s) = Ret ((1 <=? nd)%nat && (1 <=? ns)%nat && (1 <=? nt)%nat) /\
  report_lines (events (verify_results W s))
  = [report_line "Datasets" "created" nd;
     report_line "Scorers" "registered" ns;
     report_line "Evaluation runs" "traces created" nt] /\
  warnings (run d t sc)
  = warning_of "datasets" d ++ warning_of "traces" t ++ warning_of "scorers" sc.
Proof.
  intros Hwd Hver nd ns nt.
  split; [|split]; [| |apply script_warnings].
  - change (wp (verify_results W) s (fun r _ _ =>
              r = Ret ((1 <=? nd)%nat && (1 <=? ns)%nat && (1 <=? nt)%nat))).
    unfold verify_results, run_verification_child. wp_run.
    rewrite script_results.
    eapply wp_report_category with (mid := []); [reflexivity | reflexivity |].
    apply wp_bind.
    eapply wp_report_category with (mid := []); [reflexivity | reflexivity |].
    apply wp_bind.
    eapply wp_report_category
      with (mid := [("with_assessments", PInt 0)]); [reflexivity | reflexivity |].
    cbv beta iota. fold nd ns nt.
    wp_run; reflexivity.
  - change (wp (verify_results W) s (fun _ _ es =>
              report_lines es
              = [report_line "Datasets" "created" nd;
                 report_line "Scorers" "registered" ns;
                 report_line "Evaluation runs" "traces created" nt])).
    unfold verify_results, run_verification_child. wp_run.
    rewrite script_results.
    eapply wp_report_category with (mid := []); [reflexivity | reflexivity |].
    apply wp_bind.
    eapply wp_report_category with (mid := []); [reflexivity | reflexivity |].
    apply wp_bind.
    eapply wp_report_category
      with (mid := [("with_assessments", PInt 0)]); [reflexivity | reflexivity |].
    fold nd ns nt.
    wp_run; unfold report_lines, report_line;
      destruct (1 <=? nd)%nat, (1 <=? ns)%nat, (1 <=? nt)%nat; reflexivity.
Qed.

(* ------------------------------------------------------------------ *)
(** ** Health polling *)

Section Polling.

Variable W : World.
Variable log_file : Path.
Variable port : Z.

Let curl : Event := EvRun ["curl"; "-s"; health_url port] None (Some 2%Z).

(** One trip round the loop when the probe does not succeed. *)
Lemma wp_failed_probe remaining attempt s
  (Q : Res LoopExit -> St -> list Event -> Prop) :
  probe_succeeds (w_health W attempt) = false ->
  match w_poll W attempt with
  | Some _ =>
      wp (report_server_log W "MLflow server process died" log_file) s
        (fun r s' es =>
           match r with
           | Ret _ => Q (Ret LoopReturn) s' (curl :: es)
           | Raise e => Q (Raise e) s' (curl :: es)
           end)
  | None =>
      wp (wait_until_ready W log_file port remaining (S attempt)) s
        (fun r s' es => Q r s' (curl :: EvSleep 1000 :: es))
  end ->
  wp (wait_until_ready W log_file port (S remaining) attempt) s Q.
Proof.
  intros Hprobe H. cbn [wait_until_ready].
  assert (Hstep :
    wp (if false then ret LoopBreak
        else match w_poll W attempt with
             | Some _ =>
                 report_server_log W "MLflow server process died" log_file ;;
                 ret LoopReturn
             | None =>
                 sleep 1000 ;;
                 wait_until_ready W log_file port remaining (S attempt)
             end) s
       (fun r s' es => Q r s' (curl :: es))).
  { cbv iota. destruct (w_poll W attempt).
    - apply wp_bind. eapply wp_conseq; [exact H|]. cbv beta.
      intros [a|e] s' es HQ; [apply wp_ret; now rewrite app_nil_r | exact HQ].
    - apply wp_bind, wp_emit. cbv beta iota.
      eapply wp_conseq; [exact H|]. cbv beta. auto. }
  unfold probe_succeeds in Hprobe.
  apply wp_bind, wp_try_except, wp_bind. unfold subprocess_run at 1.
  apply wp_bind, wp_emit. cbv beta iota. unfold finish.
  destruct (w_health W attempt) as [[rc out err | what] | ]; wp_simpl.
  - cbn [andb]. apply wp_ret. cbv beta iota. apply wp_ret. cbv beta iota.
    cbn [returncode]. rewrite Hprobe. exact Hstep.
  - apply wp_raise. wp_simpl. apply wp_ret. exact Hstep.
  - apply wp_raise. wp_simpl. apply wp_ret. exact Hstep.
Qed.

Lemma polling_fails_fast_from (k : nat) : forall remaining attempt rc text s,
  k < remaining ->
  (forall i, i < k ->
     probe_succeeds (w_health W (attempt + i)) = false /\
     w_poll W (attempt + i) = None) ->
  probe_succeeds (w_health W (attempt + k)) = false ->
  w_poll W (attempt + k) = Some rc ->
  w_read W log_file = IoOk text ->
  wp (wait_until_ready W log_file port remaining attempt) s (fun r s' es =>
    r = Ret LoopReturn /\ s' = s /\
    es = concat (repeat [curl; EvSleep 1000] k)
         ++ [curl;
             EvLog ERROR [Lit "MLflow server process died"];
             EvLog ERROR [Lit "Check log: "; FPath log_file];
             EvPrint true [FStr text]]).
Proof.
  induction k as [|k IH]; intros remaining attempt rc text s Hlt Hbefore Hprobe Hpoll Hread.
  - destruct remaining as [|remaining]; [lia|].
    rewrite Nat.add_0_r in *.
    apply wp_failed_probe; [exact Hprobe|]. rewrite Hpoll.
    unfold report_server_log. wp_run. repeat split.
  - destruct remaining as [|remaining]; [lia|].
    destruct (Hbefore 0 ltac:(lia)) as [Hp0 Hq0]. rewrite Nat.add_0_r in Hp0, Hq0.
    apply wp_failed_probe; [exact Hp0|]. rewrite Hq0.
    eapply wp_conseq.
    + apply (IH remaining (S attempt) rc text s); [lia | | | | exact Hread].
      * intros i Hi. replace (S attempt + i) with (attempt + S i) by lia.
        apply Hbefore. lia.
      * now replace (S attempt + k) with (attempt + S k) by lia.
      * now replace (S attempt + k) with (attempt + S k) by lia.
    + cbv beta. intros r s' es (-> & -> & ->). repeat split.
Qed.

End Polling.

Lemma probes_polling port k tail :
  probes (concat (repeat [EvRun ["curl"; "-s"; health_url port] None (Some 2%Z);
                          EvSleep 1000] k)
          ++ EvRun ["curl"; "-s"; health_url port] None (Some 2%Z) :: tail)
  = S k + probes tail /\
  sleeps (concat (repeat [EvRun ["curl"; "-s"; health_url port] None (Some 2%Z);
                          EvSleep 1000] k)
          ++ EvRun ["curl"; "-s"; health_url port] None (Some 2%Z) :: tail)
  = k + sleeps tail.
Proof.
  unfold probes, sleeps. induction k as [|k [IH1 IH2]].
  - split; reflexivity.
  - cbn [repeat concat app filter is_probe is_sleep List.length].
    rewrite IH1, IH2. split; reflexivity.
Qed.

(** Claim C7.  If probes 0..k-1 fail with the server still running and the
    server is found dead after failed probe k (k below the ceiling of 30),
    health polling returns at once through the "process died" exit: k+1
    probes and k waits were made, the captured server log is printed, and
    the timeout exit of the loop is not taken. *)
Theorem polling_fails_fast
  (W : World) (log_file : Path) (port rc : Z) (k : nat) (text : string) (s : St) :
  k < max_attempts ->
  (forall i, i < k ->
     probe_succeeds (w_health W i) = false /\ w_poll W i = None) ->
  probe_succeeds (w_health W k) = false ->
  w_poll W k = Some rc ->
  w_read W log_file = IoOk text ->
  let o := wait_until_ready W log_file port max_attempts 0 s in
  result o = Ret LoopReturn /\
  probes (events o) = S k /\
  sleeps (events o) = k /\
  In (EvLog ERROR [Lit "MLflow server process died"]) (events o) /\
  In (EvPrint true [FStr text]) (events o) /\
  ~ In (EvLog ERROR [Lit "MLflow server failed to start (timeout)"]) (events o).
Proof.
  intros Hk Hbefore Hprobe Hpoll Hread o.
  destruct (@polling_fails_fast_from W log_file port k max_attempts 0 rc text s
              Hk Hbefore Hprobe Hpoll Hread) as (Hr & _ & He).
  fold o in Hr, He. rewrite He.
  destruct (probes_polling port k
              [EvLog ERROR [Lit "MLflow server process died"];
               EvLog ERROR [Lit "Check log: "; FPath log_file];
               EvPrint true [FStr text]]) as [Hp Hs].
  split; [exact Hr|]. split; [rewrite Hp; cbn; lia|].
  split; [rewrite Hs; cbn; lia|].
  split; [apply in_or_app; right; cbn; auto|].
  split; [apply in_or_app; right; cbn; auto|].
  intros Hin. apply in_app_or in Hin. destruct Hin as [Hin|Hin].
  - apply in_concat in Hin. destruct Hin as (l & Hl & Hin).
    apply repeat_spec in Hl. subst l. cbn in Hin.
    destruct Hin as [Hin|[Hin|[]]]; discriminate.
  - cbn in Hin. destruct Hin as [Hin|[Hin|[Hin|[Hin|[]]]]]; discriminate.
Qed.

(* ------------------------------------------------------------------ *)
(** ** The functions one by one *)

(** X3.  With no working directory and no server of its own to stop,
    [cleanup] writes its section header and nothing else: no file-system
    call, no signal, no exception, the run context untouched. *)
Theorem cleanup_without_resources (W : World) (s : St) :
  work_dir (cfg s) = None ->
  may_kill (cfg s) = false ->
  result (cleanup W s) = Ret tt /\
  state (cleanup W s) = s /\
  events (cleanup W s) = [EvLog SECTION [Lit "Cleanup"]].
Proof.
  intros Hwd Hkill. unfold may_kill, truthy_pid in Hkill.
  change (wp (cleanup W) s (fun r s' es =>
            r = Ret tt /\ s' = s /\ es = [EvLog SECTION [Lit "Cleanup"]])).
  unfold cleanup. wp_run; try (repeat split; fail).
  all: congruence.
Qed.

Lemma copy_session_logs_returns W wd s :
  w_mkdir W (wd // "claude-sessions") = IoOk tt ->
  result (copy_session_logs W wd s) = Ret tt.
Proof.
  intros Hmk.
  change (wp (copy_session_logs W wd) s (fun r _ _ => r = Ret tt)).
  unfold copy_session_logs. wp_run; try reflexivity.
  eapply wp_conseq; [apply for_each_copy_spec|]. cbv beta.
  intros [[]|e] s' es _; wp_run; reflexivity.
Qed.

Lemma remove_or_keep_returns W c wd s :
  keep_workdir c = true \/ w_rmtree W wd = IoOk tt ->
  result (remove_or_keep W c wd s) = Ret tt.
Proof.
  intros H.
  change (wp (remove_or_keep W c wd) s (fun r _ _ => r = Ret tt)).
  unfold remove_or_keep. destruct (keep_workdir c) eqn:Hk; cbn [negb].
  - wp_run; reflexivity.
  - destruct H as [H|H]; [discriminate|]. wp_run; reflexivity.
Qed.


Lemma wait_for_exit_bounded W pid n : forall i s,
  wp (wait_for_exit W pid n i) s (fun r s' es =>
    r = Ret tt /\ s' = s /\
    List.length (filter is_liveness_check es) <= n /\
    sleeps es <= n /\
    filter is_sigterm es = []).
Proof.
  induction n as [|n IH]; intros i s; cbn [wait_for_exit].
  - wp_run. cbn. auto.
  - unfold kill_probe. wp_run; try discriminate.
    + eapply wp_conseq; [apply IH|]. cbv beta.
      intros r s' es (-> & -> & H1 & H2 & H3).
      unfold sleeps in *. cbn. rewrite H3. repeat split; lia.
    + unfold sleeps. cbn. repeat split; lia.
Qed.

Lemma stop_server_bounds W pid s :
  wp (stop_server W pid) s (fun r s' es =>
    r = Ret tt /\ s' = s /\
    filter is_sigterm es = [EvKill pid SIGTERM] /\
    List.length (filter is_liveness_check es) <= 10 /\
    sleeps es <= 10).
Proof.
  unfold stop_server, kill_term. wp_run; try discriminate.
  - eapply wp_conseq; [apply wait_for_exit_bounded|]. cbv beta.
    intros r s' es (-> & -> & H1 & H2 & H3).
    wp_run. unfold sleeps in *. cbn. rewrite !filter_app, !length_app, H3.
    cbn. repeat split; lia.
  - unfold sleeps. cbn. repeat split; lia.
Qed.

(** X5.  Stopping the server is bounded and best effort: one SIGTERM, then
    at most ten liveness checks and at most ten half-second waits; no
    second, stronger signal is sent, and the function returns normally
    whether or not the process went away. *)
Theorem stop_server_is_bounded (W : World) (pid : Z) (s : St) :
  let es := events (stop_server W pid s) in
  result (stop_server W pid s) = Ret tt /\
  filter is_sigterm es = [EvKill pid SIGTERM] /\
  List.length (filter is_liveness_check es) <= 10 /\
  sleeps es <= 10.
Proof.
  cbv zeta. pose proof (stop_server_bounds W pid s) as H. unfold wp in H. tauto.
Qed.

Lemma wp_successful_probe W log_file port remaining attempt s
  (Q : Res LoopExit -> St -> list Event -> Prop) :
  probe_succeeds (w_health W attempt) = true ->
  Q (Ret LoopBreak) s [curl_probe port] ->
  wp (wait_until_ready W log_file port (S remaining) attempt) s Q.
Proof.
  intros Hprobe HQ. cbn [wait_until_ready]. unfold probe_succeeds in Hprobe.
  apply wp_bind, wp_try_except, wp_bind. unfold subprocess_run at 1.
  apply wp_bind, wp_emit. cbv beta iota. unfold finish.
  destruct (w_health W attempt) as [[rc out err | what] | ]; try discriminate.
  wp_simpl. cbn [andb]. apply wp_ret. cbv beta iota. apply wp_ret. cbv beta iota.
  cbn [returncode]. rewrite Hprobe. apply wp_ret. exact HQ.
Qed.

Lemma polling_succeeds_from W log_file port (k : nat) : forall remaining attempt s,
  k < remaining ->
  (forall i, i < k ->
     probe_succeeds (w_health W (attempt + i)) = false /\
     w_poll W (attempt + i) = None) ->
  probe_succeeds (w_health W (attempt + k)) = true ->
  wp (wait_until_ready W log_file port remaining attempt) s (fun r s' es =>
    r = Ret LoopBreak /\ s' = s /\
    es = concat (repeat [curl_probe port; EvSleep 1000] k) ++ [curl_probe port]).
Proof.
  induction k as [|k IH]; intros remaining attempt s Hlt Hbefore Hprobe.
  - destruct remaining as [|remaining]; [lia|].
    rewrite Nat.add_0_r in *.
    apply wp_successful_probe; [exact Hprobe|]. repeat split.
  - destruct remaining as [|remaining]; [lia|].
    destruct (Hbefore 0 ltac:(lia)) as [Hp0 Hq0]. rewrite Nat.add_0_r in Hp0, Hq0.
    apply wp_failed_probe; [exact Hp0|]. rewrite Hq0.
    eapply wp_conseq.
    + apply (IH remaining (S attempt) s); [lia | | ].
      * intros i Hi. replace (S attempt + i) with (attempt + S i) by lia.
        apply Hbefore. lia.
      * now replace (S attempt + k) with (attempt + S k) by lia.
    + cbv beta. intros r s' es (-> & -> & ->). repeat split.
Qed.

Lemma polling_exhausted_from W log_file port : forall remaining attempt s,
  (forall i, i < remaining ->
     probe_succeeds (w_health W (attempt + i)) = false /\
     w_poll W (attempt + i) = None) ->
  wp (wait_until_ready W log_file port remaining attempt) s (fun r s' es =>
    r = Ret LoopElse /\ s' = s /\
    es = concat (repeat [curl_probe port; EvSleep 1000] remaining)).
Proof.
  induction remaining as [|n IH]; intros attempt s Hall.
  - cbn [wait_until_ready]. apply wp_ret. repeat split.
  - destruct (Hall 0 ltac:(lia)) as [Hp0 Hq0]. rewrite Nat.add_0_r in Hp0, Hq0.
    apply wp_failed_probe; [exact Hp0|]. rewrite Hq0.
    eapply wp_conseq.
    + apply (IH (S attempt) s).
      intros i Hi. replace (S attempt + i) with (attempt + S i) by lia.
      apply Hall. lia.
    + cbv beta. intros r s' es (-> & -> & ->). repeat split.
Qed.

Lemma probes_rounds port k :
  probes (concat (repeat [curl_probe port; EvSleep 1000] k)) = k /\
  sleeps (concat (repeat [curl_probe port; EvSleep 1000] k)) = k.
Proof.
  unfold probes, sleeps. induction k as [|k [IH1 IH2]].
  - split; reflexivity.
  - cbn [repeat concat app filter is_probe is_sleep List.length curl_probe].
    fold (curl_probe port). rewrite IH1, IH2. split; reflexivity.
Qed.

Lemma no_logs_in_rounds port k e :
  In e (concat (repeat [curl_probe port; EvSleep 1000] k)) ->
  e = curl_probe port \/ e = EvSleep 1000.
Proof.
  intros Hin. apply in_concat in Hin. destruct Hin as (l & Hl & Hin).
  apply repeat_spec in Hl. subst l. cbn in Hin.
  destruct Hin as [Hin|[Hin|[]]]; auto.
Qed.

(** X6.  If probes 0..k-1 fail with the server still running and probe k
    (k below the ceiling of 30) is answered with exit status 0, health
    polling leaves the loop through [break] straight after that probe: k+1
    probes, k one-second waits, nothing logged, nothing read, and the run
    context unchanged. *)
Theorem polling_stops_at_first_healthy_probe
  (W : World) (log_file : Path) (port : Z) (k : nat) (s : St) :
  k < max_attempts ->
  (forall i, i < k ->
     probe_succeeds (w_health W i) = false /\ w_poll W i = None) ->
  probe_succeeds (w_health W k) = true ->
  let o := wait_until_ready W log_file port max_attempts 0 s in
  result o = Ret LoopBreak /\
  state o = s /\
  probes (events o) = S k /\
  sleeps (events o) = k /\
  Forall (fun e => e = curl_probe port \/ e = EvSleep 1000) (events o).
Proof.
  intros Hk Hbefore Hprobe o.
  destruct (@polling_succeeds_from W log_file port k max_attempts 0 s
              Hk Hbefore Hprobe) as (Hr & Hs & He).
  fold o in Hr, Hs, He. rewrite He.
  destruct (probes_rounds port k) as [Hp Hsl].
  unfold probes, sleeps in *. rewrite !filter_app, !length_app, Hp, Hsl.
  split; [exact Hr|]. split; [exact Hs|].
  split; [cbn; lia|]. split; [cbn; lia|].
  apply Forall_app. split.
  - apply Forall_forall. intros e. apply no_logs_in_rounds.
  - repeat constructor.
Qed.

(** X7.  If none of the 30 probes succeeds and the server process is still
    running after each of them, health polling runs the range to its end and
    leaves through the loop's [else]: exactly 30 probes and 30 one-second
    waits (one after the last probe too), and the "process died" exit is not
    taken. *)
Theorem polling_exhausts_the_ceiling
  (W : World) (log_file : Path) (port : Z) (s : St) :
  (forall i, i < max_attempts ->
     probe_succeeds (w_health W i) = false /\ w_poll W i = None) ->
  let o := wait_until_ready W log_file port max_attempts 0 s in
  result o = Ret LoopElse /\
  state o = s /\
  probes (events o) = 30 /\
  sleeps (events o) = 30 /\
  last (events o) (curl_probe port) = EvSleep 1000.
Proof.
  intros Hall o.
  destruct (@polling_exhausted_from W log_file port max_attempts 0 s Hall)
    as (Hr & Hs & He).
  fold o in Hr, Hs, He. rewrite He.
  destruct (probes_rounds port max_attempts) as [Hp Hsl].
  repeat split; auto.
Qed.

(** X8.  Whatever the probes and the server do, health polling makes at
    least one and at most 30 probes, waits at most once per probe, and
    leaves the run context as it found it. *)
Theorem polling_is_bounded
  (W : World) (log_file : Path) (port : Z) (s : St) :
  let o := wait_until_ready W log_file port max_attempts 0 s in
  state o = s /\
  1 <= probes (events o) <= 30 /\
  sleeps (events o) <= probes (events o).
Proof.
  cbv zeta.
  assert (H : forall remaining attempt s,
    wp (wait_until_ready W log_file port remaining attempt) s (fun r s' es =>
      s' = s /\ probes es <= remaining /\ sleeps es <= probes es /\
      (0 < remaining -> 1 <= probes es))).
  { induction remaining as [|n IH]; intros attempt s0.
    - cbn [wait_until_ready]. apply wp_ret. cbn. repeat split; lia.
    - destruct (probe_succeeds (w_health W attempt)) eqn:Hp.
      + apply wp_successful_probe; [exact Hp|]. cbn. repeat split; lia.
      + apply wp_failed_probe; [exact Hp|].
        destruct (w_poll W attempt).
        * unfold report_server_log. wp_run; cbn; repeat split; lia.
        * eapply wp_conseq; [apply IH|]. cbv beta.
          intros r s' es (-> & H1 & H2 & H3). unfold probes, sleeps in *.
          cbn. repeat split; lia. }
  specialize (H max_attempts 0 s). unfold wp in H.
  destruct H as (H0 & H1 & H2 & H3). unfold max_attempts in *.
  repeat split; auto; lia.
Qed.

Lemma for_each_log_only (l : list string) (s : St) :
  wp (for_each l (fun dep => log.error [Lit "  - "; FStr dep])) s
    (fun r s' es => r = Ret tt /\ s' = s /\ Forall (fun e => is_log e = true) es).
Proof.
  induction l as [|x l IH]; cbn [for_each].
  - apply wp_ret. repeat split. constructor.
  - wp_run. eapply wp_conseq; [apply IH|]. cbv beta.
    intros r s' es (-> & -> & H). repeat split. constructor; [reflexivity|exact H].
Qed.


(** *** The smoke test *)

Lemma prefix_lower (p s : string) :
  String.prefix p s = true -> String.prefix (PyStr.lower p) (PyStr.lower s) = true.
Proof.
  revert s. induction p as [|a p IH]; intros s H; [now destruct s|].
  destruct s as [|b s]; [discriminate|]. cbn [String.prefix PyStr.lower] in *.
  destruct (ascii_dec a b) as [->|Hab]; [|discriminate].
  destruct (ascii_dec (PyStr.lower_ascii b) (PyStr.lower_ascii b)); [|congruence].
  now apply IH.
Qed.

Lemma contains_lower (p s : string) :
  PyStr.contains p s = true -> PyStr.contains (PyStr.lower p) (PyStr.lower s) = true.
Proof.
  induction s as [|c s IH]; cbn [PyStr.contains PyStr.lower].
  - destruct (String.prefix p "") eqn:Hp; [|discriminate].
    intros _. pose proof (prefix_lower p "" Hp) as H.
    cbn [PyStr.lower] in H. now rewrite H.
  - destruct (String.prefix p (String c s)) eqn:Hp.
    + intros _. pose proof (prefix_lower p (String c s) Hp) as H.
      cbn [PyStr.lower] in H. now rewrite H.
    + intros H. rewrite (IH H).
      now destruct (String.prefix (PyStr.lower p)
                      (String (PyStr.lower_ascii c) (PyStr.lower s))).
Qed.

(** X10.  When the smoke-test child runs to its end, the verdict of
    [test_claude_headless] depends on its output alone, not on its exit
    status: the test passes exactly when stdout+stderr is not empty and does
    not contain the capitalised word "Error" (the lower-case test of the
    source is implied by the capitalised one). *)
Theorem smoke_test_verdict
  (W : World) (s : St) (wd : Path) (rc : Z) (out err : string) :
  work_dir (cfg s) = Some wd ->
  w_smoke W = Done (Exited rc out err) ->
  result (test_claude_headless W s) = Ret (smoke_output_ok (out ++ err)) /\
  state (test_claude_headless W s) = s.
Proof.
  intros Hwd Hsm.
  change (wp (test_claude_headless W) s (fun r s' _ =>
            r = Ret (smoke_output_ok (out ++ err)) /\ s' = s)).
  unfold test_claude_headless, smoke_output_ok. wp_run; try discriminate.
  all: clear Heqb.
  all: cbn [stdout stderr] in *.
  all: repeat match goal with
       | H : negb _ = true |- _ => apply negb_true_iff in H
       | H : negb _ = false |- _ => apply negb_false_iff in H
       | H : _ && _ = true |- _ => apply andb_true_iff in H; destruct H
       end.
  all: repeat match goal with H : _ = _ :> bool |- _ => rewrite H end.
  all: try (split; reflexivity).
  all: split; [|reflexivity].
  all: match goal with H : _ && _ = false |- _ =>
         apply andb_false_iff in H; destruct H as [H|H] end.
  all: try (rewrite H; reflexivity).
  all: destruct (PyStr.contains "Error" (out ++ err)) eqn:He; [|reflexivity].
  all: apply (contains_lower "Error") in He; cbn [PyStr.lower] in He;
       change (String (PyStr.lower_ascii "E") _) with "error" in He; congruence.
Qed.

(** X11.  Once the output log can be opened, [run_claude_code] returns True
    exactly when the agent exits with status 0 or is cut off by the timeout;
    a non-zero exit and a failure to start the process give False.  In every
    case it returns to its caller (no exception escapes), runs the agent
    exactly once, and has recorded the log file in the run context. *)
Theorem run_claude_code_verdict (W : World) (s : St) (wd : Path) :
  work_dir (cfg s) = Some wd ->
  w_open_write W (wd // "claude_output.log") = IoOk tt ->
  let o := run_claude_code W s in
  result o = Ret (agent_verdict (w_agent W)) /\
  log_file (cfg (state o)) = Some (wd // "claude_output.log") /\
  List.length (filter is_run (events o)) = 1.
Proof.
  intros Hwd Hopen. cbv zeta.
  change (wp (run_claude_code W) s (fun r s' es =>
            r = Ret (agent_verdict (w_agent W)) /\
            log_file (cfg s') = Some (wd // "claude_output.log") /\
            List.length (filter is_run es) = 1)).
  unfold run_claude_code, agent_verdict, work_dir_div.
  apply wp_bind, wp_emit. cbv beta iota.
  apply wp_bind, wp_get_config. cbv beta iota. rewrite Hwd.
  apply wp_bind, wp_ret. cbv beta iota.
  apply wp_bind, wp_update_config. cbv beta iota.
  apply wp_bind, wp_ret. cbv beta iota.
  unfold open_write. rewrite Hopen.
  destruct (w_agent W) as [[rc out err|what]|];
    destruct (PyStr.truthy (extra_prompt (cfg s)));
    wp_run; try discriminate;
    cbn [returncode] in *;
    repeat match goal with
           | H : negb _ = true |- _ => apply negb_true_iff in H
           | H : negb _ = false |- _ => apply negb_false_iff in H
           end;
    repeat split; auto; congruence.
Qed.

(** X12.  If the output log cannot be opened, [run_claude_code] reports
    failure without starting the agent at all. *)
Theorem run_claude_code_log_unwritable
  (W : World) (s : St) (wd : Path) (what : string) :
  work_dir (cfg s) = Some wd ->
  w_open_write W (wd // "claude_output.log") = IoErr what ->
  result (run_claude_code W s) = Ret false /\
  filter is_run (events (run_claude_code W s)) = [].
Proof.
  intros Hwd Hopen.
  change (wp (run_claude_code W) s (fun r s' es =>
            r = Ret false /\ filter is_run es = [])).
  unfold run_claude_code, work_dir_div.
  apply wp_bind, wp_emit. cbv beta iota.
  apply wp_bind, wp_get_config. cbv beta iota. rewrite Hwd.
  apply wp_bind, wp_ret. cbv beta iota.
  apply wp_bind, wp_update_config. cbv beta iota.
  apply wp_bind, wp_ret. cbv beta iota.
  unfold open_write. rewrite Hopen.
  destruct (PyStr.truthy (extra_prompt (cfg s)));
    wp_run; try discriminate; repeat split; auto.
Qed.

(** X13.  [verify_results] fails closed: when the verification child cannot
    be started, or ends without printing a report, the phase returns False
    (no exception escapes) and prints no PASS/FAIL line. *)
Theorem verify_results_fails_closed (W : World) (s : St) (wd : Path) :
  work_dir (cfg s) = Some wd ->
  reported (w_verify W) = false ->
  result (verify_results W s) = Ret false /\
  state (verify_results W s) = s /\
  report_lines (events (verify_results W s)) = [].
Proof.
  intros Hwd Hnot.
  change (wp (verify_results W) s (fun r s' es =>
            r = Ret false /\ s' = s /\ report_lines es = [])).
  unfold verify_results, run_verification_child, work_dir_div.
  apply wp_bind, wp_emit. cbv beta iota.
  apply wp_bind, wp_get_config. cbv beta iota. rewrite Hwd.
  apply wp_bind, wp_ret. cbv beta iota.
  destruct (w_verify W) as [what|raw|d t sc]; [| |discriminate].
  - wp_run. repeat split.
  - destruct (PyStr.strip raw) eqn:Hraw; wp_run; try discriminate; repeat split.
Qed.

(** X14.  The report of the embedded verification script always has the
    three categories datasets, scorers and traces in that order, and its
    [with_assessments] count is 0 whatever the store answers: the script
    initialises the field and never assigns it again. *)
Theorem verification_report_shape (d t : IO nat) (sc : IO string) :
  map fst (results (run d t sc)) = ["datasets"; "scorers"; "traces"] /\
  dict_get (get_dict (results (run d t sc)) "traces") "with_assessments"
  = Some (PInt 0).
Proof. rewrite script_results. split; reflexivity. Qed.

Lemma wait_until_ready_state W lf port remaining attempt s :
  state (wait_until_ready W lf port remaining attempt s) = s /\
  Forall (fun e => allowed None e = true)
    (events (wait_until_ready W lf port remaining attempt s)).
Proof.
  pose proof (wait_until_ready_spec W lf port remaining attempt s) as H.
  unfold wp in H. tauto.
Qed.

(** X15.  Once the server process has been spawned, [start_mlflow_server]
    has its pid in the run context however the start-up ends (ready, timed
    out, died, or an exception while reporting); and MLFLOW_TRACKING_URI is
    exported, as the local address with the configured port, exactly when
    the function returns True. *)
Theorem start_mlflow_server_records_pid
  (W : World) (s : St) (wd : Path) (pid : Z) :
  work_dir (cfg s) = Some wd ->
  w_mkdir W (wd // "mlflow-data") = IoOk tt ->
  w_mkdir W (wd // "mlflow-data" // "artifacts") = IoOk tt ->
  w_open_write W (wd // "mlflow-server.log") = IoOk tt ->
  w_popen W (mlflow_server_argv (mlflow_port (cfg s))
               ("sqlite:///" ++ path_str (wd // "mlflow-data") ++ "/mlflow.db")
               (path_str (wd // "mlflow-data" // "artifacts"))) = IoOk pid ->
  let o := start_mlflow_server W s in
  cfg (state o) = set_mlflow_server_pid pid (cfg s) /\
  (result o = Ret true ->
   environ (state o)
   = ("MLFLOW_TRACKING_URI", local_tracking_uri (mlflow_port (cfg s))) :: environ s) /\
  (result o <> Ret true -> environ (state o) = environ s).
Proof.
  intros Hwd Hm1 Hm2 Hopen Hpopen. cbv zeta.
  change (wp (start_mlflow_server W) s (fun r s' es =>
    cfg s' = set_mlflow_server_pid pid (cfg s) /\
    (r = Ret true ->
     environ s'
     = ("MLFLOW_TRACKING_URI", local_tracking_uri (mlflow_port (cfg s))) :: environ s) /\
    (r <> Ret true -> environ s' = environ s))).
  unfold start_mlflow_server.
  wp_run; try discriminate.
  eapply wp_conseq; [apply wait_until_ready_spec|]. cbv beta.
  intros r s' es (-> & _ & _).
  destruct r as [[| |]|e]; unfold report_server_log; wp_run;
    cbn [cfg environ]; repeat split; try congruence; try discriminate.
Qed.

Lemma no_sigterm_outside_stop wd es :
  Forall (fun e => cleanup_event wd false e = true) es -> filter is_sigterm es = [].
Proof.
  induction 1 as [|e es He _ IH]; [reflexivity|].
  cbn [filter]. destruct e; cbn in He |- *; try discriminate; try exact IH.
Qed.


(** X19.  When the command that creates the experiment exits 0, its
    stripped standard output is stored as the experiment id whether or not
    it is accepted, and the step succeeds exactly when that text is not
    empty and contains neither "Error" nor "Traceback". *)
Theorem create_experiment_verdict
  (W : World) (s : St) (project_dir : Path) (out err : string) :
  w_run W (create_experiment_argv (experiment_name_text (cfg s)))
  = Exited 0 out err ->
  let o := create_experiment W project_dir s in
  result o = Ret (experiment_id_ok (PyStr.strip out)) /\
  cfg (state o) = set_experiment_id (PyStr.strip out) (cfg s).
Proof.
  intros Hrun. cbv zeta.
  change (wp (create_experiment W project_dir) s (fun r s' _ =>
            r = Ret (experiment_id_ok (PyStr.strip out)) /\
            cfg s' = set_experiment_id (PyStr.strip out) (cfg s))).
  unfold create_experiment, experiment_id_ok, experiment_name_text in *.
  apply wp_bind, wp_get_config. cbv beta iota.
  apply wp_bind, wp_emit. cbv beta iota.
  apply wp_try_except. unfold run_command, subprocess_run.
  apply wp_bind, wp_bind, wp_emit. cbv beta iota.
  rewrite Hrun. unfold finish. cbn [Z.eqb negb andb]. cbv iota.
  apply wp_ret. cbv beta iota. cbn [stdout].
  apply wp_bind, wp_update_config. cbv beta iota.
  destruct (PyStr.truthy (PyStr.strip out)); cbn [negb orb andb];
    [|wp_run; split; reflexivity].
  destruct (PyStr.contains "Error" (PyStr.strip out)); cbn [negb orb andb];
    [wp_run; split; reflexivity|].
  destruct (PyStr.contains "Traceback" (PyStr.strip out)); cbn [negb orb andb];
    wp_run; split; reflexivity.
Qed.

(** X20.  A non-zero exit of the command that creates the experiment fails
    the step and leaves the run context without an experiment id. *)
Theorem create_experiment_command_fails
  (W : World) (s : St) (project_dir : Path) (rc : Z) (out err : string) :
  w_run W (create_experiment_argv (experiment_name_text (cfg s)))
  = Exited rc out err ->
  rc <> 0%Z ->
  result (create_experiment W project_dir s) = Ret false /\
  state (create_experiment W project_dir s) = s.
Proof.
  intros Hrun Hrc. apply Z.eqb_neq in Hrc.
  change (wp (create_experiment W project_dir) s (fun r s' _ =>
            r = Ret false /\ s' = s)).
  unfold create_experiment, experiment_name_text in *.
  apply wp_bind, wp_get_config. cbv beta iota.
  apply wp_bind, wp_emit. cbv beta iota.
  apply wp_try_except. unfold run_command, subprocess_run.
  apply wp_bind, wp_bind, wp_emit. cbv beta iota.
  rewrite Hrun. unfold finish. rewrite Hrc. cbn [negb andb]. cbv iota.
  apply wp_raise. wp_simpl. wp_run. split; reflexivity.
Qed.


(** X22.  If cloning the agent repository fails, Setup stops there: it
    returns False having run that one command, no server is started, and
    the working directory it created stays recorded for cleanup. *)
Theorem setup_stops_at_failed_clone
  (W : World) (s : St) (suffix : string) (rc : Z) (out err : string) :
  let wd := test_runs_dir (cfg s) // ("agent-eval-test-" ++ suffix) in
  w_mkdir W (test_runs_dir (cfg s)) = IoOk tt ->
  w_mkdtemp W (test_runs_dir (cfg s)) "agent-eval-test-" = IoOk suffix ->
  w_run W ["git"; "clone"; "--depth"; "1"; mlflow_agent_repo (cfg s);
           path_str (wd // "mlflow-agent")] = Exited rc out err ->
  rc <> 0%Z ->
  let o := setup_phase W s in
  result o = Ret false /\
  work_dir (cfg (state o)) = Some wd /\
  List.length (filter is_run (events o)) = 1 /\
  filter is_popen (events o) = [].
Proof.
  intros wd Hmk Htmp Hrun Hrc o. subst wd o. apply Z.eqb_neq in Hrc.
  unfold test_runs_dir in *.
  match goal with |- ?a /\ ?b /\ ?c /\ ?d =>
    change (wp (setup_phase W) s (fun r s' es =>
      r = Ret false /\
      work_dir (cfg s') = Some (path_parent (skill_dir (cfg s)) // "test-runs"
                                // ("agent-eval-test-" ++ suffix)) /\
      List.length (filter is_run es) = 1 /\ filter is_popen es = []))
  end.
  unfold setup_phase, mkdir, mkdtemp.
  apply wp_bind, wp_emit. cbv beta iota.
  apply wp_bind, wp_get_config. cbv beta iota.
  apply wp_bind, wp_bind, wp_emit. cbv beta iota.
  rewrite Hmk. apply wp_ret. cbv beta iota.
  apply wp_bind, wp_bind. rewrite Htmp. apply wp_ret. cbv beta iota.
  apply wp_bind, wp_emit. cbv beta iota.
  apply wp_ret. cbv beta iota.
  apply wp_bind, wp_update_config. cbv beta iota.
  apply wp_bind, wp_emit. cbv beta iota.
  unfold and_then at 1. apply wp_bind.
  unfold clone_repository. apply wp_bind, wp_emit. cbv beta iota.
  apply wp_try_except. unfold run_command, subprocess_run.
  apply wp_bind, wp_bind, wp_emit. cbv beta iota.
  rewrite Hrun. unfold finish. rewrite Hrc. cbn [negb andb]. cbv iota.
  apply wp_raise. wp_simpl. wp_run. repeat split.
Qed.

(* ------------------------------------------------------------------ *)
(** ** More on whole runs *)

(** X17.  Every run is the events of the phases, then (if an exception left
    [main]) its traceback, then cleanup: nothing before the Cleanup header
    sends a signal or enters cleanup, and after it the trace holds cleanup's
    own events followed at most by the traceback of an OSError that escaped
    cleanup. *)
Theorem signals_only_during_cleanup (W : World) (args : Args) :
  exists before body fault,
    trace (script W args)
    = before ++ EvLog SECTION [Lit "Cleanup"] :: body ++ fault /\
    kills before = [] /\
    entries "Cleanup" before = 0 /\
    uncaught body = [] /\
    (fault = [] \/ exists what, fault = [EvUncaught (OSError what)]).
Proof.
  destruct (script_spec W args)
    as (main_es & tb & body & fault & Ht & Hph & _ & Hb & _ & Htb & Hf & _).
  exists (main_es ++ tb), body, fault.
  split; [rewrite Ht, <- !app_assoc; reflexivity|].
  split; [|split; [|split]].
  - rewrite kills_app, (@phase_events_no_kill main_es Hph).
    destruct Htb as [-> | [e ->]]; reflexivity.
  - rewrite entries_app, (@phase_events_entries_cleanup main_es Hph).
    destruct Htb as [-> | [e ->]]; reflexivity.
  - clear -Hb. induction Hb as [|e es He _ IH]; [reflexivity|].
    unfold uncaught in *. cbn [filter].
    destruct e; cbn in He |- *; try discriminate; exact IH.
  - exact Hf.
Qed.


(* ------------------------------------------------------------------ *)
(** ** What a run removes *)

Lemma removals_app a b : removals (a ++ b) = removals a ++ removals b.
Proof. apply flat_map_app. Qed.

Create HintDb keep_specs.

Ltac wp_keep_call :=
  eapply wp_conseq; [ solve [auto with keep_specs] | ];
  cbv beta; intros ? ? ? ?.

Ltac wp_keep := repeat (first [wp_prim | wp_keep_call]; wp_simpl).

Ltac keeps_tac :=
  unfold keeps, removals in *; split_hyps; cbn [cfg] in *;
  repeat match goal with
         | H : keep_workdir _ = _ |- _ => progress cbn in H
         end;
  split;
  [ cbn; congruence
  | rewrite ?flat_map_app; cbn [flat_map app];
    repeat match goal with H : flat_map _ _ = [] |- _ => rewrite H end;
    reflexivity ].

Section Keeps.

Variable W : World.

Lemma for_each_missing_keeps (l : list string) s :
  wp (for_each l (fun dep => log.error [Lit "  - "; FStr dep])) s
    (fun _ s' es => keeps s s' es).
Proof.
  induction l as [|x l IH]; cbn [for_each].
  - wp_run. keeps_tac.
  - wp_run. eapply wp_conseq; [apply IH|]. cbv beta. intros r s' es H. keeps_tac.
Qed.
#[local] Hint Resolve for_each_missing_keeps : keep_specs.

Lemma check_prerequisites_keeps s :
  wp (check_prerequisites W) s (fun _ s' es => keeps s s' es).
Proof. unfold check_prerequisites. wp_keep. all: keeps_tac. Qed.

Lemma clone_repository_keeps config wd s :
  wp (clone_repository W config wd) s (fun _ s' es => keeps s s' es).
Proof. unfold clone_repository. wp_keep. all: keeps_tac. Qed.

Lemma install_skill_keeps config wd s :
  wp (install_skill W config wd) s (fun _ s' es => keeps s s' es).
Proof. unfold install_skill. wp_keep. all: keeps_tac. Qed.

Lemma install_dependencies_keeps p s :
  wp (install_dependencies W p) s (fun _ s' es => keeps s s' es).
Proof. unfold install_dependencies. wp_keep. all: keeps_tac. Qed.

Lemma add_mlflow_package_keeps p s :
  wp (add_mlflow_package W p) s (fun _ s' es => keeps s s' es).
Proof. unfold add_mlflow_package. wp_keep. all: keeps_tac. Qed.

Lemma configure_external_server_keeps config p s :
  wp (configure_external_server W config p) s (fun _ s' es => keeps s s' es).
Proof. unfold configure_external_server. wp_keep. all: keeps_tac. Qed.

Lemma databricks_user_keeps p s :
  wp (databricks_user W p) s (fun _ s' es => keeps s s' es).
Proof. unfold databricks_user. wp_keep. all: keeps_tac. Qed.
#[local] Hint Resolve databricks_user_keeps : keep_specs.

Lemma choose_experiment_name_keeps config s :
  wp (choose_experiment_name W config) s (fun _ s' es => keeps s s' es).
Proof. unfold choose_experiment_name. wp_keep. all: keeps_tac. Qed.

Lemma create_experiment_keeps p s :
  wp (create_experiment W p) s (fun _ s' es => keeps s s' es).
Proof. unfold create_experiment. wp_keep. all: keeps_tac. Qed.

Lemma export_experiment_keeps s :
  wp export_experiment s (fun _ s' es => keeps s s' es).
Proof. unfold export_experiment. wp_keep. all: keeps_tac. Qed.

Lemma report_server_log_keeps headline lf s :
  wp (report_server_log W headline lf) s (fun _ s' es => keeps s s' es).
Proof. unfold report_server_log. wp_keep. all: keeps_tac. Qed.
#[local] Hint Resolve report_server_log_keeps : keep_specs.

Lemma wait_until_ready_keeps lf port remaining : forall attempt s,
  wp (wait_until_ready W lf port remaining attempt) s (fun _ s' es => keeps s s' es).
Proof.
  induction remaining as [|n IH]; intros attempt s; cbn [wait_until_ready].
  - wp_run. keeps_tac.
  - wp_keep. all: try (keeps_tac; fail).
    all: eapply wp_conseq; [apply IH|]; cbv beta; intros r s' es H; keeps_tac.
Qed.
#[local] Hint Resolve wait_until_ready_keeps : keep_specs.

Lemma start_mlflow_server_keeps s :
  wp (start_mlflow_server W) s (fun _ s' es => keeps s s' es).
Proof. unfold start_mlflow_server. wp_keep. all: keeps_tac. Qed.

#[local] Hint Resolve clone_repository_keeps install_skill_keeps
  install_dependencies_keeps add_mlflow_package_keeps
  configure_external_server_keeps choose_experiment_name_keeps
  create_experiment_keeps export_experiment_keeps start_mlflow_server_keeps
  : keep_specs.

Lemma setup_phase_keeps s :
  wp (setup_phase W) s (fun _ s' es => keeps s s' es).
Proof. unfold setup_phase. wp_keep. all: keeps_tac. Qed.

Lemma test_claude_headless_keeps s :
  wp (test_claude_headless W) s (fun _ s' es => keeps s s' es).
Proof. unfold test_claude_headless. wp_keep. all: keeps_tac. Qed.

Lemma run_claude_code_keeps s :
  wp (run_claude_code W) s (fun _ s' es => keeps s s' es).
Proof. unfold run_claude_code. wp_keep. all: keeps_tac. Qed.

Lemma report_category_keeps results key label unit_ s :
  wp (report_category results key label unit_) s (fun _ s' es => keeps s s' es).
Proof. unfold report_category. wp_keep. all: keeps_tac. Qed.
#[local] Hint Resolve report_category_keeps : keep_specs.

Lemma verify_results_keeps s :
  wp (verify_results W) s (fun _ s' es => keeps s s' es).
Proof. unfold verify_results, run_verification_child. wp_keep. all: keeps_tac. Qed.

End Keeps.

#[local] Hint Resolve check_prerequisites_keeps setup_phase_keeps
  test_claude_headless_keeps run_claude_code_keeps verify_results_keeps
  : keep_specs.

Lemma main_body_keeps W s :
  wp (main_body W) s (fun _ s' es => keeps s s' es).
Proof.
  unfold main_body.
  apply wp_bind, wp_atexit_register; cbv beta iota.
  apply wp_bind, wp_get_config; cbv beta iota.
  apply wp_bind, wp_emit; cbv beta iota.
  apply wp_bind, wp_emit; cbv beta iota.
  apply wp_bind, wp_when_info; cbv beta iota.
  apply wp_bind, wp_when_info; cbv beta iota.
  apply wp_bind, wp_when_info; cbv beta iota.
  wp_keep.
  all: cbn [cfg].
  all: destruct (PyStr.truthy (extra_prompt (cfg s))),
         (truthy_opt_str (tracking_uri (cfg s))),
         (truthy_opt_str (openai_api_key (cfg s))).
  all: keeps_tac.
Qed.

Section CleanupRemovals.

Variable W : World.

Lemma wait_for_exit_removes_nothing pid n : forall i s,
  wp (wait_for_exit W pid n i) s (fun r _ es => r = Ret tt /\ removals es = []).
Proof.
  induction n as [|n IH]; intros i s; cbn [wait_for_exit].
  - wp_run. split; reflexivity.
  - wp_run; try discriminate; try (split; reflexivity).
    eapply wp_conseq; [apply IH|]. cbv beta. intros r s' es (-> & H).
    split; [reflexivity|]. rewrite ?removals_app, H. reflexivity.
Qed.

Lemma stop_server_removes_nothing pid s :
  wp (stop_server W pid) s (fun _ _ es => removals es = []).
Proof.
  unfold stop_server. wp_run; try discriminate; try reflexivity.
  eapply wp_conseq; [apply wait_for_exit_removes_nothing|]. cbv beta.
  intros r s' es (-> & H). wp_run.
  rewrite ?removals_app, H. reflexivity.
Qed.

Lemma for_each_copy_removes_nothing src dst items s :
  wp (for_each items (copy_item src dst)) s (fun _ _ es => removals es = []).
Proof.
  induction items as [|it items IH]; cbn [for_each].
  - wp_run. reflexivity.
  - unfold copy_item. wp_run; try reflexivity.
    all: eapply wp_conseq; [apply IH|]; cbv beta; intros r s' es H;
      rewrite ?removals_app, H; reflexivity.
Qed.

Lemma copy_session_logs_removes_nothing wd s :
  wp (copy_session_logs W wd) s (fun _ _ es => removals es = []).
Proof.
  unfold copy_session_logs. wp_run; try reflexivity.
  all: eapply wp_conseq; [apply for_each_copy_removes_nothing|]; cbv beta;
    intros r s' es H; destruct r; wp_run;
    rewrite ?removals_app, H; reflexivity.
Qed.

Lemma remove_or_keep_removals config wd s :
  wp (remove_or_keep W config wd) s (fun _ _ es =>
    removals es = if keep_workdir config then [] else [wd]).
Proof.
  unfold remove_or_keep. destruct (keep_workdir config); cbn [negb];
    wp_run; reflexivity.
Qed.

Lemma cleanup_removals s :
  wp (cleanup W) s (fun _ s' es =>
    s' = s /\
    (removals es = [] \/
     keep_workdir (cfg s) = false /\
     exists wd, work_dir (cfg s) = Some wd /\ removals es = [wd])).
Proof.
  pose proof (cleanup_spec W s) as Hs. unfold wp in Hs. destruct Hs as (Hst & _).
  unfold wp. split; [exact Hst|]. clear Hst.
  change (wp (cleanup W) s (fun _ _ es =>
    removals es = [] \/
    keep_workdir (cfg s) = false /\
    exists wd, work_dir (cfg s) = Some wd /\ removals es = [wd])).
  unfold cleanup.
  apply wp_bind, wp_emit. cbv beta iota.
  apply wp_bind, wp_get_config. cbv beta iota.
  apply wp_bind.
  assert (H1 : wp (match work_dir (cfg s) with
                   | Some wd => if w_exists W AtCleanupCopy wd
                                then copy_session_logs W wd else ret tt
                   | None => ret tt
                   end) s (fun _ s' es => s' = s /\ removals es = [])).
  { destruct (work_dir (cfg s)) as [wd|]; [|apply wp_ret; split; reflexivity].
    destruct (w_exists W AtCleanupCopy wd); [|apply wp_ret; split; reflexivity].
    pose proof (copy_session_logs_spec W wd s) as Ha.
    pose proof (copy_session_logs_removes_nothing wd s) as Hb.
    unfold wp in *. tauto. }
  eapply wp_conseq; [exact H1|]. cbv beta. intros r s' es (-> & He).
  destruct r as [[]|e]; [|left; exact He].
  apply wp_bind.
  assert (H2 : wp (match mlflow_server_pid (cfg s) with
                   | Some pid =>
                       if negb (pid =? 0)%Z && negb (use_external_server (cfg s))
                       then stop_server W pid else ret tt
                   | None => ret tt
                   end) s (fun _ s' es => s' = s /\ removals es = [])).
  { destruct (mlflow_server_pid (cfg s)) as [pid|]; [|apply wp_ret; split; reflexivity].
    destruct (negb (pid =? 0)%Z && negb (use_external_server (cfg s)));
      [|apply wp_ret; split; reflexivity].
    pose proof (stop_server_spec W pid s) as Ha.
    pose proof (stop_server_removes_nothing pid s) as Hb.
    unfold wp in *. tauto. }
  eapply wp_conseq; [exact H2|]. cbv beta. intros r s' es' (-> & He').
  destruct r as [[]|e]; [|left; cbn; rewrite !removals_app, He, He'; reflexivity].
  destruct (work_dir (cfg s)) as [wd|] eqn:Hwd;
    [|apply wp_ret; left; cbn; rewrite !removals_app, He, He'; reflexivity].
  destruct (w_exists W AtCleanupRemove wd);
    [|apply wp_ret; left; cbn; rewrite !removals_app, He, He'; reflexivity].
  eapply wp_conseq; [apply remove_or_keep_removals|]. cbv beta.
  intros r s' es'' Hr.
  change (removals (EvLog SECTION [Lit "Cleanup"] :: ([] ++ es ++ es' ++ es'')))
    with (removals ([] ++ es ++ es' ++ es'')).
  rewrite !removals_app, He, He', Hr. cbn [app removals flat_map].
  destruct (keep_workdir (cfg s)); [left; reflexivity|].
  right. split; [reflexivity|]. exists wd. split; reflexivity.
Qed.

End CleanupRemovals.

(** X23.  A run removes at most one directory: nothing at all unless it was
    started with --no-keep-workdir, and then only its own working directory,
    once, in cleanup.  No phase removes anything. *)
Theorem run_removes_at_most_its_work_dir (W : World) (args : Args) :
  let x := script W args in
  removals (trace x) = [] \/
  a_keep_workdir args = false /\
  exists wd, work_dir (cfg (final x)) = Some wd /\ removals (trace x) = [wd].
Proof.
  cbv zeta. unfold script, main.
  set (s0 := mkSt (initial_config W args) (w_environ W) []).
  pose proof (@main_body_spec W s0 eq_refl eq_refl) as Hm.
  unfold wp, phases_post in Hm. destruct Hm as (Hat & _).
  pose proof (main_body_keeps W s0) as Hk. unfold wp, keeps in Hk.
  destruct Hk as (Hkeep & Hrem).
  remember (main_body W s0) as o eqn:Eo. clear Eo.
  rewrite Hat. change (rev (atexit (registered s0))) with [CleanupHandler].
  cbn [trace final run_exit_handlers call_handler].
  assert (Hc : wp (try_except (cleanup W)
                     (catch_all (fun e => emit (EvUncaught e))) ;; ret tt)
                 (state o) (fun _ s' es =>
      s' = state o /\
      (removals es = [] \/
       keep_workdir (cfg (state o)) = false /\
       exists wd, work_dir (cfg (state o)) = Some wd /\ removals es = [wd]))).
  { apply wp_bind, wp_try_except.
    eapply wp_conseq; [apply cleanup_removals|]. cbv beta.
    intros r s' es (-> & Hr).
    destruct r as [[]|e].
    - apply wp_ret. rewrite app_nil_r. split; [reflexivity|exact Hr].
    - wp_simpl. apply wp_emit, wp_ret. split; [reflexivity|].
      rewrite app_nil_r, removals_app. cbn [removals flat_map app].
      rewrite app_nil_r. exact Hr. }
  unfold wp in Hc. destruct Hc as (Hst & Hc). rewrite Hst.
  rewrite !removals_app, Hrem.
  assert (Htb : removals (match result o with
                          | Ret _ => []
                          | Raise e => [EvUncaught e]
                          end) = []) by (destruct (result o); reflexivity).
  rewrite Htb. cbn [app].
  destruct Hc as [Hc | (Hk & wd & Hwd & Hc)]; [left; exact Hc|].
  right. split; [rewrite <- Hk, Hkeep; reflexivity|].
  exists wd. split; assumption.
Qed.

(* ------------------------------------------------------------------ *)
(** ** Experiment names *)

Local Open Scope string_scope.

Lemma string_app_assoc (a b c : string) : (a ++ b) ++ c = a ++ (b ++ c).
Proof. induction a as [|x a IH]; simpl; [reflexivity | now rewrite IH]. Qed.

Lemma string_app_length (a b : string) :
  String.length (a ++ b) = String.length a + String.length b.
Proof. induction a as [|x a IH]; simpl; [reflexivity | now rewrite IH]. Qed.

(** Two texts that end in tails of the same length and are equal have the
    same tail. *)
Lemma same_tail (a b x y : string) :
  a ++ x = b ++ y -> String.length x = String.length y -> x = y.
Proof.
  revert b. induction a as [|c a IH]; intros b H L.
  - destruct b as [|d b]; [exact H|]. exfalso.
    apply (f_equal String.length) in H. simpl in H.
    rewrite string_app_length in H. lia.
  - destruct b as [|d b].
    + exfalso. apply (f_equal String.length) in H. simpl in H.
      rewrite string_app_length in H. lia.
    + simpl in H. injection H as _ H. now apply (IH b).
Qed.

Lemma digit_inj (a b : Z) :
  (0 <= a < 10)%Z -> (0 <= b < 10)%Z -> digit a = digit b -> a = b.
Proof.
  unfold digit. intros Ha Hb H.
  rewrite !Z.mod_small in H by lia.
  apply (f_equal N_of_ascii) in H.
  rewrite !N_ascii_embedding in H by lia. lia.
Qed.

Lemma two_digits_inj (n m : Z) :
  (0 <= n < 100)%Z -> (0 <= m < 100)%Z -> two_digits n = two_digits m -> n = m.
Proof.
  unfold two_digits. intros Hn Hm H. injection H as H1 H0.
  assert (E1 : (n / 10 = m / 10)%Z).
  { apply digit_inj; [| |exact H1].
    - split; [apply Z.div_pos; lia | apply Z.div_lt_upper_bound; lia].
    - split; [apply Z.div_pos; lia | apply Z.div_lt_upper_bound; lia]. }
  assert (E0 : (n mod 10 = m mod 10)%Z).
  { apply digit_inj; try (apply Z.mod_pos_bound; lia).
    unfold digit in *. now rewrite !Z.mod_mod by lia. }
  rewrite (Z.div_mod n 10), (Z.div_mod m 10) by lia. now rewrite E1, E0.
Qed.

Lemma four_digits_inj (n m : Z) :
  (0 <= n < 10000)%Z -> (0 <= m < 10000)%Z ->
  four_digits n = four_digits m -> n = m.
Proof.
  unfold four_digits. intros Hn Hm H. injection H as H3 H2 H1 H0.
  assert (D : forall a b : Z, digit a = digit b -> (a mod 10 = b mod 10)%Z).
  { intros a b E. apply digit_inj; try (apply Z.mod_pos_bound; lia).
    unfold digit in *. now rewrite !Z.mod_mod by lia. }
  apply D in H3, H2, H1, H0. clear D.
  Z.div_mod_to_equations. lia.
Qed.

Lemma strftime_stamp_length t : String.length (strftime_stamp t) = 15.
Proof. reflexivity. Qed.

Lemma strftime_stamp_inj (t1 t2 : DateTime) :
  valid_datetime t1 -> valid_datetime t2 ->
  strftime_stamp t1 = strftime_stamp t2 ->
  to_the_second t1 = to_the_second t2.
Proof.
  intros V1 V2 H. unfold valid_datetime in *.
  unfold strftime_stamp, to_the_second in *.
  cbn [four_digits two_digits append] in H.
  injection H as y3 y2 y1 y0 mo1 mo0 d1 d0 h1 h0 mi1 mi0 s1 s0.
  assert (Y : dt_year t1 = dt_year t2).
  { apply four_digits_inj; [lia | lia |]. unfold four_digits. congruence. }
  assert (Mo : dt_month t1 = dt_month t2).
  { apply two_digits_inj; [lia | lia |]. unfold two_digits. congruence. }
  assert (D : dt_day t1 = dt_day t2).
  { apply two_digits_inj; [lia | lia |]. unfold two_digits. congruence. }
  assert (Ho : dt_hour t1 = dt_hour t2).
  { apply two_digits_inj; [lia | lia |]. unfold two_digits. congruence. }
  assert (Mi : dt_minute t1 = dt_minute t2).
  { apply two_digits_inj; [lia | lia |]. unfold two_digits. congruence. }
  assert (Se : dt_second t1 = dt_second t2).
  { apply two_digits_inj; [lia | lia |]. unfold two_digits. congruence. }
  congruence.
Qed.

Lemma generated_name_tail now user :
  exists front, generated_name now user = front ++ strftime_stamp now.
Proof.
  destruct user as [u|]; unfold generated_name, databricks_experiment_name,
    base_experiment_name.
  - exists ("/Users/" ++ u ++ "/agent-eval-test-").
    rewrite !string_app_assoc. reflexivity.
  - now exists "agent-eval-test-".
Qed.

Lemma generated_name_inj t1 t2 u1 u2 :
  valid_datetime t1 -> valid_datetime t2 ->
  generated_name t1 u1 = generated_name t2 u2 ->
  to_the_second t1 = to_the_second t2.
Proof.
  intros V1 V2 H.
  destruct (generated_name_tail t1 u1) as [f1 E1].
  destruct (generated_name_tail t2 u2) as [f2 E2].
  rewrite E1, E2 in H.
  apply strftime_stamp_inj; [exact V1 | exact V2 |].
  eapply same_tail; [exact H|]. now rewrite !strftime_stamp_length.
Qed.

Lemma choose_experiment_name_generated W c s :
  result (choose_experiment_name W c s) = Ret true ->
  exists user,
    experiment_name (cfg (state (choose_experiment_name W c s)))
    = Some (generated_name (w_now_setup W) user).
Proof.
  change (wp (choose_experiment_name W c) s (fun r s' _ =>
            r = Ret true ->
            exists user,
              experiment_name (cfg s') = Some (generated_name (w_now_setup W) user))).
  unfold choose_experiment_name. wp_run; try discriminate.
  - eapply wp_conseq; [apply databricks_user_spec|]. cbv beta.
    intros r s' es (-> & _). wp_run; try discriminate.
    intros _. now exists (Some a).
  - intros _. now exists None.
  - intros _. now exists None.
Qed.

(** Claim C8, as amended.  Two Setup phases that settle on the same
    experiment name read clocks that agree down to the second: names
    generated in different seconds never collide, names generated within
    the same second may. *)
Theorem experiment_names_differ_across_seconds
  (W1 W2 : World) (c1 c2 : Config) (s1 s2 : St) :
  valid_datetime (w_now_setup W1) ->
  valid_datetime (w_now_setup W2) ->
  result (choose_experiment_name W1 c1 s1) = Ret true ->
  result (choose_experiment_name W2 c2 s2) = Ret true ->
  experiment_name (cfg (state (choose_experiment_name W1 c1 s1)))
  = experiment_name (cfg (state (choose_experiment_name W2 c2 s2))) ->
  to_the_second (w_now_setup W1) = to_the_second (w_now_setup W2).
Proof.
  intros V1 V2 R1 R2 H.
  destruct (choose_experiment_name_generated W1 c1 s1 R1) as [u1 E1].
  destruct (choose_experiment_name_generated W2 c2 s2 R2) as [u2 E2].
  rewrite E1, E2 in H. injection H as H.
  eapply generated_name_inj; [exact V1 | exact V2 | exact H].
Qed.

(* ------------------------------------------------------------------ *)
(** ** Concrete runs *)

Import Scenario.

(** Claim C1.  A run that ends with all five phases passed and
    --no-keep-workdir, on a machine where removing the working directory
    fails: the OSError of shutil.rmtree leaves [cleanup] unhandled.  The
    same happens, with the default arguments, when the claude-sessions
    directory cannot be created. *)
Theorem cleanup_lets_oserror_escape :
  uncaught (trace (script rmtree_fails args_no_keep))
  = [EvUncaught (OSError "Directory not empty")] /\
  exit_code (script rmtree_fails args_no_keep) = 0%Z /\
  uncaught (trace (script sessions_dir_blocked args))
  = [EvUncaught (OSError "File exists")].
Proof. vm_compute. repeat split. Qed.

Lemma execution_timeout_witness :
  entries "Verification Phase" (trace (script agent_times_out args)) = 1 /\
  exit_code (script agent_times_out args) = EXIT_SUCCESS.
Proof.
  edestruct (@execution_timeout_proceeds_to_verification agent_times_out args)
    as (_ & Hv & Hc).
  - vm_compute. reflexivity.
  - vm_compute. reflexivity.
  - vm_compute. reflexivity.
  - reflexivity.
  - split; [exact Hv|]. vm_compute. reflexivity.
Defined.

Lemma execution_nonzero_exit_witness :
  entries "Verification Phase" (trace (script agent_exits_1 args)) = 0 /\
  entries "Cleanup" (trace (script agent_exits_1 args)) = 1 /\
  exit_code (script agent_exits_1 args) = 2%Z.
Proof.
  edestruct (@execution_nonzero_exit_halts_pipeline agent_exits_1 args)
    as (_ & Hv & Hc & He).
  - vm_compute. reflexivity.
  - vm_compute. reflexivity.
  - vm_compute. reflexivity.
  - reflexivity.
  - discriminate.
  - repeat split; assumption.
Defined.

Lemma smoke_test_timeout_witness :
  entries "Running Claude Code Evaluation" (trace (script smoke_times_out args)) = 0 /\
  exit_code (script smoke_times_out args) = 1%Z.
Proof.
  edestruct (@smoke_test_timeout_fails_setup smoke_times_out args)
    as (_ & Hx & _ & He).
  - vm_compute. reflexivity.
  - reflexivity.
  - split; assumption.
Defined.

Lemma verification_verdict_witness :
  result (verify_results no_scorers (context_with_server false)) = Ret false /\
  report_lines (events (verify_results no_scorers (context_with_server false)))
  = [EvPrint false [Lit "  [PASS] "; Lit "Datasets"; Lit ": "; FVal (PInt 2);
                    Lit " "; Lit "created"];
     EvPrint false [Lit "  [FAIL] "; Lit "Scorers"; Lit ": "; FVal (PInt 0);
                    Lit " "; Lit "registered"; Lit " (expected >= 1)"];
     EvPrint false [Lit "  [PASS] "; Lit "Evaluation runs"; Lit ": ";
                    FVal (PInt 1); Lit " "; Lit "traces created"]].
Proof.
  destruct (@verification_verdict no_scorers (context_with_server false)
              ["repo"; "test-runs"; "agent-eval-test-x7k2"]
              (IoOk 2) (IoOk 1) (IoOk "") eq_refl eq_refl) as (Hr & Hl & _).
  split; [exact Hr | exact Hl].
Defined.

Lemma cleanup_external_endpoint_witness :
  use_external_server (cfg (context_with_server true)) = true /\
  kills (events (cleanup happy (context_with_server true))) = [].
Proof.
  split; [reflexivity|].
  apply cleanup_external_endpoint_sends_no_signal. reflexivity.
Defined.

Lemma polling_fails_fast_witness :
  probes (events (wait_until_ready server_dies ["srv.log"] 5000 max_attempts 0
                    (context_with_server false))) = 4 /\
  sleeps (events (wait_until_ready server_dies ["srv.log"] 5000 max_attempts 0
                    (context_with_server false))) = 3.
Proof.
  edestruct (@polling_fails_fast server_dies ["srv.log"] 5000%Z 1%Z 3
               "server log" (context_with_server false))
    as (_ & Hp & Hs & _).
  - unfold max_attempts. lia.
  - intros i Hi. destruct i as [|[|[|i]]]; [split; reflexivity .. | lia].
  - reflexivity.
  - reflexivity.
  - reflexivity.
  - split; assumption.
Defined.

(** Claim C8, refuted as stated.  Two different runs, started 400 ms apart
    in working directories of their own, give their experiments the same
    name. *)
Lemma experiment_names_collide_within_a_second :
  w_now_setup happy <> w_now_setup a_moment_later /\
  work_dir (cfg (final (script happy args)))
  <> work_dir (cfg (final (script a_moment_later args))) /\
  experiment_name (cfg (final (script happy args)))
  = Some "agent-eval-test-20250314-092653" /\
  experiment_name (cfg (final (script a_moment_later args)))
  = Some "agent-eval-test-20250314-092653".
Proof. vm_compute. repeat split; discriminate. Qed.

Lemma experiment_names_differ_witness :
  to_the_second (w_now_setup happy) = to_the_second (w_now_setup a_moment_later).
Proof.
  apply (@experiment_names_differ_across_seconds happy a_moment_later
           (initial_config happy args) (initial_config a_moment_later args)
           (start_state happy args) (start_state a_moment_later args)).
  - unfold valid_datetime. simpl. lia.
  - unfold valid_datetime. simpl. lia.
  - reflexivity.
  - reflexivity.
  - reflexivity.
Defined.

(** Claim C9, refuted as stated.  In the run where everything works the
    first path written is the shared test-runs directory, which is created
    before the working directory and lies outside it. *)
Lemma first_write_is_outside_working_directory :
  hd_error (fs_targets (trace (script happy args))) = Some ["repo"; "test-runs"] /\
  work_dir (cfg (final (script happy args)))
  = Some ["repo"; "test-runs"; "agent-eval-test-x7k2"] /\
  under ["repo"; "test-runs"; "agent-eval-test-x7k2"] ["repo"; "test-runs"] = false.
Proof. vm_compute. repeat split. Qed.

(* ------------------------------------------------------------------ *)
(** ** The function-level properties on concrete runs *)

Lemma external_endpoint_run_witness :
  kills (trace (script external_endpoint args)) = [].
Proof.
  apply (@external_endpoint_run_sends_no_signal external_endpoint args).
  reflexivity.
Defined.

Lemma cleanup_without_resources_witness :
  events (cleanup happy (start_state happy args)) = [EvLog SECTION [Lit "Cleanup"]].
Proof.
  destruct (@cleanup_without_resources happy (start_state happy args)
              eq_refl eq_refl) as (_ & _ & He).
  exact He.
Defined.


Lemma polling_stops_witness :
  result (wait_until_ready happy ["srv.log"] 5000 max_attempts 0
            (context_with_server false)) = Ret LoopBreak /\
  probes (events (wait_until_ready happy ["srv.log"] 5000 max_attempts 0
                    (context_with_server false))) = 2.
Proof.
  edestruct (@polling_stops_at_first_healthy_probe happy ["srv.log"] 5000%Z 1
               (context_with_server false)) as (Hr & _ & Hp & _).
  - unfold max_attempts. lia.
  - intros i Hi. destruct i as [|i]; [split; reflexivity | lia].
  - reflexivity.
  - split; assumption.
Defined.

Lemma polling_exhausts_witness :
  result (wait_until_ready server_never_ready ["srv.log"] 5000 max_attempts 0
            (context_with_server false)) = Ret LoopElse /\
  sleeps (events (wait_until_ready server_never_ready ["srv.log"] 5000
                    max_attempts 0 (context_with_server false))) = 30.
Proof.
  edestruct (@polling_exhausts_the_ceiling server_never_ready ["srv.log"] 5000%Z
               (context_with_server false)) as (Hr & _ & _ & Hs & _).
  - intros i Hi. split; reflexivity.
  - split; assumption.
Defined.

Lemma smoke_test_verdict_witness :
  result (test_claude_headless
            (with_smoke (Done (Exited 0 "API Error: overloaded" "")) happy)
            (context_with_server false)) = Ret false.
Proof.
  destruct (@smoke_test_verdict
              (with_smoke (Done (Exited 0 "API Error: overloaded" "")) happy)
              (context_with_server false)
              ["repo"; "test-runs"; "agent-eval-test-x7k2"] 0%Z
              "API Error: overloaded" "" eq_refl eq_refl) as (Hr & _).
  exact Hr.
Defined.

Lemma run_claude_code_verdict_witness :
  result (run_claude_code agent_times_out (context_with_server false)) = Ret true.
Proof.
  destruct (@run_claude_code_verdict agent_times_out (context_with_server false)
              ["repo"; "test-runs"; "agent-eval-test-x7k2"] eq_refl eq_refl)
    as (Hr & _).
  exact Hr.
Defined.

Lemma run_claude_code_log_unwritable_witness :
  result (run_claude_code read_only_disk (context_with_server false)) = Ret false /\
  filter is_run (events (run_claude_code read_only_disk (context_with_server false)))
  = [].
Proof.
  apply (@run_claude_code_log_unwritable read_only_disk (context_with_server false)
           ["repo"; "test-runs"; "agent-eval-test-x7k2"] "Read-only file system").
  - reflexivity.
  - reflexivity.
Defined.

Lemma verify_results_fails_closed_witness :
  result (verify_results verifier_dies (context_with_server false)) = Ret false.
Proof.
  destruct (@verify_results_fails_closed verifier_dies (context_with_server false)
              ["repo"; "test-runs"; "agent-eval-test-x7k2"] eq_refl eq_refl)
    as (Hr & _).
  exact Hr.
Defined.

Lemma start_mlflow_server_records_pid_witness :
  mlflow_server_pid
    (cfg (state (start_mlflow_server server_dies (context_no_keep))))
  = Some 4242%Z.
Proof.
  destruct (@start_mlflow_server_records_pid server_dies context_no_keep
              ["repo"; "test-runs"; "agent-eval-test-x7k2"] 4242%Z
              eq_refl eq_refl eq_refl eq_refl eq_refl) as (Hc & _).
  rewrite Hc. reflexivity.
Defined.



Lemma create_experiment_verdict_witness :
  result (create_experiment happy ["repo"] (context_with_server false)) = Ret true /\
  experiment_id
    (cfg (state (create_experiment happy ["repo"] (context_with_server false))))
  = Some "17".
Proof.
  destruct (@create_experiment_verdict happy (context_with_server false) ["repo"]
              "17
" "" eq_refl) as (Hr & Hc).
  split; [exact Hr | rewrite Hc; reflexivity].
Defined.

Lemma create_experiment_command_fails_witness :
  result (create_experiment commands_fail ["repo"] (context_with_server false))
  = Ret false.
Proof.
  destruct (@create_experiment_command_fails commands_fail
              (context_with_server false) ["repo"] 1%Z "" "fatal" eq_refl)
    as (Hr & _).
  - lia.
  - exact Hr.
Defined.


Lemma setup_stops_at_failed_clone_witness :
  result (setup_phase commands_fail (start_state commands_fail args)) = Ret false /\
  filter is_popen (events (setup_phase commands_fail (start_state commands_fail args)))
  = [].
Proof.
  edestruct (@setup_stops_at_failed_clone commands_fail
               (start_state commands_fail args) "x7k2" 1%Z "" "fatal")
    as (Hr & _ & _ & Hp).
  - reflexivity.
  - reflexivity.
  - reflexivity.
  - lia.
  - split; assumption.
Defined.
